(** * Firestore helpers of cloudfunctions-go-utils: retry loops and their guards

    A shallow embedding of [firebasefunctions.go]: the four CRUD helpers
    ([addEntityToFirestore], [getEntityFromFirestore], [editEntityInFirestore],
    [deleteEntityFromFirestore]), the cursor helper
    [firebaseDocumentIteratorWithRetry], the connection refresh
    [getFirestoreAppAndClientWithContext], the allowlist test
    [firestoreCollectionExists] and [LogWrite] of [functiontools.go].

    Go values are modelled as follows.
    - [string] is Go's byte string; [==] is [String.eqb].
    - [int] is a 64-bit integer carried in [Z]; the loop counter never
      leaves the range since it stays below the parsed bound.
    - a nil-able [error] is [option error]; calling [Error()] on nil is the
      run-time panic [NilPointerDereference].
    - the Firestore and Firebase SDK, the process environment and the
      standard logger are the outside world: the SDK is an oracle indexed by
      the number of earlier invocations, the environment and the history of
      invocations live in [world], threaded through every function. *)

From Stdlib Require Import ZArith List String Ascii Bool Lia DecimalString.
Import ListNotations.

Local Open Scope string_scope.
Local Open Scope Z_scope.

(** ** Strings: the parts of [strings], [strconv] and [fmt] the helpers use *)

Module GoString.

(** [len(s)] *)
Definition len (s : string) : Z := Z.of_nat (String.length s).

(** [strings.HasPrefix(s, prefix)] *)
Fixpoint HasPrefix (s prefix : string) : bool :=
  match prefix, s with
  | EmptyString, _ => true
  | String _ _, EmptyString => false
  | String p prefix', String c s' => Ascii.eqb c p && HasPrefix s' prefix'
  end.

(** [strings.Contains(s, substr)]: [substr] occurs at some byte offset. *)
Fixpoint Contains (s substr : string) : bool :=
  HasPrefix s substr ||
  match s with
  | EmptyString => false
  | String _ s' => Contains s' substr
  end.

(** The byte value of a character. *)
Definition byte (c : ascii) : Z := Z.of_N (N_of_ascii c).

(** [strconv.Itoa], also what [%v] and [%d] print for an [int]. *)
Definition Itoa (n : Z) : string := NilEmpty.string_of_int (Z.to_int n).

End GoString.

(** ** Errors *)

Inductive numErr : Type := ErrSyntax | ErrRange.

(** The error values that can flow through the helpers.  [Done] is the
    sentinel [iterator.Done], compared by identity in the source;
    [errorString] is any other error value with the given message (what
    [errors.New] and [fmt.Errorf] build, and what the SDK returns);
    [NumError] is [*strconv.NumError]. *)
Inductive error : Type :=
| Done
| errorString (s : string)
| NumError (Func Num : string) (Err : numErr).

Definition numErr_Error (e : numErr) : string :=
  match e with
  | ErrSyntax => "invalid syntax"
  | ErrRange => "value out of range"
  end.

(** ** [strconv.Atoi] *)

Module Strconv.

Import GoString.

Definition fnAtoi : string := "Atoi".
Definition maxUint64 : Z := 2 ^ 64 - 1.

Definition syntaxError (fn str : string) : error := NumError fn str ErrSyntax.

(** The digit loop of the fast path: [ch -= '0'] wraps in a byte. *)
Fixpoint fastDigits (s : string) (n : Z) : option Z :=
  match s with
  | EmptyString => Some n
  | String ch s' =>
      let ch' := (byte ch - 48) mod 256 in
      if 9 <? ch' then None else fastDigits s' (n * 10 + ch')
  end.

(** The digit loop of [ParseUint(s, 10, 64)]: a byte that is no decimal
    digit is a syntax error (a letter is a digit of value at least 10, so
    not below the base; an underscore is only skipped for base 0), an
    overflow of the accumulator is a range error reported at once. *)
Fixpoint parseUintDigits (s : string) (n : Z) : Z + numErr :=
  match s with
  | EmptyString => inl n
  | String c s' =>
      if (48 <=? byte c) && (byte c <=? 57) then
        let d := byte c - 48 in
        if maxUint64 / 10 + 1 <=? n then inr ErrRange
        else
          let n1 := n * 10 + d in
          if maxUint64 <? n1 then inr ErrRange
          else parseUintDigits s' n1
      else inr ErrSyntax
  end.

Definition ParseUint10 (s : string) : Z + numErr :=
  match s with
  | EmptyString => inr ErrSyntax
  | _ => parseUintDigits s 0
  end.

(** [ParseInt(s, 10, 0)] on a 64-bit platform; an error carries the whole
    input [s0]. *)
Definition ParseInt10 (s : string) : Z * option numErr :=
  match s with
  | EmptyString => (0, Some ErrSyntax)
  | String c rest =>
      let neg := Ascii.eqb c "-" in
      let s1 := if Ascii.eqb c "+" || neg then rest else s in
      let cutoff := 2 ^ 63 in
      match ParseUint10 s1 with
      | inr ErrSyntax => (0, Some ErrSyntax)
      | inr ErrRange =>
          (* un is maxVal: out of range for either sign *)
          if neg then (- cutoff, Some ErrRange) else (cutoff - 1, Some ErrRange)
      | inl un =>
          if negb neg && (cutoff <=? un) then (cutoff - 1, Some ErrRange)
          else if neg && (cutoff <? un) then (- cutoff, Some ErrRange)
          else (if neg then - un else un, None)
      end
  end.

(** [Atoi]: the fast path for inputs of 1 to 18 bytes, [ParseInt]
    otherwise; every error is a [NumError] of function [Atoi]. *)
Definition Atoi (s : string) : Z * option error :=
  let sLen := len s in
  if (0 <? sLen) && (sLen <? 19) then
    match s with
    | EmptyString => (0, Some (syntaxError fnAtoi s))
    | String c rest =>
        let signed := Ascii.eqb c "-" || Ascii.eqb c "+" in
        if signed && (len rest <? 1) then (0, Some (syntaxError fnAtoi s))
        else
          match fastDigits (if signed then rest else s) 0 with
          | None => (0, Some (syntaxError fnAtoi s))
          | Some n => (if Ascii.eqb c "-" then - n else n, None)
          end
    end
  else
    match ParseInt10 s with
    | (i64, Some e) => (i64, Some (NumError fnAtoi s e))
    | (i64, None) => (i64, None)
    end.

End Strconv.

(** ** The outside world *)

(** Handles of the Firebase and Firestore SDK: opaque to the helpers. *)
Inductive App : Type := app (id : nat).
Inductive Client : Type := client (id : nat).
Inductive DocumentIterator : Type := documentIterator (id : nat).
Inductive DocumentRef : Type := documentRef (id : nat).
Inductive DocumentSnapshot : Type := documentSnapshot (id : nat).
Inductive WriteResult : Type := writeResult (id : nat).

(** A non-nil [interface{}] passed as entity; nil is [None]. *)
Inductive Entity : Type := entityValue (id : nat).

(** One invocation of the storage backend, with its arguments:
    [fireclient.Collection(c).Add(ctx, e)],
    [fireclient.Collection(c).Doc(id).Get(ctx)],
    [fireclient.Collection(c).Doc(id).Set(ctx, e, firestore.MergeAll)],
    [fireclient.Collection(c).Doc(id).Delete(ctx)] and [iter.Next()]. *)
Inductive request : Type :=
| Add (fireclient : Client) (collectionName : string) (entity : option Entity)
| Get (fireclient : Client) (collectionName entityID : string)
| SetMergeAll (fireclient : Client) (collectionName entityID : string)
    (entity : option Entity)
| Delete (fireclient : Client) (collectionName entityID : string)
| Next (iter : DocumentIterator).

(** What an invocation hands back: the values of its result list (each may
    be nil) and its error. *)
Record response : Type := mkResponse {
  resp_docRef : option DocumentRef;
  resp_doc : option DocumentSnapshot;
  resp_result : option WriteResult;
  resp_err : option error
}.

(** The SDK and the standard library as a black box.  [sdk_invoke k r] is the
    answer to request [r] when [k] backend invocations came before it;
    [firebase_NewApp k] and [App_Firestore k] are the answers of
    [firebase.NewApp(ctx, nil)] and [fireapp.Firestore(ctx)] in the refresh
    that follows [k] earlier ones; [strconv_Quote] is [strconv.Quote], which
    [NumError.Error] uses. *)
Record SDK : Type := mkSDK {
  sdk_invoke : nat -> request -> response;
  firebase_NewApp : nat -> App + error;
  App_Firestore : nat -> App -> Client + error;
  strconv_Quote : string -> string
}.

(** The state the helpers read and change: the process environment, the
    backend invocations made so far (oldest first), the number of calls of
    the refresh routine, and the format strings handed to [log.Printf]
    (oldest first). *)
Record world : Type := mkWorld {
  environ : list (string * string);
  invocations : list request;
  refreshes : nat;
  printed : list string
}.

(** A Go call either returns or panics. *)
Inductive panic : Type := NilPointerDereference.

Inductive outcome (A : Type) : Type :=
| Returns (a : A)
| Panics (p : panic).
Arguments Returns {A} a.
Arguments Panics {A} p.

(** Control after one pass through a loop body: fall through to the next
    iteration with the local variables [s], or leave the function. *)
Inductive ctl (S R : Type) : Type :=
| Continue (s : S)
| Leave (r : R).
Arguments Continue {S R} s.
Arguments Leave {S R} r.

(** [for i := i0; i < n; i++ { body }], where [fuel] is the number of
    iterations left, [n - i0] or none when that is negative. *)
Fixpoint for_loop {S R : Type} (body : Z -> S -> world -> ctl S R * world)
    (fuel : nat) (i : Z) (s : S) (w : world) : ctl S R * world :=
  match fuel with
  | O => (Continue s, w)
  | Datatypes.S fuel' =>
      match body i s w with
      | (Continue s', w') => for_loop body fuel' (i + 1) s' w'
      | (Leave r, w') => (Leave r, w')
      end
  end.

(** ** Package constants *)

Definition ClosingTransportError : string :=
  "Unavailable desc = transport is closing".
Definition UnavailableServiceError : string :=
  "Unavailable desc = The service is temporarily unavailable".

Definition UsersCollection : string := "users".
Definition PromoItemsCollection : string := "promo_items".
Definition FirestoreCollectionNames : list string :=
  [UsersCollection; PromoItemsCollection].

Definition LogTypeInfo : string := "info".

(** ** World operations *)

(** [os.Getenv]: the value of the first entry for [key], the empty string
    when the variable is unset. *)
Fixpoint lookupEnv (env : list (string * string)) (key : string) : string :=
  match env with
  | [] => ""
  | (k, v) :: rest => if String.eqb k key then v else lookupEnv rest key
  end.

Definition Getenv (key : string) (w : world) : string :=
  lookupEnv (environ w) key.

(** [log.Printf(format)]. *)
Definition log_Printf (format : string) (w : world) : world :=
  mkWorld (environ w) (invocations w) (refreshes w) (printed w ++ [format])%list.

(** [LogWrite] of functiontools.go. *)
Definition LogWrite (logType : string) (errorCode : Z)
    (errorMessage userId : string) (w : world) : world :=
  let userIdMessagePart :=
    if negb (String.eqb userId "") then ", UserId: " ++ userId else "" in
  log_Printf ("application:server, " ++ "logType:" ++ logType
              ++ ", errorCode:" ++ GoString.Itoa errorCode
              ++ userIdMessagePart ++ ", message:" ++ errorMessage)%string w.

(** [firestoreCollectionExists]: the range loop over the allowlist. *)
Fixpoint rangeNames (names : list string) (docName : string) : bool :=
  match names with
  | [] => false
  | name :: rest =>
      if String.eqb name docName then true else rangeNames rest docName
  end.

Definition firestoreCollectionExists (docName : string) : bool :=
  rangeNames FirestoreCollectionNames docName.

(** ** The helpers of firebasefunctions.go *)

Section Helpers.

Variable sdk : SDK.

(** [err.Error()] on a non-nil error. *)
Definition Error (e : error) : string :=
  match e with
  | Done => "no more items in iterator"
  | errorString s => s
  | NumError Func Num Err =>
      ("strconv." ++ Func ++ ": parsing " ++ strconv_Quote sdk Num ++ ": "
       ++ numErr_Error Err)%string
  end.

(** One backend invocation: answered by the oracle, recorded in the world. *)
Definition invoke (r : request) (w : world) : response * world :=
  (sdk_invoke sdk (List.length (invocations w)) r,
   mkWorld (environ w) (invocations w ++ [r])%list (refreshes w) (printed w)).

(** [getFirestoreAppAndClientWithContext]: either a new app and client with
    a nil error, or two nils and the error. *)
Definition getFirestoreAppAndClientWithContext (w : world)
  : ((App * Client) + error) * world :=
  let k := refreshes w in
  let w := mkWorld (environ w) (invocations w) (Datatypes.S k) (printed w) in
  match firebase_NewApp sdk k with
  | inr err => (inr err, w)
  | inl fireapp =>
      match App_Firestore sdk k fireapp with
      | inr err => (inr err, w)
      | inl fireclient => (inl (fireapp, fireclient), w)
      end
  end.

(** The opening lines shared by the five helpers: parse
    FIRESTORE_RETRIES_NUMBER, and on an error use 1 and log it.  The error
    of [Atoi] stays in the local [err]. *)
Definition firestoreRetriesNumber (w : world) : (Z * option error) * world :=
  let '(firestoreRetriesNumber, err) :=
    Strconv.Atoi (Getenv "FIRESTORE_RETRIES_NUMBER" w) in
  match err with
  | Some _ =>
      let firestoreRetriesNumber := 1 in
      ((firestoreRetriesNumber, err),
       LogWrite LogTypeInfo 0
         ("FIRESTORE_RETRIES_NUMBER is missing, was set to: "
          ++ GoString.Itoa firestoreRetriesNumber)%string "" w)
  | None => ((firestoreRetriesNumber, err), w)
  end.

(** *** [firebaseDocumentIteratorWithRetry] *)

(** The loop body declares its own [doc] and [err] ([:=]), so nothing is
    carried from one iteration to the next or out of the loop. *)
Definition iterator_body (iter : DocumentIterator) (i : Z) (s : unit)
    (w : world)
  : ctl unit (option DocumentSnapshot * option error) * world :=
  let '(r, w) := invoke (Next iter) w in
  let doc := resp_doc r in
  match resp_err r with
  | None => (Leave (doc, None), w)
  | Some err =>
      if String.eqb (Error err) ClosingTransportError then
        (Continue tt, w)
      else
        match err with
        | Done => (Leave (None, Some err), w)
        | _ =>
            (Leave (None,
                    Some (errorString
                            ("Unsuccessful document iteration, Error: "
                             ++ Error err)%string)), w)
        end
  end.

Definition firebaseDocumentIteratorWithRetry (iter : DocumentIterator)
    (w : world)
  : outcome (option DocumentSnapshot * option error) * world :=
  let '((firestoreRetriesNumber, err), w) := firestoreRetriesNumber w in
  match for_loop (iterator_body iter) (Z.to_nat firestoreRetriesNumber) 0 tt w
  with
  | (Leave r, w) => (Returns r, w)
  | (Continue _, w) =>
      (* the [err] in scope here is the one of [Atoi] *)
      match err with
      | None => (Panics NilPointerDereference, w)
      | Some err =>
          (Returns (None,
                    Some (errorString
                            ("Unsuccessful document iteration, Error: "
                             ++ Error err)%string)), w)
      end
  end.

(** *** [addEntityToFirestore] *)

(** Locals carried round the loop: [fireclient], [docRef], [err]. *)
Definition add_body (firestoreRetriesNumber : Z) (collectionName : string)
    (entity : option Entity) (i : Z)
    (s : Client * option DocumentRef * option error) (w : world)
  : ctl (Client * option DocumentRef * option error)
        (option DocumentRef * option error) * world :=
  let '(fireclient, _, _) := s in
  let '(r, w) := invoke (Add fireclient collectionName entity) w in
  let docRef := resp_docRef r in
  match resp_err r with
  | None => (Leave (docRef, None), w)
  | Some err =>
      if String.eqb (Error err) ClosingTransportError then
        match getFirestoreAppAndClientWithContext w with
        | (inr err, w) =>
            (Leave (None,
                    Some (errorString
                            ("Error updating fireclient ("
                             ++ GoString.Itoa (firestoreRetriesNumber - i)
                             ++ " - retries left): " ++ Error err)%string)), w)
        | (inl (_, fireclient), w) =>
            (* [err] now holds the nil the refresh returned *)
            (Continue (fireclient, docRef, None), w)
        end
      else
        (Leave (None,
                Some (errorString
                        ("Unsuccessful adding data to the '" ++ collectionName
                         ++ "' collection, Error: " ++ Error err)%string)), w)
  end.

Definition addEntityToFirestore (fireclient : Client)
    (collectionName : string) (entity : option Entity) (w : world)
  : outcome (option DocumentRef * option error) * world :=
  let docRef : option DocumentRef := None in
  let '((firestoreRetriesNumber, err), w) := firestoreRetriesNumber w in
  if negb (firestoreCollectionExists collectionName) then
    (Returns (None,
              Some (errorString
                      ("Collection name '" ++ collectionName
                       ++ "' does not exist")%string)), w)
  else
    match for_loop (add_body firestoreRetriesNumber collectionName entity)
            (Z.to_nat firestoreRetriesNumber) 0 (fireclient, docRef, err) w
    with
    | (Leave r, w) => (Returns r, w)
    | (Continue (_, _, err), w) =>
        match err with
        | None => (Panics NilPointerDereference, w)
        | Some err =>
            (Returns (None,
                      Some (errorString
                              ("Exceed retries number for adding data to the '"
                               ++ collectionName ++ "' collection, Error: "
                               ++ Error err)%string)), w)
        end
    end.

(** *** [getEntityFromFirestore] *)

Definition get_body (firestoreRetriesNumber : Z)
    (collectionName entityID : string) (i : Z)
    (s : Client * option DocumentSnapshot * option error) (w : world)
  : ctl (Client * option DocumentSnapshot * option error)
        (option DocumentSnapshot * option error) * world :=
  let '(fireclient, _, _) := s in
  let '(r, w) := invoke (Get fireclient collectionName entityID) w in
  let doc := resp_doc r in
  match resp_err r with
  | None => (Leave (doc, None), w)
  | Some err =>
      if String.eqb (Error err) ClosingTransportError
         || GoString.Contains (Error err)
              "The service is temporarily unavailable" then
        let w :=
          LogWrite LogTypeInfo 0
            ("failed to get data from the '" ++ collectionName
             ++ "' collection, Error: " ++ Error err
             ++ ". Will do retry!")%string "" w in
        match getFirestoreAppAndClientWithContext w with
        | (inr err, w) =>
            (Leave (None,
                    Some (errorString
                            ("error updating fireclient ("
                             ++ GoString.Itoa (firestoreRetriesNumber - i)
                             ++ " - retries left): " ++ Error err)%string)), w)
        | (inl (_, fireclient), w) => (Continue (fireclient, doc, None), w)
        end
      else
        (Leave (None,
                Some (errorString
                        ("unsuccessful getting data from the '"
                         ++ collectionName ++ "' collection, Error: "
                         ++ Error err)%string)), w)
  end.

Definition getEntityFromFirestore (fireclient : Client)
    (collectionName entityID : string) (w : world)
  : outcome (option DocumentSnapshot * option error) * world :=
  let doc : option DocumentSnapshot := None in
  let '((firestoreRetriesNumber, err), w) := firestoreRetriesNumber w in
  if String.eqb entityID "" then
    (Returns (None,
              Some (errorString "entity ID is required field for get")), w)
  else if negb (firestoreCollectionExists collectionName) then
    (Returns (None,
              Some (errorString
                      ("document name '" ++ collectionName
                       ++ "' does not exist")%string)), w)
  else
    match for_loop (get_body firestoreRetriesNumber collectionName entityID)
            (Z.to_nat firestoreRetriesNumber) 0 (fireclient, doc, err) w
    with
    | (Leave r, w) => (Returns r, w)
    | (Continue (_, _, err), w) =>
        match err with
        | None => (Panics NilPointerDereference, w)
        | Some err =>
            (Returns (None,
                      Some (errorString
                              ("Exceed retries number for getting data from the '"
                               ++ collectionName ++ "' collection, Error: "
                               ++ Error err)%string)), w)
        end
    end.

(** *** [editEntityInFirestore] *)

(** Locals carried round the loop: [fireclient], [err]. *)
Definition edit_body (firestoreRetriesNumber : Z)
    (collectionName entityID : string) (entity : option Entity) (i : Z)
    (s : Client * option error) (w : world)
  : ctl (Client * option error) (option error) * world :=
  let '(fireclient, _) := s in
  let '(r, w) :=
    invoke (SetMergeAll fireclient collectionName entityID entity) w in
  match resp_err r with
  | None => (Leave None, w)
  | Some err =>
      if String.eqb (Error err) ClosingTransportError
         || GoString.Contains (Error err) UnavailableServiceError then
        match getFirestoreAppAndClientWithContext w with
        | (inr err, w) =>
            (Leave (Some (errorString
                            ("Error updating fireclient ("
                             ++ GoString.Itoa (firestoreRetriesNumber - i)
                             ++ " - retries left): " ++ Error err)%string)), w)
        | (inl (_, fireclient), w) => (Continue (fireclient, None), w)
        end
      else
        (Leave (Some (errorString
                        ("Unsuccessful updating '" ++ entityID ++ "' in the '"
                         ++ collectionName ++ "' collection, Error: "
                         ++ Error err)%string)), w)
  end.

Definition editEntityInFirestore (fireclient : Client)
    (collectionName entityID : string) (entity : option Entity) (w : world)
  : outcome (option error) * world :=
  let '((firestoreRetriesNumber, err), w) := firestoreRetriesNumber w in
  if String.eqb entityID "" then
    (Returns (Some (errorString "Entity ID is required field for edit")), w)
  else if negb (firestoreCollectionExists collectionName) then
    (Returns (Some (errorString
                      ("Document name '" ++ collectionName
                       ++ "' does not exist")%string)), w)
  else
    match for_loop
            (edit_body firestoreRetriesNumber collectionName entityID entity)
            (Z.to_nat firestoreRetriesNumber) 0 (fireclient, err) w
    with
    | (Leave r, w) => (Returns r, w)
    | (Continue (_, err), w) =>
        match err with
        | None => (Panics NilPointerDereference, w)
        | Some err =>
            (Returns (Some (errorString
                              ("Exceed retries number for updating '"
                               ++ entityID ++ "' in the '" ++ collectionName
                               ++ "' collection, Error: "
                               ++ Error err)%string)), w)
        end
    end.

(** *** [deleteEntityFromFirestore] *)

(** Locals carried round the loop: [fireclient], [result], [err]. *)
Definition delete_body (firestoreRetriesNumber : Z)
    (collectionName entityID : string) (i : Z)
    (s : Client * option WriteResult * option error) (w : world)
  : ctl (Client * option WriteResult * option error)
        (option WriteResult * option error) * world :=
  let '(fireclient, _, _) := s in
  let '(r, w) := invoke (Delete fireclient collectionName entityID) w in
  let result := resp_result r in
  match resp_err r with
  | Some err =>
      if String.eqb (Error err) ClosingTransportError then
        match getFirestoreAppAndClientWithContext w with
        | (inr err, w) =>
            (Leave (result,
                    Some (errorString
                            ("Error updating fireclient ("
                             ++ GoString.Itoa (firestoreRetriesNumber - i)
                             ++ " - retries left): " ++ Error err)%string)), w)
        | (inl (_, fireclient), w) => (Continue (fireclient, result, None), w)
        end
      else
        (Leave (None,
                Some (errorString
                        ("Unsuccessful deletion " ++ entityID ++ " from "
                         ++ collectionName ++ " collection, Error: "
                         ++ Error err)%string)), w)
  | None => (Leave (result, None), w)
  end.

Definition deleteEntityFromFirestore (fireclient : Client)
    (collectionName entityID : string) (w : world)
  : outcome (option WriteResult * option error) * world :=
  let result : option WriteResult := None in
  let '((firestoreRetriesNumber, err), w) := firestoreRetriesNumber w in
  if String.eqb entityID "" then
    (Returns (None,
              Some (errorString "Entity ID is required field for deletion")), w)
  else if negb (firestoreCollectionExists collectionName) then
    (Returns (None, Some (errorString "Document name does not exist")), w)
  else
    match for_loop (delete_body firestoreRetriesNumber collectionName entityID)
            (Z.to_nat firestoreRetriesNumber) 0 (fireclient, result, err) w
    with
    | (Leave r, w) => (Returns r, w)
    | (Continue (_, _, err), w) =>
        match err with
        | None => (Panics NilPointerDereference, w)
        | Some err =>
            (Returns (None,
                      Some (errorString
                              ("Exceed retries number for deletion "
                               ++ entityID ++ " from " ++ collectionName
                               ++ " collection, Error: "
                               ++ Error err)%string)), w)
        end
    end.

(** ** The five operations under one roof *)

(** A call of one of the five helpers with its arguments. *)
Inductive call : Type :=
| CallAdd (fireclient : Client) (collectionName : string)
    (entity : option Entity)
| CallGet (fireclient : Client) (collectionName entityID : string)
| CallEdit (fireclient : Client) (collectionName entityID : string)
    (entity : option Entity)
| CallDelete (fireclient : Client) (collectionName entityID : string)
| CallNext (iter : DocumentIterator).

(** The value a helper returns next to its error. *)
Inductive value : Type :=
| refValue (docRef : option DocumentRef)
| docValue (doc : option DocumentSnapshot)
| resultValue (result : option WriteResult)
| noValue.

Definition lift {A : Type} (f : A -> value * option error)
    (r : outcome A * world) : outcome (value * option error) * world :=
  match r with
  | (Returns a, w) => (Returns (f a), w)
  | (Panics p, w) => (Panics p, w)
  end.

Definition perform (c : call) (w : world)
  : outcome (value * option error) * world :=
  match c with
  | CallAdd fireclient collectionName entity =>
      lift (fun r => (refValue (fst r), snd r))
        (addEntityToFirestore fireclient collectionName entity w)
  | CallGet fireclient collectionName entityID =>
      lift (fun r => (docValue (fst r), snd r))
        (getEntityFromFirestore fireclient collectionName entityID w)
  | CallEdit fireclient collectionName entityID entity =>
      lift (fun r => (noValue, r))
        (editEntityInFirestore fireclient collectionName entityID entity w)
  | CallDelete fireclient collectionName entityID =>
      lift (fun r => (resultValue (fst r), snd r))
        (deleteEntityFromFirestore fireclient collectionName entityID w)
  | CallNext iter =>
      lift (fun r => (docValue (fst r), snd r))
        (firebaseDocumentIteratorWithRetry iter w)
  end.

End Helpers.

(** ** Vocabulary of the statements *)

(** The retry budget a call made in world [w] works with. *)
Definition budget (w : world) : Z := fst (fst (firestoreRetriesNumber w)).

(** The four CRUD operations, as opposed to the cursor advance. *)
Definition is_crud (c : call) : bool :=
  match c with
  | CallNext _ => false
  | _ => true
  end.

(** The collection a CRUD call names. *)
Definition collection_of (c : call) : option string :=
  match c with
  | CallAdd _ collectionName _ => Some collectionName
  | CallGet _ collectionName _ => Some collectionName
  | CallEdit _ collectionName _ _ => Some collectionName
  | CallDelete _ collectionName _ => Some collectionName
  | CallNext _ => None
  end.

(** The entity identifier a read, update or delete call names. *)
Definition identifier_of (c : call) : option string :=
  match c with
  | CallGet _ _ entityID => Some entityID
  | CallEdit _ _ entityID _ => Some entityID
  | CallDelete _ _ entityID => Some entityID
  | _ => None
  end.

(** The call passes the guards in front of the loop. *)
Definition passes_validation (c : call) : bool :=
  match identifier_of c with
  | Some entityID => negb (String.eqb entityID "")
  | None => true
  end
  &&
  match collection_of c with
  | Some collectionName => firestoreCollectionExists collectionName
  | None => true
  end.

(** The test each loop applies to the message of a backend error before it
    goes round again, read off the five loop bodies. *)
Definition retries_on (c : call) (msg : string) : bool :=
  match c with
  | CallAdd _ _ _ => String.eqb msg ClosingTransportError
  | CallGet _ _ _ =>
      String.eqb msg ClosingTransportError
      || GoString.Contains msg "The service is temporarily unavailable"
  | CallEdit _ _ _ _ =>
      String.eqb msg ClosingTransportError
      || GoString.Contains msg UnavailableServiceError
  | CallDelete _ _ _ => String.eqb msg ClosingTransportError
  | CallNext _ => String.eqb msg ClosingTransportError
  end.

(** The classifier as the specification words it: the message equals one of
    the two known strings or contains the unavailable-service text. *)
Definition spec_Retryable (msg : string) : bool :=
  String.eqb msg ClosingTransportError
  || String.eqb msg UnavailableServiceError
  || GoString.Contains msg "The service is temporarily unavailable".

(** The message wrapped round a backend error the loop does not retry. *)
Definition fatal_message (c : call) (msg : string) : string :=
  match c with
  | CallAdd _ collectionName _ =>
      "Unsuccessful adding data to the '" ++ collectionName
      ++ "' collection, Error: " ++ msg
  | CallGet _ collectionName _ =>
      "unsuccessful getting data from the '" ++ collectionName
      ++ "' collection, Error: " ++ msg
  | CallEdit _ collectionName entityID _ =>
      "Unsuccessful updating '" ++ entityID ++ "' in the '" ++ collectionName
      ++ "' collection, Error: " ++ msg
  | CallDelete _ collectionName entityID =>
      "Unsuccessful deletion " ++ entityID ++ " from " ++ collectionName
      ++ " collection, Error: " ++ msg
  | CallNext _ => "Unsuccessful document iteration, Error: " ++ msg
  end%string.

(** The value a helper returns next to an error it built itself. *)
Definition nil_value (c : call) : value :=
  match c with
  | CallAdd _ _ _ => refValue None
  | CallGet _ _ _ => docValue None
  | CallEdit _ _ _ _ => noValue
  | CallDelete _ _ _ => resultValue None
  | CallNext _ => docValue None
  end.

(** The value a helper returns when the backend answers [r] without error. *)
Definition success_value (c : call) (r : response) : value :=
  match c with
  | CallAdd _ _ _ => refValue (resp_docRef r)
  | CallGet _ _ _ => docValue (resp_doc r)
  | CallEdit _ _ _ _ => noValue
  | CallDelete _ _ _ => resultValue (resp_result r)
  | CallNext _ => docValue (resp_doc r)
  end.

(** Backend invocations and refreshes a call added to the world. *)
Definition invocations_made (w w' : world) : Z :=
  Z.of_nat (List.length (invocations w')) - Z.of_nat (List.length (invocations w)).

Definition refreshes_made (w w' : world) : Z :=
  Z.of_nat (refreshes w') - Z.of_nat (refreshes w).

(** ** Stubs for concrete runs *)

(** [strconv.Quote] on printable ASCII without quote or backslash. *)
Definition quotePlain (s : string) : string :=
  (String (ascii_of_nat 34) s ++ String (ascii_of_nat 34) EmptyString)%string.

Definition failing (msg : string) : response :=
  mkResponse None None None (Some (errorString msg)).

Definition succeeding : response :=
  mkResponse (Some (documentRef 7)) (Some (documentSnapshot 7))
    (Some (writeResult 7)) None.

(** A backend that fails with [msg] on its first [n] invocations and
    succeeds afterwards; every refresh succeeds. *)
Definition stubFailing (n : nat) (msg : string) : SDK :=
  mkSDK (fun k _ => if (k <? n)%nat then failing msg else succeeding)
        (fun k => inl (app k))
        (fun k _ => inl (client (Datatypes.S k)))
        quotePlain.

(** A backend that always fails with [msg]; every refresh succeeds. *)
Definition stubAlways (msg : string) : SDK :=
  mkSDK (fun _ _ => failing msg)
        (fun k => inl (app k))
        (fun k _ => inl (client (Datatypes.S k)))
        quotePlain.

(** A backend that fails with [msg] on its first [n] invocations and with
    [other] afterwards; every refresh succeeds. *)
Definition stubFailingThen (n : nat) (msg other : string) : SDK :=
  mkSDK (fun k _ => if (k <? n)%nat then failing msg else failing other)
        (fun k => inl (app k))
        (fun k _ => inl (client (Datatypes.S k)))
        quotePlain.

(** A fresh process whose FIRESTORE_RETRIES_NUMBER is [v] (unset: [None]). *)
Definition startWorld (v : option string) : world :=
  mkWorld match v with
          | Some n => [("FIRESTORE_RETRIES_NUMBER", n)]
          | None => []
          end
          [] 0%nat [].

(** The refresh that follows [k] earlier ones succeeds. *)
Definition refresh_succeeds (sdk : SDK) (k : nat) : Prop :=
  exists fireapp fireclient,
    firebase_NewApp sdk k = inl fireapp
    /\ App_Firestore sdk k fireapp = inl fireclient.

(** The backend invocation that follows [k] earlier ones fails, whatever it
    is asked, with an error whose message passes the test [cls]. *)
Definition fails_with (sdk : SDK) (cls : string -> bool) (k : nat) : Prop :=
  forall req, exists e,
    resp_err (sdk_invoke sdk k req) = Some e /\ cls (Error sdk e) = true.

(** The backend invocation that follows [k] earlier ones succeeds, whatever
    it is asked. *)
Definition succeeds_at (sdk : SDK) (k : nat) : Prop :=
  forall req, resp_err (sdk_invoke sdk k req) = None.

(** The request a call sends first. *)
Definition first_request (c : call) : request :=
  match c with
  | CallAdd fireclient collectionName entity =>
      Add fireclient collectionName entity
  | CallGet fireclient collectionName entityID =>
      Get fireclient collectionName entityID
  | CallEdit fireclient collectionName entityID entity =>
      SetMergeAll fireclient collectionName entityID entity
  | CallDelete fireclient collectionName entityID =>
      Delete fireclient collectionName entityID
  | CallNext iter => Next iter
  end.

(** The request is of the kind the call sends, for the same collection,
    identifier, entity or iterator; the client may be a refreshed one. *)
Definition request_of_call (c : call) (r : request) : bool :=
  match c, r with
  | CallAdd _ collectionName entity, Add _ collectionName' entity' =>
      String.eqb collectionName collectionName'
      && match entity, entity' with
         | None, None => true
         | Some (entityValue a), Some (entityValue b) => Nat.eqb a b
         | _, _ => false
         end
  | CallGet _ collectionName entityID, Get _ collectionName' entityID' =>
      String.eqb collectionName collectionName'
      && String.eqb entityID entityID'
  | CallEdit _ collectionName entityID entity,
    SetMergeAll _ collectionName' entityID' entity' =>
      String.eqb collectionName collectionName'
      && String.eqb entityID entityID'
      && match entity, entity' with
         | None, None => true
         | Some (entityValue a), Some (entityValue b) => Nat.eqb a b
         | _, _ => false
         end
  | CallDelete _ collectionName entityID, Delete _ collectionName' entityID' =>
      String.eqb collectionName collectionName'
      && String.eqb entityID entityID'
  | CallNext (documentIterator a), Next (documentIterator b) => Nat.eqb a b
  | _, _ => false
  end.

(** The validation errors. *)
Definition missing_identifier_message (c : call) : string :=
  match c with
  | CallGet _ _ _ => "entity ID is required field for get"
  | CallEdit _ _ _ _ => "Entity ID is required field for edit"
  | CallDelete _ _ _ => "Entity ID is required field for deletion"
  | _ => ""
  end.

Definition missing_collection_message (c : call) : string :=
  match c with
  | CallAdd _ collectionName _ =>
      "Collection name '" ++ collectionName ++ "' does not exist"
  | CallGet _ collectionName _ =>
      "document name '" ++ collectionName ++ "' does not exist"
  | CallEdit _ collectionName _ _ =>
      "Document name '" ++ collectionName ++ "' does not exist"
  | CallDelete _ _ _ => "Document name does not exist"
  | CallNext _ => ""
  end%string.

(** The line logged when FIRESTORE_RETRIES_NUMBER cannot be used. *)
Definition missing_retries_line : string :=
  "application:server, logType:info, errorCode:0, message:FIRESTORE_RETRIES_NUMBER is missing, was set to: 1".

(** FIRESTORE_RETRIES_NUMBER is not in the environment. *)
Definition retries_unset (w : world) : Prop :=
  forall v, ~ In ("FIRESTORE_RETRIES_NUMBER", v) (environ w).

(** FIRESTORE_RETRIES_NUMBER does not parse as an integer. *)
Definition retries_unparsable (w : world) : Prop :=
  snd (Strconv.Atoi (Getenv "FIRESTORE_RETRIES_NUMBER" w)) <> None.

(** The validation error of a CRUD call that names a collection outside the
    allowlist: the identifier is checked first. *)
Definition validation_message (c : call) : string :=
  match identifier_of c with
  | Some entityID =>
      if String.eqb entityID "" then missing_identifier_message c
      else missing_collection_message c
  | None => missing_collection_message c
  end.

(** The error [Atoi] returns for FIRESTORE_RETRIES_NUMBER, nil when it
    parses. *)
Definition retries_parse_error (w : world) : option error :=
  snd (Strconv.Atoi (Getenv "FIRESTORE_RETRIES_NUMBER" w)).

From Stdlib Require FMapList FMapFacts OrderedTypeEx.

(** ** Further vocabulary: what a call adds to the world *)

(** The error a CRUD helper returns when the refresh itself fails with
    message [msg] while [left] is the number the source prints as retries
    left. *)
Definition refresh_failure_message (c : call) (left : Z) (msg : string)
  : string :=
  match c with
  | CallGet _ _ _ =>
      "error updating fireclient (" ++ GoString.Itoa left
      ++ " - retries left): " ++ msg
  | _ =>
      "Error updating fireclient (" ++ GoString.Itoa left
      ++ " - retries left): " ++ msg
  end%string.

(** The value next to that error: nil, except that the delete helper hands
    back the [result] of the backend answer it has just received. *)
Definition refresh_failure_value (c : call) (r : response) : value :=
  match c with
  | CallDelete _ _ _ => resultValue (resp_result r)
  | _ => nil_value c
  end.

(** A backend that always fails with [msg], and a refresh that succeeds [n]
    times and then fails with [refreshMsg]. *)
Definition stubRefreshFails (n : nat) (msg refreshMsg : string) : SDK :=
  mkSDK (fun _ _ => failing msg)
        (fun k => if (k <? n)%nat then inl (app k)
                  else inr (errorString refreshMsg))
        (fun k _ => inl (client (Datatypes.S k)))
        quotePlain.

(** A cursor that fails [n] times with [msg] and then is exhausted. *)
Definition stubDoneAfter (n : nat) (msg : string) : SDK :=
  mkSDK (fun k _ => if (k <? n)%nat then failing msg
                    else mkResponse None None None (Some Done))
        (fun k => inl (app k))
        (fun k _ => inl (client (Datatypes.S k)))
        quotePlain.

(** World [w'] comes from [w] by a call [c] that keeps to its business: the
    environment is the same, the records of invocations and of log lines
    have only grown at the end, no refresh is undone, and every invocation
    added is a request of the kind of [c] for the collection, identifier,
    entity or iterator that [c] names. *)
Definition grows_by (c : call) (w w' : world) : Prop :=
  environ w' = environ w
  /\ (exists added,
        invocations w' = (invocations w ++ added)%list
        /\ Forall (fun r => request_of_call c r = true) added)
  /\ (exists lines, printed w' = (printed w ++ lines)%list)
  /\ (refreshes w <= refreshes w')%nat.

(** The refresh that follows [k] earlier ones fails with error [e], in
    [firebase.NewApp] or in [fireapp.Firestore]. *)
Definition refresh_fails (sdk : SDK) (k : nat) (e : error) : Prop :=
  firebase_NewApp sdk k = inr e
  \/ exists fireapp,
       firebase_NewApp sdk k = inl fireapp
       /\ App_Firestore sdk k fireapp = inr e.

(** ** Secrets: [GetSecret] and [getSecretRaw] *)

(** Secret Manager as a black box.  [secretmanager_NewClient k] answers the
    [secretmanager.NewClient(ctx)] that follows [k] earlier ones;
    [AccessSecretVersion k client name] answers the access that follows [k]
    earlier ones.  A response points to a payload (the pointer may be nil),
    a payload holds the bytes; [[]byte] is carried as a string, nil being
    the empty string, which is all [string(secretBytes)] can tell. *)
Inductive SecretClient : Type := secretClient (id : nat).

Record SecretPayload : Type := mkSecretPayload { Data : string }.

Record AccessSecretVersionResponse : Type := mkAccessSecretVersionResponse {
  Payload : option SecretPayload
}.

Record SecretManager : Type := mkSecretManager {
  secretmanager_NewClient : nat -> SecretClient + error;
  AccessSecretVersion :
    nat -> SecretClient -> string -> AccessSecretVersionResponse + error
}.

(** What the secret helpers read and change: the environment, the number of
    clients created and the names of the secret versions asked for (oldest
    first). *)
Record secretsWorld : Type := mkSecretsWorld {
  s_environ : list (string * string);
  clientsCreated : nat;
  accessed : list string
}.

Section Secrets.

Variable sm : SecretManager.

(** [getSecretRaw] *)
Definition getSecretRaw (keyName : string) (w : secretsWorld)
  : outcome (string * option error) * secretsWorld :=
  let name :=
    ("projects/" ++ lookupEnv (s_environ w) "GCLOUD_PROJECT" ++ "/secrets/"
     ++ keyName ++ "/versions/latest")%string in
  let k := clientsCreated w in
  let w := mkSecretsWorld (s_environ w) (Datatypes.S k) (accessed w) in
  match secretmanager_NewClient sm k with
  | inr err => (Returns ("", Some err), w)
  | inl client_ =>
      let a := List.length (accessed w) in
      let w :=
        mkSecretsWorld (s_environ w) (clientsCreated w)
          (accessed w ++ [name])%list in
      match AccessSecretVersion sm a client_ name with
      | inr err => (Returns ("", Some err), w)
      | inl result =>
          match Payload result with
          | None => (Panics NilPointerDereference, w)
          | Some payload => (Returns (Data payload, None), w)
          end
      end
  end.

(** The loop of [GetSecret], [fuel] iterations left; [err] is the error of
    the last attempt. *)
Fixpoint getSecretLoop (fuel : nat) (keyName : string) (err : option error)
    (w : secretsWorld) : outcome (string * option error) * secretsWorld :=
  match fuel with
  | O => (Returns ("", err), w)
  | Datatypes.S fuel' =>
      match getSecretRaw keyName w with
      | (Panics p, w) => (Panics p, w)
      | (Returns (secretBytes, err), w) =>
          match err with
          | None => (Returns (secretBytes, None), w)
          | Some _ => getSecretLoop fuel' keyName err w
          end
      end
  end.

(** [GetSecret]: two attempts. *)
Definition GetSecret (keyName : string) (w : secretsWorld)
  : outcome (string * option error) * secretsWorld :=
  getSecretLoop 2 keyName None w.

End Secrets.

(** The resource name [getSecretRaw] asks for. *)
Definition secretVersionName (w : secretsWorld) (keyName : string) : string :=
  "projects/" ++ lookupEnv (s_environ w) "GCLOUD_PROJECT" ++ "/secrets/"
  ++ keyName ++ "/versions/latest".

(** A Secret Manager whose first [n] accesses fail. *)
Definition stubSecrets (n : nat) (secret : string) : SecretManager :=
  mkSecretManager
    (fun k => inl (secretClient k))
    (fun k _ _ =>
       if (k <? n)%nat then inr (errorString "rpc error: code = Unavailable")
       else inl (mkAccessSecretVersionResponse
                   (Some (mkSecretPayload secret)))).

(** ** HTTP requests and the helpers that read them *)

(** A non-nil [*http.Request] as far as the helpers look at it: what
    [r.Header.Get(key)] answers, and what [r.URL.Query()[key]] holds (a
    missing key is [None]). *)
Record Request : Type := mkRequest {
  Header_Get : string -> string;
  URL_Query : string -> option (list string)
}.

(** [strings.Split(s, sep)] for a separator of one byte: the pieces between
    the separators, one piece (the whole string) when there is none. *)
Fixpoint SplitByte (sep : ascii) (s : string) : list string :=
  match s with
  | EmptyString => [EmptyString]
  | String c s' =>
      if Ascii.eqb c sep then EmptyString :: SplitByte sep s'
      else
        match SplitByte sep s' with
        | [] => [String c EmptyString]
        | part :: parts => String c part :: parts
        end
  end.

(** A run-time error of an index expression. *)
Inductive indexFault : Type := IndexOutOfRange.

(** [getURLParameter] of functiontools.go. *)
Definition getURLParameter (r : Request) (queryKey defaultValue : string)
  : string + indexFault :=
  match URL_Query r queryKey with
  | None => inl defaultValue
  | Some paramSlice =>
      match paramSlice with
      | [] => inr IndexOutOfRange
      | param0 :: _ =>
          if (GoString.len param0 <? 1) || String.eqb param0 ""
          then inl defaultValue
          else inl param0
      end
  end.

(** *** Package logv2 *)

Module Logv2.

(** A value of type [interface{}] in a payload: an error (with the message
    its [Error()] returns), a string, nil, or something else. *)
Inductive any : Type :=
| anyError (message : string)
| anyString (s : string)
| anyNil
| anyOther (id : nat).

(** [normalizeData]; the nil slice is [None]. *)
Definition normalizeData (items : list any) : option (list any) :=
  match items with
  | [] => None
  | _ =>
      Some (fold_left
              (fun out it =>
                 match it with
                 | anyError message => (out ++ [anyString message])%list
                 | _ => (out ++ [it])%list
                 end)
              items [])
  end.

(** [extractExecutionID]: the range loop over [keys]. *)
Fixpoint rangeKeys (r : Request) (keys : list string) : string :=
  match keys with
  | [] => ""
  | k :: rest =>
      let v := Header_Get r k in
      if negb (String.eqb v "") then v else rangeKeys r rest
  end.

Definition extractExecutionID (r : option Request) (keys : list string)
  : string :=
  match r with
  | None => ""
  | Some r => rangeKeys r keys
  end.

(** [extractTrace] *)
Definition extractTrace (projectID : string) (r : option Request) : string :=
  match r with
  | None => ""
  | Some r =>
      if String.eqb projectID "" then ""
      else
        let traceHeader := Header_Get r "X-Cloud-Trace-Context" in
        if String.eqb traceHeader "" then ""
        else
          let parts := SplitByte "/" traceHeader in
          match parts with
          | [] => ""
          | part0 :: _ =>
              if String.eqb part0 "" then ""
              else ("projects/" ++ projectID ++ "/traces/" ++ part0)%string
          end
  end.

End Logv2.

(** *** logger.go, the version that creates a client per entry *)

Module LoggerLegacy.

Record Logger : Type := mkLogger {
  ProjectID : string;
  LoggerInvoker : string;
  LogName : string
}.

(** [getTraceId] *)
Definition getTraceId (pl : Logger) (httpRequest : option Request) : string :=
  let trace := "" in
  if negb (String.eqb (ProjectID pl) "") then
    match httpRequest with
    | Some r =>
        let traceHeader := Header_Get r "X-Cloud-Trace-Context" in
        let traceParts := SplitByte "/" traceHeader in
        match traceParts with
        | part0 :: _ =>
            if 0 <? GoString.len part0 then
              ("projects/" ++ ProjectID pl ++ "/traces/" ++ part0)%string
            else trace
        | [] => trace
        end
    | None => trace
    end
  else trace.

End LoggerLegacy.

(** *** logger.go, the version with a reusable client and OpenTelemetry *)

Module Logger.

(** The span context of the span in [ctx]: [trace.SpanFromContext(ctx)]
    gives a span with an invalid context when there is none. *)
Record SpanContext : Type := mkSpanContext {
  IsValid : bool;
  TraceID : string;
  SpanID : string;
  IsSampled : bool
}.

(** The Cloud Logging client as far as [Close] uses it: what flushing the
    logger of a name and closing the client will answer. *)
Record LoggingClient : Type := mkLoggingClient {
  Flush : string -> option error;
  Close_ : option error
}.

Record Logger : Type := mkLogger {
  ProjectID : string;
  LoggerInvoker : string;
  LogName : string;
  loggingClient : option LoggingClient
}.

(** What [Close] does to the client, in order. *)
Inductive clientEvent : Type :=
| Flushed (logName : string)
| Closed.

(** [Close]: the error returned and the calls made on the client.  [%w] and
    [%v] print the message of an error. *)
Definition Close (sdk : SDK) (pl : Logger) : option error * list clientEvent :=
  match loggingClient pl with
  | Some c =>
      let '(errFlush, events) :=
        if negb (String.eqb (LogName pl) "")
        then (Flush c (LogName pl), [Flushed (LogName pl)])
        else (None, []) in
      let errClose := Close_ c in
      let events := (events ++ [Closed])%list in
      match errFlush with
      | Some errFlush =>
          match errClose with
          | Some errClose =>
              (Some (errorString
                       ("failed to flush logger '" ++ LogName pl ++ "': "
                        ++ Error sdk errFlush
                        ++ "; also failed to close client: "
                        ++ Error sdk errClose)%string), events)
          | None =>
              (Some (errorString
                       ("failed to flush logger '" ++ LogName pl ++ "': "
                        ++ Error sdk errFlush)%string), events)
          end
      | None => (errClose, events)
      end
  | None => (None, [])
  end.

(** [extractTraceSpanInfo]; the named results start as the empty string,
    the empty string and false. *)
Definition extractTraceSpanInfo (pl : Logger) (ctx : SpanContext)
    (httpRequest : option Request) : string * string * bool :=
  if IsValid ctx then
    (("projects/" ++ ProjectID pl ++ "/traces/" ++ TraceID ctx)%string,
     SpanID ctx, IsSampled ctx)
  else
    match httpRequest with
    | Some r =>
        if negb (String.eqb (ProjectID pl) "") then
          let traceHeader := Header_Get r "X-Cloud-Trace-Context" in
          if negb (String.eqb traceHeader "") then
            match SplitByte "/" traceHeader with
            | part0 :: _ =>
                if 0 <? GoString.len part0 then
                  (("projects/" ++ ProjectID pl ++ "/traces/" ++ part0)%string,
                   "",
                   if GoString.Contains traceHeader ";o=1" then true
                   else if GoString.Contains traceHeader ";o=0" then false
                   else false)
                else ("", "", false)
            | [] => ("", "", false)
            end
          else ("", "", false)
        else ("", "", false)
    | None => ("", "", false)
    end.

End Logger.

(** A request with the given headers and query values, each read by first
    match. *)
Fixpoint lookupValues (m : list (string * list string)) (key : string)
  : option (list string) :=
  match m with
  | [] => None
  | (k, v) :: rest => if String.eqb k key then Some v else lookupValues rest key
  end.

Definition requestWith (headers : list (string * string))
    (query : list (string * list string)) : Request :=
  mkRequest (lookupEnv headers) (lookupValues query).

(** The part of [s] in front of its first byte [sep], all of [s] when there
    is none. *)
Fixpoint beforeByte (sep : ascii) (s : string) : string :=
  match s with
  | EmptyString => EmptyString
  | String c s' =>
      if Ascii.eqb c sep then EmptyString else String c (beforeByte sep s')
  end.

(** [sep] does not occur in [s]. *)
Fixpoint freeOfByte (sep : ascii) (s : string) : bool :=
  match s with
  | EmptyString => true
  | String c s' => negb (Ascii.eqb c sep) && freeOfByte sep s'
  end.

(** An item as [normalizeData] puts it into its result: an error by its
    message, anything else as it is. *)
Definition normalizedItem (it : Logv2.any) : Logv2.any :=
  match it with
  | Logv2.anyError message => Logv2.anyString message
  | _ => it
  end.

(** *** Labels: Go maps from string to string *)

(** A [map[string]string] is a finite map with string keys; the nil map
    reads as the empty map ([len] is 0, [range] visits nothing). *)
Module Labels := FMapList.Make OrderedTypeEx.String_as_OT.
Module LabelsFacts := FMapFacts.Properties Labels.

(** [mergeLabels] of logv2; the nil map it returns is [None].  The two range
    loops are folds over the bindings: each key is visited once. *)
Definition mergeLabels (a b : Labels.t string) : option (Labels.t string) :=
  if Nat.eqb (Labels.cardinal a) 0 && Nat.eqb (Labels.cardinal b) 0 then None
  else
    let out := Labels.empty string in
    let out := Labels.fold (fun k v out => Labels.add k v out) a out in
    let out :=
      Labels.fold
        (fun k v out => if String.eqb v "" then out else Labels.add k v out)
        b out in
    Some out.

(** The labels [log] and [writeStdout] of logv2 give an entry:
    [mergeLabels(labels, map[string]string{"execution_id": execID})]. *)
Definition entryLabels (labels : Labels.t string) (execID : string)
  : option (Labels.t string) :=
  mergeLabels labels (Labels.add "execution_id" execID (Labels.empty string)).

(** ** [checkFirebaseUserAuthorized] *)

Inductive AuthClient : Type := mkAuthClient (id : nat).
Inductive Token : Type := mkToken (uid : string).

(** Firebase Auth and the Unicode part of [strings.Fields] as a black box:
    [App_Auth] answers [fireapp.Auth(ctx)], [VerifyIDToken] answers
    [authClient.VerifyIDToken(ctx, userToken)] with a token (which may be
    nil) and an error (which may be nil), [unicode_Fields] is
    [strings.FieldsFunc(s, unicode.IsSpace)], which [strings.Fields] uses
    for a string with a byte above 0x7F. *)
Record AuthSDK : Type := mkAuthSDK {
  App_Auth : App -> AuthClient + error;
  VerifyIDToken : AuthClient -> string -> option Token * option error;
  unicode_Fields : string -> list string
}.

(** The white space of [strings.Fields] on its ASCII path: tab, line feed,
    vertical tab, form feed, carriage return and space. *)
Definition asciiSpace (c : ascii) : bool :=
  let b := GoString.byte c in
  (b =? 9) || (b =? 10) || (b =? 11) || (b =? 12) || (b =? 13) || (b =? 32).

(** Every byte is below 0x80. *)
Fixpoint isASCII (s : string) : bool :=
  match s with
  | EmptyString => true
  | String c s' => (GoString.byte c <? 128) && isASCII s'
  end.

(** The ASCII path of [strings.Fields]: the maximal runs of bytes that are
    no white space; [field] is the run being read. *)
Fixpoint asciiFields (s : string) (field : string) : list string :=
  match s with
  | EmptyString => if String.eqb field "" then [] else [field]
  | String c s' =>
      if asciiSpace c then
        if String.eqb field "" then asciiFields s' ""
        else field :: asciiFields s' ""
      else asciiFields s' (field ++ String c EmptyString)
  end.

Section Auth.

Variable sdk : SDK.
Variable auth : AuthSDK.

(** [strings.Fields] *)
Definition Fields (s : string) : list string :=
  if isASCII s then asciiFields s "" else unicode_Fields auth s.

(** [checkFirebaseUserAuthorized]; [r] is nil for [None].  The statuses are
    [http.StatusUnauthorized], [http.StatusInternalServerError] and
    [http.StatusOK]. *)
Definition checkFirebaseUserAuthorized (fireapp : App) (fireclient : Client)
    (r : option Request) (w : world) : outcome (option Token * Z) * world :=
  match r with
  | None => (Panics NilPointerDereference, w)
  | Some r =>
      let authHeader := Header_Get r "Authorization" in
      if String.eqb authHeader "" then
        (Returns (None, 401), LogWrite LogTypeInfo 0 "empty auth header" "" w)
      else
        let tokenSlice := Fields authHeader in
        match tokenSlice with
        | [tokenSlice0; userToken] =>
            if negb (String.eqb tokenSlice0 "Bearer") then
              (Returns (None, 401), w)
            else
              match App_Auth auth fireapp with
              | inr err =>
                  (Returns (None, 500),
                   LogWrite LogTypeInfo 0
                     ("fireapp.Auth error: " ++ Error sdk err)%string "" w)
              | inl authClient =>
                  let '(token, err) := VerifyIDToken auth authClient userToken in
                  match err, token with
                  | None, Some token => (Returns (Some token, 200), w)
                  | Some err, _ =>
                      (Returns (None, 401),
                       LogWrite LogTypeInfo 0
                         ("authClient.VerifyIDTokenError: "
                          ++ Error sdk err)%string "" w)
                  | None, None =>
                      (* [err.Error()] on the nil error *)
                      (Panics NilPointerDereference, w)
                  end
              end
        | _ => (Returns (None, 401), w)
        end
  end.

End Auth.

(** An Auth SDK that knows one good token. *)
Definition stubAuth (good uid : string) : AuthSDK :=
  mkAuthSDK (fun _ => inl (mkAuthClient 0))
            (fun _ t =>
               if String.eqb t good then (Some (mkToken uid), None)
               else (None, Some (errorString "ID token is invalid")))
            (fun _ => []).

(** An Auth SDK whose verification answers with neither a token nor an
    error. *)
Definition stubAuthSilent : AuthSDK :=
  mkAuthSDK (fun _ => inl (mkAuthClient 0)) (fun _ _ => (None, None))
            (fun _ => []).

(** No byte of [s] is white space of the ASCII path of [strings.Fields]. *)
Fixpoint freeOfSpace (s : string) : bool :=
  match s with
  | EmptyString => true
  | String c s' => negb (asciiSpace c) && freeOfSpace s'
  end.


(** * Properties *)

(** ** Sanity checks of the library models *)

Example Atoi_3 : Strconv.Atoi "3" = (3, None).
Proof. reflexivity. Qed.

Example Atoi_neg : Strconv.Atoi "-12" = (-12, None).
Proof. reflexivity. Qed.

Example Atoi_plus : Strconv.Atoi "+7" = (7, None).
Proof. reflexivity. Qed.

Example Atoi_empty : Strconv.Atoi "" = (0, Some (NumError "Atoi" "" ErrSyntax)).
Proof. reflexivity. Qed.

Example Atoi_word :
  Strconv.Atoi "three" = (0, Some (NumError "Atoi" "three" ErrSyntax)).
Proof. reflexivity. Qed.

Example Atoi_big :
  Strconv.Atoi "9223372036854775808"
  = (9223372036854775807, Some (NumError "Atoi" "9223372036854775808" ErrRange)).
Proof. vm_compute. reflexivity. Qed.

Example Atoi_min :
  Strconv.Atoi "-9223372036854775808" = (-9223372036854775808, None).
Proof. vm_compute. reflexivity. Qed.

Example Itoa_examples :
  GoString.Itoa 0 = "0" /\ GoString.Itoa 1 = "1" /\ GoString.Itoa (-42) = "-42".
Proof. repeat split; reflexivity. Qed.

Example Contains_examples :
  GoString.Contains "rpc error: The service is temporarily unavailable."
    "The service is temporarily unavailable" = true
  /\ GoString.Contains "abc" "" = true
  /\ GoString.Contains "transport" "closing" = false.
Proof. repeat split; reflexivity. Qed.

Example allowlist_examples :
  firestoreCollectionExists "users" = true
  /\ firestoreCollectionExists "promo_items" = true
  /\ firestoreCollectionExists "Users" = false
  /\ firestoreCollectionExists "" = false.
Proof. repeat split; reflexivity. Qed.

(** ** The opening lines *)

Lemma firestoreRetriesNumber_parsed (w : world) (n : Z) :
  Strconv.Atoi (Getenv "FIRESTORE_RETRIES_NUMBER" w) = (n, None) ->
  firestoreRetriesNumber w = ((n, None), w).
Proof. unfold firestoreRetriesNumber. intros ->. reflexivity. Qed.

Lemma firestoreRetriesNumber_fallback (w : world) (n : Z) (e : error) :
  Strconv.Atoi (Getenv "FIRESTORE_RETRIES_NUMBER" w) = (n, Some e) ->
  firestoreRetriesNumber w
  = ((1, Some e),
     mkWorld (environ w) (invocations w) (refreshes w)
       (printed w ++ [missing_retries_line])).
Proof. unfold firestoreRetriesNumber. intros ->. reflexivity. Qed.

(** The opening lines touch nothing but the log, and leave a nil [err]
    exactly when the variable parsed. *)
Lemma firestoreRetriesNumber_world (w : world) :
  forall n err w0, firestoreRetriesNumber w = ((n, err), w0) ->
  environ w0 = environ w /\ invocations w0 = invocations w
  /\ refreshes w0 = refreshes w
  /\ (err = None -> w0 = w)
  /\ (err <> None -> n = 1
      /\ printed w0 = (printed w ++ [missing_retries_line])%list).
Proof.
  intros n err w0. unfold firestoreRetriesNumber.
  destruct (Strconv.Atoi _) as [m [e|]]; intros H; inversion H; subst; simpl.
  - repeat split; try reflexivity; try discriminate.
  - repeat split; try reflexivity; congruence.
Qed.

Lemma lookupEnv_unset (env : list (string * string)) (key : string) :
  (forall v, ~ In (key, v) env) -> lookupEnv env key = "".
Proof.
  induction env as [|[k v] rest IH]; intros H; simpl; [reflexivity|].
  destruct (String.eqb k key) eqn:E.
  - apply String.eqb_eq in E. subst. exfalso. apply (H v). left. reflexivity.
  - apply IH. intros v' Hin. apply (H v'). right. exact Hin.
Qed.

Lemma retries_unset_unparsable (w : world) :
  retries_unset w -> retries_unparsable w.
Proof.
  unfold retries_unset, retries_unparsable, Getenv. intros H.
  rewrite (lookupEnv_unset _ _ H). simpl. discriminate.
Qed.

(** ** Bounded loops whose body retries *)

Section Loops.

Context {S R : Type}.
Variable body : Z -> S -> world -> ctl S R * world.

Lemma for_loop_leave (fuel : nat) i s w r w' :
  body i s w = (Leave r, w') ->
  for_loop body (Datatypes.S fuel) i s w = (Leave r, w').
Proof. intros H. simpl. rewrite H. reflexivity. Qed.

Lemma for_loop_continue (fuel : nat) i s w s' w' :
  body i s w = (Continue s', w') ->
  for_loop body (Datatypes.S fuel) i s w = for_loop body fuel (i + 1) s' w'.
Proof. intros H. simpl. rewrite H. reflexivity. Qed.

(** A measure of the world that no iteration decreases is not decreased by
    the loop. *)
Lemma for_loop_monotone (m : world -> nat) :
  (forall i s w, (m w <= m (snd (body i s w)))%nat) ->
  forall fuel i s w, (m w <= m (snd (for_loop body fuel i s w)))%nat.
Proof.
  intros Hbody fuel. induction fuel as [|fuel IH]; intros i s w; simpl.
  - lia.
  - specialize (Hbody i s w). destruct (body i s w) as [[s'|r] w']; simpl in *.
    + specialize (IH (i + 1) s' w'). lia.
    + exact Hbody.
Qed.

(** A measure of the world that no iteration changes is not changed by the
    loop. *)
Lemma for_loop_preserves (m : world -> nat) :
  (forall i s w, m (snd (body i s w)) = m w) ->
  forall fuel i s w, m (snd (for_loop body fuel i s w)) = m w.
Proof.
  intros Hbody fuel. induction fuel as [|fuel IH]; intros i s w; simpl.
  - reflexivity.
  - specialize (Hbody i s w). destruct (body i s w) as [[s'|r] w']; simpl in *.
    + rewrite IH. exact Hbody.
    + exact Hbody.
Qed.

(** The loop only appends to the record of invocations when every iteration
    only appends. *)
Lemma for_loop_extends :
  (forall i s w, exists x,
      invocations (snd (body i s w)) = (invocations w ++ x)%list) ->
  forall fuel i s w, exists x,
      invocations (snd (for_loop body fuel i s w)) = (invocations w ++ x)%list.
Proof.
  intros Hbody fuel. induction fuel as [|fuel IH]; intros i s w; simpl.
  - exists []. rewrite app_nil_r. reflexivity.
  - destruct (Hbody i s w) as [x Hx].
    destruct (body i s w) as [[s'|r] w']; simpl in *.
    + destruct (IH (i + 1) s' w') as [y Hy]. exists (x ++ y)%list.
      rewrite Hy, Hx, app_assoc. reflexivity.
    + exists x. exact Hx.
Qed.

(** A loop that runs at least once makes at least one invocation when every
    iteration makes one. *)
Lemma for_loop_invokes (m : world -> nat) :
  (forall i s w, (Datatypes.S (m w) <= m (snd (body i s w)))%nat) ->
  forall fuel i s w,
    (Datatypes.S (m w) <= m (snd (for_loop body (Datatypes.S fuel) i s w)))%nat.
Proof.
  intros Hbody fuel i s w. simpl.
  pose proof (Hbody i s w) as H1.
  destruct (body i s w) as [[s'|r] w']; simpl in *.
  - pose proof (for_loop_monotone m) as Hm.
    assert (Hle : forall i s w, (m w <= m (snd (body i s w)))%nat).
    { intros i0 s0 w0. specialize (Hbody i0 s0 w0). lia. }
    specialize (Hm Hle fuel (i + 1) s' w'). lia.
  - exact H1.
Qed.

Variable sdk : SDK.

(** [cls]: the test the body applies to an error message; [refreshing]:
    whether it refreshes the connection before it goes round again;
    [carried]: the local [err] as an iteration leaves it; [answer]: what
    the body returns on a backend success; [sends]: the requests it may
    send. *)
Variable cls : string -> bool.
Variable refreshing : bool.
Variable carried : S -> option error.
Variable answer : response -> R.
Variable sends : request -> bool.

Hypothesis body_retries : forall i s w,
  fails_with sdk cls (List.length (invocations w)) ->
  (refreshing = true -> refresh_succeeds sdk (refreshes w)) ->
  exists s' w',
    body i s w = (Continue s', w')
    /\ List.length (invocations w') = Datatypes.S (List.length (invocations w))
    /\ refreshes w'
       = (if refreshing then Datatypes.S (refreshes w) else refreshes w)
    /\ (refreshing = true -> carried s' = None).

Hypothesis body_succeeds : forall i s w,
  succeeds_at sdk (List.length (invocations w)) ->
  exists req w',
    body i s w
    = (Leave (answer (sdk_invoke sdk (List.length (invocations w)) req)), w')
    /\ sends req = true
    /\ invocations w' = (invocations w ++ [req])%list
    /\ refreshes w' = refreshes w.

(** When every invocation fails with a retried message and every refresh
    succeeds, the loop uses up its bound: one invocation (and one refresh,
    where the body refreshes) per iteration, and it falls out at the bottom
    with the [err] the last iteration left. *)
Lemma for_loop_all_fail : forall (fuel : nat) i s w,
  (forall k, (k < fuel)%nat ->
             fails_with sdk cls (List.length (invocations w) + k)) ->
  (refreshing = true ->
   forall k, (k < fuel)%nat -> refresh_succeeds sdk (refreshes w + k)) ->
  exists s' w',
    for_loop body fuel i s w = (Continue s', w')
    /\ List.length (invocations w') = (List.length (invocations w) + fuel)%nat
    /\ refreshes w'
       = (if refreshing then refreshes w + fuel else refreshes w)%nat
    /\ (refreshing = true -> (0 < fuel)%nat -> carried s' = None)
    /\ (fuel = 0%nat -> w' = w).
Proof.
  induction fuel as [|fuel IH]; intros i s w Hfail Hrefresh.
  - exists s, w. simpl. repeat split; try lia.
    destruct refreshing; lia.
  - destruct (body_retries i s w) as (s1 & w1 & Hb & Hlen & Href & Hcar).
    { rewrite <- (Nat.add_0_r (List.length (invocations w))).
      apply Hfail. lia. }
    { intros Hr. rewrite <- (Nat.add_0_r (refreshes w)).
      apply (Hrefresh Hr). lia. }
    destruct (IH (i + 1) s1 w1) as (s2 & w2 & Hl & Hlen2 & Href2 & Hcar2 & _).
    { intros k Hk. rewrite Hlen.
      replace (Datatypes.S (List.length (invocations w)) + k)%nat
        with (List.length (invocations w) + Datatypes.S k)%nat by lia.
      apply Hfail. lia. }
    { intros Hr k Hk. rewrite Href, Hr.
      replace (Datatypes.S (refreshes w) + k)%nat
        with (refreshes w + Datatypes.S k)%nat by lia.
      apply (Hrefresh Hr). lia. }
    exists s2, w2. rewrite (for_loop_continue _ _ _ _ _ _ Hb).
    split; [exact Hl|]. split; [lia|]. split.
    { rewrite Href2, Href. destruct refreshing; lia. }
    split; [|lia].
    intros Hr _. destruct fuel as [|fuel'].
    + simpl in Hl. injection Hl as <- <-. apply Hcar. exact Hr.
    + apply Hcar2; [exact Hr | lia].
Qed.

(** When the first [n] invocations fail with a retried message, the
    refreshes succeed and the next invocation succeeds, a loop with a bound
    above [n] returns the answer of that invocation. *)
Lemma for_loop_fail_then_succeed : forall (n fuel : nat) i s w,
  (n < fuel)%nat ->
  (forall k, (k < n)%nat ->
             fails_with sdk cls (List.length (invocations w) + k)) ->
  (refreshing = true ->
   forall k, (k < n)%nat -> refresh_succeeds sdk (refreshes w + k)) ->
  succeeds_at sdk (List.length (invocations w) + n) ->
  exists req w',
    for_loop body fuel i s w
    = (Leave (answer
                (sdk_invoke sdk (List.length (invocations w) + n) req)), w')
    /\ sends req = true
    /\ List.length (invocations w')
       = (List.length (invocations w) + n + 1)%nat
    /\ nth_error (invocations w') (List.length (invocations w) + n)
       = Some req
    /\ refreshes w' = (if refreshing then refreshes w + n else refreshes w)%nat.
Proof.
  induction n as [|n IH]; intros fuel i s w Hlt Hfail Hrefresh Hok.
  - destruct fuel as [|fuel]; [lia|].
    rewrite Nat.add_0_r in *.
    destruct (body_succeeds i s w Hok) as (req & w1 & Hb & Hs & Hinv & Href).
    exists req, w1. rewrite (for_loop_leave _ _ _ _ _ _ Hb).
    split; [reflexivity|]. split; [exact Hs|].
    rewrite Hinv, length_app. simpl. split; [lia|]. split.
    + rewrite nth_error_app2 by lia. rewrite Nat.sub_diag. reflexivity.
    + rewrite Href. destruct refreshing; lia.
  - destruct fuel as [|fuel]; [lia|].
    destruct (body_retries i s w) as (s1 & w1 & Hb & Hlen & Hr1 & _).
    { rewrite <- (Nat.add_0_r (List.length (invocations w))).
      apply Hfail. lia. }
    { intros Hr. rewrite <- (Nat.add_0_r (refreshes w)).
      apply (Hrefresh Hr). lia. }
    assert (Hidx : (List.length (invocations w1) + n
                    = List.length (invocations w) + Datatypes.S n)%nat) by lia.
    destruct (IH fuel (i + 1) s1 w1) as (req & w2 & Hl & Hs & Hlen2 & Hnth & Hr2).
    { lia. }
    { intros k Hk. rewrite Hlen.
      replace (Datatypes.S (List.length (invocations w)) + k)%nat
        with (List.length (invocations w) + Datatypes.S k)%nat by lia.
      apply Hfail. lia. }
    { intros Hr k Hk. rewrite Hr1, Hr.
      replace (Datatypes.S (refreshes w) + k)%nat
        with (refreshes w + Datatypes.S k)%nat by lia.
      apply (Hrefresh Hr). lia. }
    { rewrite Hidx. exact Hok. }
    exists req, w2. rewrite (for_loop_continue _ _ _ _ _ _ Hb).
    rewrite Hidx in Hl, Hnth.
    split; [exact Hl|]. split; [exact Hs|]. split; [lia|].
    split; [exact Hnth|].
    rewrite Hr2, Hr1. destruct refreshing; lia.
Qed.

End Loops.

(** ** The five loop bodies *)

Ltac unfold_body :=
  unfold add_body, get_body, edit_body, delete_body, iterator_body, invoke,
    getFirestoreAppAndClientWithContext, LogWrite, log_Printf.

Ltac split_locals :=
  repeat match goal with
         | s : (_ * _)%type |- _ => destruct s
         | s : unit |- _ => destruct s
         end.

(** Goes through one iteration whose backend answer fails with a retried
    message and whose refresh succeeds. *)
Ltac body_retries_tac :=
  let e := fresh "e" in
  let He := fresh "He" in
  let Hc := fresh "Hc" in
  intros ? ? ? Hfail Hrefresh; split_locals; unfold_body;
  match goal with
  | |- context [sdk_invoke ?sdk ?k ?req] =>
      destruct (Hfail req) as (e & He & Hc)
  end;
  cbn [retries_on] in Hc; cbn [invocations refreshes environ printed];
  rewrite He, Hc;
  try (destruct (Hrefresh eq_refl) as (? & ? & -> & ->));
  cbn [invocations refreshes environ printed];
  eexists; eexists; split; [reflexivity|];
  cbn [invocations refreshes environ printed];
  rewrite length_app; cbn [List.length];
  repeat split; try lia; try reflexivity.

(** Goes through one iteration whose backend answer carries no error. *)
Ltac body_succeeds_tac :=
  intros ? ? ? Hok; split_locals; unfold_body;
  match goal with
  | |- context [sdk_invoke ?sdk ?k ?req] =>
      rewrite (Hok req); exists req
  end;
  eexists; split; [reflexivity|];
  cbn [invocations refreshes environ printed request_of_call];
  rewrite ?String.eqb_refl, ?Nat.eqb_refl; repeat split;
  repeat match goal with
         | |- context [match ?x with _ => _ end] => destruct x
         end;
  cbn; rewrite ?Nat.eqb_refl; reflexivity.

Ltac break_inner :=
  match goal with
  | |- context [match ?x with _ => _ end] =>
      lazymatch x with
      | context [match _ with _ => _ end] => fail
      | _ => destruct x
      end
  end.

(** Every pass through a loop body makes one backend invocation and at most
    one refresh. *)
Ltac body_counts_tac :=
  intros;
  repeat match goal with
         | x := _ |- _ => subst x
         end;
  split_locals; unfold_body;
  cbn [invocations refreshes environ printed];
  repeat break_inner;
  cbn [fst snd invocations refreshes environ printed];
  rewrite ?length_app; cbn [List.length]; lia.

Section Bodies.

Variable sdk : SDK.

Lemma add_body_retries fireclient0 n collectionName entity :
  forall i s w,
    fails_with sdk (retries_on (CallAdd fireclient0 collectionName entity))
      (List.length (invocations w)) ->
    (true = true -> refresh_succeeds sdk (refreshes w)) ->
    exists s' w',
      add_body sdk n collectionName entity i s w = (Continue s', w')
      /\ List.length (invocations w') = Datatypes.S (List.length (invocations w))
      /\ refreshes w' = Datatypes.S (refreshes w)
      /\ (true = true -> snd s' = None).
Proof. body_retries_tac. Qed.

Lemma add_body_succeeds fireclient0 n collectionName entity :
  forall i s w,
    succeeds_at sdk (List.length (invocations w)) ->
    exists req w',
      add_body sdk n collectionName entity i s w
      = (Leave ((fun r => (resp_docRef r, None))
                  (sdk_invoke sdk (List.length (invocations w)) req)), w')
      /\ request_of_call (CallAdd fireclient0 collectionName entity) req = true
      /\ invocations w' = (invocations w ++ [req])%list
      /\ refreshes w' = refreshes w.
Proof. body_succeeds_tac. Qed.

Lemma get_body_retries fireclient0 n collectionName entityID :
  forall i s w,
    fails_with sdk (retries_on (CallGet fireclient0 collectionName entityID))
      (List.length (invocations w)) ->
    (true = true -> refresh_succeeds sdk (refreshes w)) ->
    exists s' w',
      get_body sdk n collectionName entityID i s w = (Continue s', w')
      /\ List.length (invocations w') = Datatypes.S (List.length (invocations w))
      /\ refreshes w' = Datatypes.S (refreshes w)
      /\ (true = true -> snd s' = None).
Proof. body_retries_tac. Qed.

Lemma get_body_succeeds fireclient0 n collectionName entityID :
  forall i s w,
    succeeds_at sdk (List.length (invocations w)) ->
    exists req w',
      get_body sdk n collectionName entityID i s w
      = (Leave ((fun r => (resp_doc r, None))
                  (sdk_invoke sdk (List.length (invocations w)) req)), w')
      /\ request_of_call (CallGet fireclient0 collectionName entityID) req = true
      /\ invocations w' = (invocations w ++ [req])%list
      /\ refreshes w' = refreshes w.
Proof. body_succeeds_tac. Qed.

Lemma edit_body_retries fireclient0 n collectionName entityID entity :
  forall i s w,
    fails_with sdk
      (retries_on (CallEdit fireclient0 collectionName entityID entity))
      (List.length (invocations w)) ->
    (true = true -> refresh_succeeds sdk (refreshes w)) ->
    exists s' w',
      edit_body sdk n collectionName entityID entity i s w = (Continue s', w')
      /\ List.length (invocations w') = Datatypes.S (List.length (invocations w))
      /\ refreshes w' = Datatypes.S (refreshes w)
      /\ (true = true -> snd s' = None).
Proof. body_retries_tac. Qed.

Lemma edit_body_succeeds fireclient0 n collectionName entityID entity :
  forall i s w,
    succeeds_at sdk (List.length (invocations w)) ->
    exists req w',
      edit_body sdk n collectionName entityID entity i s w
      = (Leave ((fun _ => None)
                  (sdk_invoke sdk (List.length (invocations w)) req)), w')
      /\ request_of_call (CallEdit fireclient0 collectionName entityID entity)
           req = true
      /\ invocations w' = (invocations w ++ [req])%list
      /\ refreshes w' = refreshes w.
Proof. body_succeeds_tac. Qed.

Lemma delete_body_retries fireclient0 n collectionName entityID :
  forall i s w,
    fails_with sdk (retries_on (CallDelete fireclient0 collectionName entityID))
      (List.length (invocations w)) ->
    (true = true -> refresh_succeeds sdk (refreshes w)) ->
    exists s' w',
      delete_body sdk n collectionName entityID i s w = (Continue s', w')
      /\ List.length (invocations w') = Datatypes.S (List.length (invocations w))
      /\ refreshes w' = Datatypes.S (refreshes w)
      /\ (true = true -> snd s' = None).
Proof. body_retries_tac. Qed.

Lemma delete_body_succeeds fireclient0 n collectionName entityID :
  forall i s w,
    succeeds_at sdk (List.length (invocations w)) ->
    exists req w',
      delete_body sdk n collectionName entityID i s w
      = (Leave ((fun r => (resp_result r, None))
                  (sdk_invoke sdk (List.length (invocations w)) req)), w')
      /\ request_of_call (CallDelete fireclient0 collectionName entityID) req
         = true
      /\ invocations w' = (invocations w ++ [req])%list
      /\ refreshes w' = refreshes w.
Proof. body_succeeds_tac. Qed.

(** The cursor body goes round again without a refresh. *)
Lemma iterator_body_retries iter :
  forall i s w,
    fails_with sdk (retries_on (CallNext iter)) (List.length (invocations w)) ->
    (false = true -> refresh_succeeds sdk (refreshes w)) ->
    exists s' w',
      iterator_body sdk iter i s w = (Continue s', w')
      /\ List.length (invocations w') = Datatypes.S (List.length (invocations w))
      /\ refreshes w' = refreshes w
      /\ (false = true -> (fun _ : unit => @None error) s' = None).
Proof. body_retries_tac. Qed.

Lemma iterator_body_succeeds iter :
  forall i s w,
    succeeds_at sdk (List.length (invocations w)) ->
    exists req w',
      iterator_body sdk iter i s w
      = (Leave ((fun r => (resp_doc r, None))
                  (sdk_invoke sdk (List.length (invocations w)) req)), w')
      /\ request_of_call (CallNext iter) req = true
      /\ invocations w' = (invocations w ++ [req])%list
      /\ refreshes w' = refreshes w.
Proof. body_succeeds_tac. Qed.

Lemma add_body_counts n collectionName entity i s w :
  let w' := snd (add_body sdk n collectionName entity i s w) in
  List.length (invocations w') = Datatypes.S (List.length (invocations w))
  /\ (refreshes w <= refreshes w' <= Datatypes.S (refreshes w))%nat.
Proof. body_counts_tac. Qed.

Lemma add_body_extends n collectionName entity i s w :
  exists x,
    invocations (snd (add_body sdk n collectionName entity i s w))
    = (invocations w ++ x)%list.
Proof.
  split_locals; unfold_body; cbn [invocations refreshes environ printed];
    repeat break_inner; cbn [fst snd invocations]; eexists; reflexivity.
Qed.

Lemma get_body_counts n collectionName entityID i s w :
  let w' := snd (get_body sdk n collectionName entityID i s w) in
  List.length (invocations w') = Datatypes.S (List.length (invocations w))
  /\ (refreshes w <= refreshes w' <= Datatypes.S (refreshes w))%nat.
Proof. body_counts_tac. Qed.

Lemma edit_body_counts n collectionName entityID entity i s w :
  let w' := snd (edit_body sdk n collectionName entityID entity i s w) in
  List.length (invocations w') = Datatypes.S (List.length (invocations w))
  /\ (refreshes w <= refreshes w' <= Datatypes.S (refreshes w))%nat.
Proof. body_counts_tac. Qed.

Lemma delete_body_counts n collectionName entityID i s w :
  let w' := snd (delete_body sdk n collectionName entityID i s w) in
  List.length (invocations w') = Datatypes.S (List.length (invocations w))
  /\ (refreshes w <= refreshes w' <= Datatypes.S (refreshes w))%nat.
Proof. body_counts_tac. Qed.

Lemma iterator_body_counts iter i s w :
  let w' := snd (iterator_body sdk iter i s w) in
  List.length (invocations w') = Datatypes.S (List.length (invocations w))
  /\ refreshes w' = refreshes w.
Proof. body_counts_tac. Qed.

End Bodies.

(** ** The guards in front of the loops *)

Lemma passes_validation_parts (c : call) :
  passes_validation c = true ->
  (forall entityID, identifier_of c = Some entityID ->
                    String.eqb entityID "" = false)
  /\ (forall collectionName, collection_of c = Some collectionName ->
                             firestoreCollectionExists collectionName = true).
Proof.
  unfold passes_validation. intros H. apply andb_prop in H. destruct H as [H1 H2].
  split.
  - intros entityID E. rewrite E in H1. apply negb_true_iff in H1. exact H1.
  - intros collectionName E. rewrite E in H2. exact H2.
Qed.

(** Opens a helper up to its loop: runs the opening lines and the guards of a
    call that passes validation. *)
Ltac open_helper Hvalid :=
  cbn [perform];
  unfold addEntityToFirestore, getEntityFromFirestore, editEntityInFirestore,
    deleteEntityFromFirestore, firebaseDocumentIteratorWithRetry;
  let Hid := fresh "Hid" in
  let Hcoll := fresh "Hcoll" in
  destruct (passes_validation_parts _ Hvalid) as [Hid Hcoll];
  cbn [identifier_of collection_of] in Hid, Hcoll;
  try rewrite (Hid _ eq_refl);
  try rewrite (Hcoll _ eq_refl);
  cbn [negb].

(** ** Claims *)

(** C10. When FIRESTORE_RETRIES_NUMBER parses to an integer that is zero or
    negative, every CRUD helper whose arguments pass validation skips its
    loop, makes no backend invocation, and panics on the [err.Error()] of the
    exceeded-retries message, since [err] still holds the nil that [Atoi]
    returned.  The world is left as it was. *)
Theorem C10_nonpositive_budget_panics (sdk : SDK) (c : call) (w : world) (n : Z) :
  is_crud c = true ->
  passes_validation c = true ->
  Strconv.Atoi (Getenv "FIRESTORE_RETRIES_NUMBER" w) = (n, None) ->
  n <= 0 ->
  perform sdk c w = (Panics NilPointerDereference, w)
  /\ invocations_made w (snd (perform sdk c w)) = 0.
Proof.
  intros Hcrud Hvalid Hparse Hn.
  assert (Hfuel : Z.to_nat n = 0%nat) by lia.
  assert (H : perform sdk c w = (Panics NilPointerDereference, w)).
  { destruct c; try discriminate Hcrud; open_helper Hvalid;
      rewrite (firestoreRetriesNumber_parsed w n Hparse); cbv beta iota;
      try rewrite (Hid _ eq_refl); try rewrite (Hcoll _ eq_refl); cbn [negb];
      rewrite Hfuel; reflexivity. }
  split; [exact H|]. rewrite H. unfold invocations_made. simpl. lia.
Qed.

Lemma C10_nonpositive_budget_panics_witness :
  perform (stubAlways ClosingTransportError)
    (CallDelete (client 0) "users" "u1") (startWorld (Some "0"))
  = (Panics NilPointerDereference, startWorld (Some "0"))
  /\ invocations_made (startWorld (Some "0"))
       (snd (perform (stubAlways ClosingTransportError)
               (CallDelete (client 0) "users" "u1") (startWorld (Some "0"))))
     = 0.
Proof.
  apply (C10_nonpositive_budget_panics _ _ _ 0);
    [reflexivity | reflexivity | reflexivity | lia].
Defined.

(** Runs the opening lines of a helper and names what they leave. *)
Ltac run_opening w n err w0 E :=
  cbn [perform];
  unfold addEntityToFirestore, getEntityFromFirestore, editEntityInFirestore,
    deleteEntityFromFirestore, firebaseDocumentIteratorWithRetry;
  destruct (firestoreRetriesNumber w) as [[n err] w0] eqn:E;
  cbn [fst snd].

(** C6. A read, update or delete call with an empty entity identifier
    returns its identifier-required error at once: no backend invocation and
    no refresh, whatever the collection name and the retry budget; only the
    opening lines have run. *)
Theorem C6_empty_identifier_rejected (sdk : SDK) (c : call) (w : world) :
  identifier_of c = Some "" ->
  perform sdk c w
  = (Returns (nil_value c, Some (errorString (missing_identifier_message c))),
     snd (firestoreRetriesNumber w))
  /\ invocations_made w (snd (perform sdk c w)) = 0
  /\ refreshes_made w (snd (perform sdk c w)) = 0.
Proof.
  intros Hid.
  assert (H : perform sdk c w
              = (Returns (nil_value c,
                          Some (errorString (missing_identifier_message c))),
                 snd (firestoreRetriesNumber w))).
  { destruct c; cbn [identifier_of] in Hid; try discriminate Hid;
      injection Hid as ->; run_opening w n err w0 E; reflexivity. }
  split; [exact H|]. rewrite H. cbn [snd].
  destruct (firestoreRetriesNumber w) as [[n err] w0] eqn:E.
  destruct (firestoreRetriesNumber_world w n err w0 E) as (_ & Hi & Hr & _).
  unfold invocations_made, refreshes_made. cbn [snd]. rewrite Hi, Hr. lia.
Qed.

Lemma C6_empty_identifier_rejected_witness :
  perform (stubAlways ClosingTransportError)
    (CallEdit (client 0) "no such collection" "" None) (startWorld (Some "-3"))
  = (Returns (noValue,
              Some (errorString "Entity ID is required field for edit")),
     startWorld (Some "-3"))
  /\ invocations_made (startWorld (Some "-3"))
       (snd (perform (stubAlways ClosingTransportError)
               (CallEdit (client 0) "no such collection" "" None)
               (startWorld (Some "-3")))) = 0
  /\ refreshes_made (startWorld (Some "-3"))
       (snd (perform (stubAlways ClosingTransportError)
               (CallEdit (client 0) "no such collection" "" None)
               (startWorld (Some "-3")))) = 0.
Proof.
  apply (C6_empty_identifier_rejected (stubAlways ClosingTransportError)
           (CallEdit (client 0) "no such collection" "" None)
           (startWorld (Some "-3"))).
  reflexivity.
Defined.

(** C5, as the code has it.  A CRUD call that names a collection outside the
    allowlist returns a validation error with no backend invocation and no
    refresh.  The error says that the name does not exist, except that a
    read, update or delete call with an empty identifier gets the
    identifier-required error, because the identifier is checked first. *)
Theorem C5_unknown_collection_rejected (sdk : SDK) (c : call) (w : world)
    (collectionName : string) :
  collection_of c = Some collectionName ->
  firestoreCollectionExists collectionName = false ->
  perform sdk c w
  = (Returns (nil_value c, Some (errorString (validation_message c))),
     snd (firestoreRetriesNumber w))
  /\ invocations_made w (snd (perform sdk c w)) = 0
  /\ refreshes_made w (snd (perform sdk c w)) = 0.
Proof.
  intros Hcoll Hno.
  assert (H : perform sdk c w
              = (Returns (nil_value c, Some (errorString (validation_message c))),
                 snd (firestoreRetriesNumber w))).
  { destruct c; cbn [collection_of] in Hcoll; try discriminate Hcoll;
      injection Hcoll as ->; run_opening w n err w0 E;
      unfold validation_message; cbn [identifier_of];
      rewrite Hno; cbn [negb];
      try (destruct (String.eqb entityID "")); reflexivity. }
  split; [exact H|]. rewrite H. cbn [snd].
  destruct (firestoreRetriesNumber w) as [[n err] w0] eqn:E.
  destruct (firestoreRetriesNumber_world w n err w0 E) as (_ & Hi & Hr & _).
  unfold invocations_made, refreshes_made. cbn [snd]. rewrite Hi, Hr. lia.
Qed.

Lemma C5_unknown_collection_rejected_witness :
  perform (stubAlways ClosingTransportError)
    (CallGet (client 0) "orders" "o1") (startWorld None)
  = (Returns (docValue None,
              Some (errorString "document name 'orders' does not exist")),
     mkWorld [] [] 0%nat [missing_retries_line])
  /\ invocations_made (startWorld None)
       (snd (perform (stubAlways ClosingTransportError)
               (CallGet (client 0) "orders" "o1") (startWorld None))) = 0
  /\ refreshes_made (startWorld None)
       (snd (perform (stubAlways ClosingTransportError)
               (CallGet (client 0) "orders" "o1") (startWorld None))) = 0.
Proof.
  apply (C5_unknown_collection_rejected (stubAlways ClosingTransportError)
           (CallGet (client 0) "orders" "o1") (startWorld None) "orders");
    reflexivity.
Defined.

(** C5 as stated fails: for the collection [orders], which is not in the
    allowlist, a read with an empty identifier does not report the
    collection; it reports the missing identifier. *)
Lemma C5_counterexample :
  firestoreCollectionExists "orders" = false
  /\ fst (perform (stubAlways ClosingTransportError)
            (CallGet (client 0) "orders" "") (startWorld (Some "2")))
     = Returns (docValue None,
                Some (errorString "entity ID is required field for get"))
  /\ fst (perform (stubAlways ClosingTransportError)
            (CallGet (client 0) "orders" "") (startWorld (Some "2")))
     <> Returns (docValue None,
                 Some (errorString
                         (missing_collection_message
                            (CallGet (client 0) "orders" "")))).
Proof.
  split; [reflexivity|]. split; [reflexivity|]. vm_compute. discriminate.
Qed.

Lemma budget_opening (w : world) n err w0 :
  firestoreRetriesNumber w = ((n, err), w0) -> budget w = n.
Proof. unfold budget. intros ->. reflexivity. Qed.

(** Enters the first iteration of the loop of a call that passes validation,
    given a positive budget, and exposes the first backend answer. *)
Ltac enter_loop w Hvalid Hbudget :=
  let n := fresh "n" in
  let err := fresh "err" in
  let w0 := fresh "w0" in
  let E := fresh "E" in
  let m := fresh "m" in
  let Hm := fresh "Hm" in
  let Hi := fresh "Hi" in
  let Hr := fresh "Hr" in
  let Hid := fresh "Hid" in
  let Hcoll := fresh "Hcoll" in
  let Hbud := fresh "Hbud" in
  run_opening w n err w0 E;
  pose proof (budget_opening w n err w0 E) as Hbud;
  rewrite Hbud in *;
  destruct (firestoreRetriesNumber_world w n err w0 E) as (_ & Hi & Hr & _);
  destruct (passes_validation_parts _ Hvalid) as [Hid Hcoll];
  cbn [identifier_of collection_of] in Hid, Hcoll;
  try rewrite (Hid _ eq_refl);
  try rewrite (Hcoll _ eq_refl);
  cbn [negb];
  destruct (Z.to_nat n) as [|m] eqn:Hm; [lia|];
  cbn [for_loop];
  match goal with
  | |- context [for_loop ?b m] =>
      let rest := fresh "rest" in
      set (rest := for_loop b m); unfold_body; subst rest
  end;
  cbn [invocations refreshes environ printed];
  rewrite ?Hi, ?Hr.

(** C8. When the first backend answer of a call that passes validation (with
    a budget of at least one) is an error that the loop of that operation
    does not retry, and, for the cursor, is not the end-of-sequence
    sentinel, the helper returns that error wrapped in the message of the
    operation (naming the collection, and the identifier where the source
    prints it; the cursor has no collection to name) after exactly one
    backend invocation and without any refresh. *)
Theorem C8_other_backend_error_is_fatal (sdk : SDK) (c : call) (w : world)
    (e : error) :
  passes_validation c = true ->
  1 <= budget w ->
  resp_err (sdk_invoke sdk (List.length (invocations w)) (first_request c))
  = Some e ->
  retries_on c (Error sdk e) = false ->
  e <> Done ->
  fst (perform sdk c w)
  = Returns (nil_value c, Some (errorString (fatal_message c (Error sdk e))))
  /\ invocations (snd (perform sdk c w))
     = (invocations w ++ [first_request c])%list
  /\ invocations_made w (snd (perform sdk c w)) = 1
  /\ refreshes_made w (snd (perform sdk c w)) = 0.
Proof.
  intros Hvalid Hbudget Hresp Hcls Hdone.
  unfold invocations_made, refreshes_made.
  destruct c; cbn [first_request retries_on] in Hresp, Hcls;
    enter_loop w Hvalid Hbudget; rewrite Hresp, Hcls;
    try (destruct e; [congruence | |]);
    cbn [fst snd invocations refreshes lift nil_value fatal_message];
    rewrite ?length_app; cbn [List.length];
    (split; [reflexivity|]); (split; [reflexivity|]); lia.
Qed.

Lemma C8_other_backend_error_is_fatal_witness :
  fst (perform (stubAlways "rpc error: code = PermissionDenied")
         (CallEdit (client 0) "users" "u1" (Some (entityValue 4)))
         (startWorld (Some "3")))
  = Returns (noValue,
             Some (errorString
                     "Unsuccessful updating 'u1' in the 'users' collection, Error: rpc error: code = PermissionDenied"))
  /\ invocations
       (snd (perform (stubAlways "rpc error: code = PermissionDenied")
               (CallEdit (client 0) "users" "u1" (Some (entityValue 4)))
               (startWorld (Some "3"))))
     = [SetMergeAll (client 0) "users" "u1" (Some (entityValue 4))]
  /\ invocations_made (startWorld (Some "3"))
       (snd (perform (stubAlways "rpc error: code = PermissionDenied")
               (CallEdit (client 0) "users" "u1" (Some (entityValue 4)))
               (startWorld (Some "3")))) = 1
  /\ refreshes_made (startWorld (Some "3"))
       (snd (perform (stubAlways "rpc error: code = PermissionDenied")
               (CallEdit (client 0) "users" "u1" (Some (entityValue 4)))
               (startWorld (Some "3")))) = 0.
Proof.
  apply (C8_other_backend_error_is_fatal
           (stubAlways "rpc error: code = PermissionDenied")
           (CallEdit (client 0) "users" "u1" (Some (entityValue 4)))
           (startWorld (Some "3"))
           (errorString "rpc error: code = PermissionDenied"));
    [reflexivity | vm_compute; discriminate | reflexivity | reflexivity
    | discriminate].
Defined.

(** C9. When FIRESTORE_RETRIES_NUMBER is unset or does not parse as an
    integer, every helper works with a budget of exactly one: it logs the
    informational line first, makes exactly one backend invocation if its
    arguments pass validation and none otherwise, and, when that invocation
    succeeds, returns its answer with a nil error, so the unusable
    configuration does not make the call fail. *)
Theorem C9_unusable_retry_count_defaults_to_one (sdk : SDK) (c : call)
    (w : world) :
  retries_unset w \/ retries_unparsable w ->
  budget w = 1
  /\ (exists rest,
        printed (snd (perform sdk c w))
        = (printed w ++ missing_retries_line :: rest)%list)
  /\ invocations_made w (snd (perform sdk c w))
     = (if passes_validation c then 1 else 0)
  /\ (passes_validation c = true ->
      resp_err (sdk_invoke sdk (List.length (invocations w)) (first_request c))
      = None ->
      fst (perform sdk c w)
      = Returns (success_value c
                   (sdk_invoke sdk (List.length (invocations w))
                      (first_request c)), None)).
Proof.
  intros H.
  assert (Hu : retries_unparsable w).
  { destruct H as [H|H]; [apply retries_unset_unparsable|]; exact H. }
  clear H. unfold retries_unparsable in Hu.
  destruct (Strconv.Atoi (Getenv "FIRESTORE_RETRIES_NUMBER" w))
    as [n0 [e0|]] eqn:EA; [clear Hu | exfalso; apply Hu; reflexivity].
  pose proof (firestoreRetriesNumber_fallback w n0 e0 EA) as E.
  split; [unfold budget; rewrite E; reflexivity|].
  unfold invocations_made, passes_validation.
  destruct c; cbn [perform identifier_of collection_of first_request];
    unfold addEntityToFirestore, getEntityFromFirestore, editEntityInFirestore,
      deleteEntityFromFirestore, firebaseDocumentIteratorWithRetry;
    rewrite E; cbv beta iota;
    try (destruct (String.eqb entityID "") eqn:Eid);
    try (destruct (firestoreCollectionExists collectionName) eqn:Ecoll);
    cbn [negb andb fst snd lift printed invocations];
    try (split; [exists []; reflexivity|]; split; [lia|]; discriminate);
    change (Z.to_nat 1) with 1%nat; cbn [for_loop]; unfold_body;
    cbn [invocations refreshes environ printed];
    (split; [| split];
     [ repeat break_inner;
       cbn [fst snd lift printed invocations refreshes];
       rewrite <- ?app_assoc; eexists; reflexivity
     | repeat break_inner;
       cbn [fst snd lift printed invocations refreshes];
       rewrite ?length_app; cbn [List.length]; lia
     | intros _ Hok; rewrite Hok; reflexivity ]).
Qed.

Lemma C9_unusable_retry_count_defaults_to_one_witness :
  budget (startWorld None) = 1
  /\ (exists rest,
        printed (snd (perform (stubFailing 0 "") (CallNext (documentIterator 0))
                        (startWorld None)))
        = (printed (startWorld None) ++ missing_retries_line :: rest)%list)
  /\ invocations_made (startWorld None)
       (snd (perform (stubFailing 0 "") (CallNext (documentIterator 0))
               (startWorld None)))
     = (if passes_validation (CallNext (documentIterator 0)) then 1 else 0)
  /\ (passes_validation (CallNext (documentIterator 0)) = true ->
      resp_err (sdk_invoke (stubFailing 0 "")
                  (List.length (invocations (startWorld None)))
                  (first_request (CallNext (documentIterator 0))))
      = None ->
      fst (perform (stubFailing 0 "") (CallNext (documentIterator 0))
             (startWorld None))
      = Returns (success_value (CallNext (documentIterator 0))
                   (sdk_invoke (stubFailing 0 "")
                      (List.length (invocations (startWorld None)))
                      (first_request (CallNext (documentIterator 0)))), None)).
Proof.
  apply (C9_unusable_retry_count_defaults_to_one (stubFailing 0 "")
           (CallNext (documentIterator 0)) (startWorld None)).
  left. intros v Hin. simpl in Hin. exact Hin.
Defined.

(** ** What the rest of a loop can add to the world *)

Ltac body_count_facts :=
  intros;
  match goal with
  | |- context [add_body ?sdk ?n ?c ?e ?i ?s ?w] =>
      pose proof (add_body_counts sdk n c e i s w)
  | |- context [get_body ?sdk ?n ?c ?id ?i ?s ?w] =>
      pose proof (get_body_counts sdk n c id i s w)
  | |- context [edit_body ?sdk ?n ?c ?id ?e ?i ?s ?w] =>
      pose proof (edit_body_counts sdk n c id e i s w)
  | |- context [delete_body ?sdk ?n ?c ?id ?i ?s ?w] =>
      pose proof (delete_body_counts sdk n c id i s w)
  | |- context [iterator_body ?sdk ?it ?i ?s ?w] =>
      pose proof (iterator_body_counts sdk it i s w)
  end;
  cbv zeta in *; lia.

(** Replaces the remaining iterations by their result, keeping that they do
    not undo refreshes and, if there is at least one, invoke the backend. *)
Ltac rest_of_loop :=
  match goal with
  | |- context [for_loop ?b ?m ?i ?s ?w1] =>
      let HR := fresh "HR" in
      let HI := fresh "HI" in
      assert (HR : (refreshes w1
                    <= refreshes (snd (for_loop b m i s w1)))%nat)
        by (apply (for_loop_monotone b refreshes); body_count_facts);
      assert (HI : (1 <= m ->
                    Datatypes.S (List.length (invocations w1))
                    <= List.length (invocations (snd (for_loop b m i s w1))))%nat)
        by (intros; destruct m; [lia|];
            apply (for_loop_invokes b (fun w => List.length (invocations w)));
            body_count_facts);
      try (let HP := fresh "HP" in
           assert (HP : refreshes (snd (for_loop b m i s w1)) = refreshes w1)
             by (apply (for_loop_preserves b refreshes); body_count_facts));
      destruct (for_loop b m i s w1) as [[?|?] ?]
  end.

(** What a loop does with the first backend error, by the test of its own
    body. *)
Lemma first_error_by_own_test (sdk : SDK) (c : call) (w : world)
    (e : error) :
  passes_validation c = true ->
  1 <= budget w ->
  resp_err (sdk_invoke sdk (List.length (invocations w)) (first_request c))
  = Some e ->
  (retries_on c (Error sdk e) = true ->
   (if is_crud c then 1 <= refreshes_made w (snd (perform sdk c w))
    else refreshes_made w (snd (perform sdk c w)) = 0)
   /\ (2 <= budget w ->
       (is_crud c = true -> refresh_succeeds sdk (refreshes w)) ->
       2 <= invocations_made w (snd (perform sdk c w))))
  /\ (retries_on c (Error sdk e) = false ->
      refreshes_made w (snd (perform sdk c w)) = 0
      /\ invocations_made w (snd (perform sdk c w)) = 1).
Proof.
  intros Hvalid Hbudget Hresp.
  unfold invocations_made, refreshes_made.
  destruct c; cbn [first_request retries_on is_crud] in *;
    enter_loop w Hvalid Hbudget; rewrite Hresp;
    (split; intros Hcls; rewrite Hcls;
     [ | repeat break_inner;
         cbn [fst snd lift invocations refreshes];
         rewrite ?length_app; cbn [List.length]; lia ]).
  all: try (destruct (firebase_NewApp sdk (refreshes w)) as [a|e1] eqn:Ea;
            [destruct (App_Firestore sdk (refreshes w) a) as [cl|e2] eqn:Ecl|]).
  all: try rest_of_loop.
  all: split_locals; repeat break_inner;
    cbn [fst snd lift invocations refreshes] in *;
    rewrite ?length_app in *; cbn [List.length] in *.
  all: try (split; [lia|]).
  all: intros Hb2 Hsucc; try lia;
    destruct (Hsucc eq_refl) as (a' & cl' & Ha' & Hcl'); congruence.
Qed.

(** ** The tests of the five loops against the classifier of the
    specification *)

Lemma HasPrefix_app (s p l : string) :
  GoString.HasPrefix s (p ++ l) = true ->
  exists t, s = (p ++ t)%string /\ GoString.HasPrefix t l = true.
Proof.
  revert s. induction p as [|a p IH]; intros s H.
  - exists s. split; [reflexivity | exact H].
  - destruct s as [|c s]; [discriminate H|]. simpl in H.
    apply andb_prop in H. destruct H as [Hc H].
    apply Ascii.eqb_eq in Hc. subst c.
    destruct (IH s H) as (t & -> & Ht). exists t. split; [reflexivity | exact Ht].
Qed.

Lemma Contains_cons (c : ascii) (s sub : string) :
  GoString.Contains s sub = true -> GoString.Contains (String c s) sub = true.
Proof.
  intros H. change (GoString.Contains (String c s) sub)
    with (GoString.HasPrefix (String c s) sub || GoString.Contains s sub).
  rewrite H. apply orb_true_r.
Qed.

Lemma Contains_after (p t l : string) :
  GoString.HasPrefix t l = true -> GoString.Contains (p ++ t) l = true.
Proof.
  intros H. induction p as [|a p IH].
  - cbn [append]. destruct t; cbn [GoString.Contains]; rewrite H; reflexivity.
  - apply Contains_cons. exact IH.
Qed.

(** A string that contains [p ++ l] contains [l]. *)
Lemma Contains_weaken (s p l : string) :
  GoString.Contains s (p ++ l) = true -> GoString.Contains s l = true.
Proof.
  induction s as [|c s IH]; intros H.
  - cbn [GoString.Contains] in H. rewrite orb_false_r in H.
    destruct (HasPrefix_app _ _ _ H) as (t & -> & Ht).
    apply Contains_after. exact Ht.
  - change (GoString.Contains (String c s) (p ++ l))
      with (GoString.HasPrefix (String c s) (p ++ l)
            || GoString.Contains s (p ++ l)) in H.
    apply orb_prop in H. destruct H as [H|H].
    + destruct (HasPrefix_app _ _ _ H) as (t & -> & Ht).
      apply Contains_after. exact Ht.
    + apply Contains_cons. apply IH. exact H.
Qed.

(** Whatever message a loop retries, the classifier of the specification
    calls retryable. *)
Lemma retries_on_spec_Retryable (c : call) (msg : string) :
  retries_on c msg = true -> spec_Retryable msg = true.
Proof.
  unfold spec_Retryable. destruct c; cbn [retries_on]; intros H;
    try (rewrite H; reflexivity).
  - apply orb_prop in H. destruct H as [H|H]; rewrite H;
      [reflexivity | apply orb_true_r].
  - apply orb_prop in H. destruct H as [H|H]; [rewrite H; reflexivity|].
    rewrite (Contains_weaken msg "Unavailable desc = "
               "The service is temporarily unavailable" H).
    apply orb_true_r.
Qed.

(** ** A backend error at any attempt *)

Section LoopErrors.

Context {S R : Type}.
Variable sdk : SDK.
Variable body : Z -> S -> world -> ctl S R * world.

(** [cls]: the test the body applies to an error message; [refreshing]:
    whether it refreshes the connection before it goes round again; [sent]:
    the request an iteration sends, given the locals it starts with;
    [failed]: the answer of the helper carries an error. *)
Variable cls : string -> bool.
Variable refreshing : bool.
Variable sent : S -> request.
Variable failed : R -> Prop.

Hypothesis body_answers : forall i s w,
  invocations (snd (body i s w)) = (invocations w ++ [sent s])%list
  /\ match resp_err (sdk_invoke sdk (List.length (invocations w)) (sent s)) with
     | None =>
         refreshes (snd (body i s w)) = refreshes w
         /\ exists r, fst (body i s w) = Leave r
     | Some e =>
         if cls (Error sdk e) then
           refreshes (snd (body i s w))
           = (if refreshing then Datatypes.S (refreshes w) else refreshes w)
           /\ ((refreshing = true -> refresh_succeeds sdk (refreshes w)) ->
               exists s', fst (body i s w) = Continue s')
         else
           refreshes (snd (body i s w)) = refreshes w
           /\ exists r, fst (body i s w) = Leave r /\ failed r
     end.

Lemma body_answers_length i s w :
  List.length (invocations (snd (body i s w)))
  = Datatypes.S (List.length (invocations w)).
Proof.
  destruct (body_answers i s w) as [-> _]. rewrite length_app. simpl. lia.
Qed.

Lemma body_answers_refreshes i s w :
  (refreshes w <= refreshes (snd (body i s w)))%nat
  /\ (refreshing = false -> refreshes (snd (body i s w)) = refreshes w).
Proof.
  destruct (body_answers i s w) as [_ H].
  destruct (resp_err (sdk_invoke sdk (List.length (invocations w)) (sent s)))
    as [e|]; [destruct (cls (Error sdk e))|]; destruct H as [-> _];
    destruct refreshing; split; intros; try lia; discriminate.
Qed.

(** After an iteration that goes round again the refresh count is the one
    the body's way of retrying gives. *)
Lemma body_answers_continue i s w s' w' :
  body i s w = (Continue s', w') ->
  refreshes w' = (if refreshing then Datatypes.S (refreshes w) else refreshes w).
Proof.
  intros Eb. destruct (body_answers i s w) as [_ H]. rewrite Eb in H.
  cbn [fst snd] in H.
  destruct (resp_err (sdk_invoke sdk (List.length (invocations w)) (sent s)))
    as [e|]; [destruct (cls (Error sdk e))|].
  - apply H.
  - destruct H as (_ & r & Hr & _). discriminate Hr.
  - destruct H as (_ & r & Hr). discriminate Hr.
Qed.

Lemma for_loop_answers_extends fuel i s w :
  exists x,
    invocations (snd (for_loop body fuel i s w)) = (invocations w ++ x)%list.
Proof.
  apply for_loop_extends. intros i0 s0 w0. exists [sent s0].
  apply body_answers.
Qed.

(** Whatever invocation the loop makes, the [j]-th say, and whatever error
    the backend answers it with: if the message passes the test of the body,
    the body retries in its own way, and goes on to a further invocation when
    the bound leaves room and the refresh, if there is one, succeeds; if the
    message fails the test, this invocation is the last, nothing is refreshed
    after it, and the loop is left with an error. *)
Lemma for_loop_error_at : forall (fuel j : nat) i s w req e,
  nth_error (invocations (snd (for_loop body fuel i s w)))
    (List.length (invocations w) + j) = Some req ->
  resp_err (sdk_invoke sdk (List.length (invocations w) + j) req) = Some e ->
  (cls (Error sdk e) = true ->
   (if refreshing
    then (refreshes w + j + 1 <= refreshes (snd (for_loop body fuel i s w)))%nat
    else refreshes (snd (for_loop body fuel i s w)) = refreshes w)
   /\ ((j + 2 <= fuel)%nat ->
       (refreshing = true -> refresh_succeeds sdk (refreshes w + j)) ->
       (List.length (invocations w) + j + 2
        <= List.length (invocations (snd (for_loop body fuel i s w))))%nat))
  /\ (cls (Error sdk e) = false ->
      List.length (invocations (snd (for_loop body fuel i s w)))
      = (List.length (invocations w) + j + 1)%nat
      /\ refreshes (snd (for_loop body fuel i s w))
         = (if refreshing then refreshes w + j else refreshes w)%nat
      /\ exists r, fst (for_loop body fuel i s w) = Leave r /\ failed r).
Proof.
  induction fuel as [|fuel IH]; intros j i s w req e Hnth Hresp.
  - cbn [for_loop snd] in Hnth.
    assert (Hnone : nth_error (invocations w) (List.length (invocations w) + j)
                    = None) by (apply nth_error_None; lia).
    congruence.
  - cbn [for_loop] in Hnth |- *.
    destruct (body_answers i s w) as [Hsent Hans].
    pose proof (body_answers_length i s w) as Hlen.
    destruct (body i s w) as [[s1|r] w1] eqn:Eb;
      cbn [fst snd] in Hsent, Hans, Hlen, Hnth |- *.
    + pose proof (body_answers_continue _ _ _ _ _ Eb) as Href.
      destruct j as [|j].
      * rewrite Nat.add_0_r in Hnth, Hresp. rewrite ?Nat.add_0_r.
        destruct (for_loop_answers_extends fuel (i + 1) s1 w1) as [x Hx].
        rewrite Hx, Hsent, <- app_assoc, nth_error_app2, Nat.sub_diag in Hnth
          by lia.
        cbn in Hnth. injection Hnth as <-. rewrite Hresp in Hans.
        pose proof (for_loop_monotone body refreshes
                      (fun i s w => proj1 (body_answers_refreshes i s w))
                      fuel (i + 1) s1 w1) as Hmono.
        destruct (cls (Error sdk e)); split; intros Hc; try discriminate Hc.
        -- split.
           ++ assert (Hpres : refreshing = false ->
                              refreshes (snd (for_loop body fuel (i + 1) s1 w1))
                              = refreshes w1).
              { intros Hr.
                apply (for_loop_preserves body refreshes
                         (fun i s w =>
                            proj2 (body_answers_refreshes i s w) Hr)). }
              destruct refreshing; [lia|].
              rewrite (Hpres eq_refl). exact Href.
           ++ intros Hfuel _. destruct fuel as [|fuel]; [lia|].
              pose proof (for_loop_invokes body
                            (fun w => List.length (invocations w))
                            (fun i s w =>
                               Nat.eq_le_incl _ _
                                 (eq_sym (body_answers_length i s w)))
                            fuel (i + 1) s1 w1) as Hinv.
              cbn beta in Hinv. lia.
        -- destruct Hans as (_ & r & Hr & _). discriminate Hr.
      * replace (List.length (invocations w) + Datatypes.S j)%nat
          with (List.length (invocations w1) + j)%nat in Hnth, Hresp by lia.
        destruct (IH j (i + 1) s1 w1 req e Hnth Hresp) as [Hyes Hno].
        split; intros Hc.
        -- destruct (Hyes Hc) as [Ha Hb]. split.
           ++ rewrite Href in Ha. destruct refreshing; [lia | exact Ha].
           ++ intros Hfuel Hsucc.
              assert (Hgoal : (List.length (invocations w1) + j + 2
                               <= List.length
                                    (invocations
                                       (snd (for_loop body fuel (i + 1) s1 w1))))%nat).
              { apply Hb; [lia|]. intros Hr. rewrite Href, Hr.
                replace (Datatypes.S (refreshes w) + j)%nat
                  with (refreshes w + Datatypes.S j)%nat by lia.
                exact (Hsucc Hr). }
              lia.
        -- destruct (Hno Hc) as (Ha & Hb & Hd). split; [lia|]. split.
           ++ rewrite Hb, Href. destruct refreshing; lia.
           ++ exact Hd.
    + destruct j as [|j].
      * rewrite Nat.add_0_r in Hnth, Hresp. rewrite ?Nat.add_0_r.
        rewrite Hsent, nth_error_app2, Nat.sub_diag in Hnth by lia.
        cbn in Hnth. injection Hnth as <-. rewrite Hresp in Hans.
        destruct (cls (Error sdk e)); split; intros Hc; try discriminate Hc.
        -- destruct Hans as [Href Hcont]. split.
           ++ rewrite Href. destruct refreshing; [lia | reflexivity].
           ++ intros _ Hsucc. destruct (Hcont Hsucc) as [s' Hs'].
              discriminate Hs'.
        -- destruct Hans as [Href Hleft]. split; [lia|]. split.
           ++ rewrite Href. destruct refreshing; lia.
           ++ exact Hleft.
      * assert (Hnone : nth_error (invocations w1)
                          (List.length (invocations w) + Datatypes.S j) = None)
          by (apply nth_error_None; lia).
        congruence.
Qed.

End LoopErrors.

(** The five bodies fit that description, each with its own test. *)
Ltac body_answers_tac :=
  let e := fresh "e" in
  let Er := fresh "Er" in
  let Hc := fresh "Hc" in
  intros ? ? ?; split_locals; unfold_body;
  cbn [fst snd invocations refreshes environ printed];
  match goal with
  | |- context [resp_err ?r] => destruct (resp_err r) as [e|] eqn:Er
  end;
  [ match goal with
    | |- context [retries_on ?c ?m] =>
        destruct (retries_on c m) eqn:Hc; cbn [retries_on] in Hc; rewrite Hc
    end
  | ];
  repeat match goal with
         | |- context [match ?x with _ => _ end] =>
             lazymatch x with
             | context [match _ with _ => _ end] => fail
             | _ => destruct x eqn:?
             end
         end;
  cbn [fst snd invocations refreshes environ printed];
  repeat split;
  try (eexists; reflexivity);
  try (eexists; split; [reflexivity | discriminate]);
  try (let Hs := fresh "Hs" in
       intros Hs; destruct (Hs eq_refl) as (? & ? & ? & ?); congruence).

Section BodiesAnswer.

Variable sdk : SDK.

Lemma add_body_answers fireclient0 n collectionName entity :
  forall i s w,
    invocations (snd (add_body sdk n collectionName entity i s w))
    = (invocations w ++ [Add (fst (fst s)) collectionName entity])%list
    /\ match resp_err (sdk_invoke sdk (List.length (invocations w))
                         (Add (fst (fst s)) collectionName entity)) with
       | None =>
           refreshes (snd (add_body sdk n collectionName entity i s w)) = refreshes w
           /\ exists r, fst (add_body sdk n collectionName entity i s w) = Leave r
       | Some e =>
           if retries_on (CallAdd fireclient0 collectionName entity) (Error sdk e)
           then
             refreshes (snd (add_body sdk n collectionName entity i s w))
             = (if true then Datatypes.S (refreshes w) else refreshes w)
             /\ ((true = true -> refresh_succeeds sdk (refreshes w)) ->
                 exists s', fst (add_body sdk n collectionName entity i s w) = Continue s')
           else
             refreshes (snd (add_body sdk n collectionName entity i s w)) = refreshes w
             /\ exists r, fst (add_body sdk n collectionName entity i s w) = Leave r /\ snd r <> None
       end.
Proof. body_answers_tac. Qed.

Lemma get_body_answers fireclient0 n collectionName entityID :
  forall i s w,
    invocations (snd (get_body sdk n collectionName entityID i s w))
    = (invocations w ++ [Get (fst (fst s)) collectionName entityID])%list
    /\ match resp_err (sdk_invoke sdk (List.length (invocations w))
                         (Get (fst (fst s)) collectionName entityID)) with
       | None =>
           refreshes (snd (get_body sdk n collectionName entityID i s w)) = refreshes w
           /\ exists r, fst (get_body sdk n collectionName entityID i s w) = Leave r
       | Some e =>
           if retries_on (CallGet fireclient0 collectionName entityID) (Error sdk e)
           then
             refreshes (snd (get_body sdk n collectionName entityID i s w))
             = (if true then Datatypes.S (refreshes w) else refreshes w)
             /\ ((true = true -> refresh_succeeds sdk (refreshes w)) ->
                 exists s', fst (get_body sdk n collectionName entityID i s w) = Continue s')
           else
             refreshes (snd (get_body sdk n collectionName entityID i s w)) = refreshes w
             /\ exists r, fst (get_body sdk n collectionName entityID i s w) = Leave r /\ snd r <> None
       end.
Proof. body_answers_tac. Qed.

Lemma edit_body_answers fireclient0 n collectionName entityID entity :
  forall i s w,
    invocations (snd (edit_body sdk n collectionName entityID entity i s w))
    = (invocations w ++ [SetMergeAll (fst s) collectionName entityID entity])%list
    /\ match resp_err (sdk_invoke sdk (List.length (invocations w))
                         (SetMergeAll (fst s) collectionName entityID entity)) with
       | None =>
           refreshes (snd (edit_body sdk n collectionName entityID entity i s w)) = refreshes w
           /\ exists r, fst (edit_body sdk n collectionName entityID entity i s w) = Leave r
       | Some e =>
           if retries_on (CallEdit fireclient0 collectionName entityID entity) (Error sdk e)
           then
             refreshes (snd (edit_body sdk n collectionName entityID entity i s w))
             = (if true then Datatypes.S (refreshes w) else refreshes w)
             /\ ((true = true -> refresh_succeeds sdk (refreshes w)) ->
                 exists s', fst (edit_body sdk n collectionName entityID entity i s w) = Continue s')
           else
             refreshes (snd (edit_body sdk n collectionName entityID entity i s w)) = refreshes w
             /\ exists r, fst (edit_body sdk n collectionName entityID entity i s w) = Leave r /\ r <> None
       end.
Proof. body_answers_tac. Qed.

Lemma delete_body_answers fireclient0 n collectionName entityID :
  forall i s w,
    invocations (snd (delete_body sdk n collectionName entityID i s w))
    = (invocations w ++ [Delete (fst (fst s)) collectionName entityID])%list
    /\ match resp_err (sdk_invoke sdk (List.length (invocations w))
                         (Delete (fst (fst s)) collectionName entityID)) with
       | None =>
           refreshes (snd (delete_body sdk n collectionName entityID i s w)) = refreshes w
           /\ exists r, fst (delete_body sdk n collectionName entityID i s w) = Leave r
       | Some e =>
           if retries_on (CallDelete fireclient0 collectionName entityID) (Error sdk e)
           then
             refreshes (snd (delete_body sdk n collectionName entityID i s w))
             = (if true then Datatypes.S (refreshes w) else refreshes w)
             /\ ((true = true -> refresh_succeeds sdk (refreshes w)) ->
                 exists s', fst (delete_body sdk n collectionName entityID i s w) = Continue s')
           else
             refreshes (snd (delete_body sdk n collectionName entityID i s w)) = refreshes w
             /\ exists r, fst (delete_body sdk n collectionName entityID i s w) = Leave r /\ snd r <> None
       end.
Proof. body_answers_tac. Qed.

Lemma iterator_body_answers iter :
  forall i s w,
    invocations (snd (iterator_body sdk iter i s w))
    = (invocations w ++ [Next iter])%list
    /\ match resp_err (sdk_invoke sdk (List.length (invocations w))
                         (Next iter)) with
       | None =>
           refreshes (snd (iterator_body sdk iter i s w)) = refreshes w
           /\ exists r, fst (iterator_body sdk iter i s w) = Leave r
       | Some e =>
           if retries_on (CallNext iter) (Error sdk e)
           then
             refreshes (snd (iterator_body sdk iter i s w))
             = (if false then Datatypes.S (refreshes w) else refreshes w)
             /\ ((false = true -> refresh_succeeds sdk (refreshes w)) ->
                 exists s', fst (iterator_body sdk iter i s w) = Continue s')
           else
             refreshes (snd (iterator_body sdk iter i s w)) = refreshes w
             /\ exists r, fst (iterator_body sdk iter i s w) = Leave r /\ snd r <> None
       end.
Proof. body_answers_tac. Qed.

End BodiesAnswer.

(** Settles one helper: a call stopped by a guard has invoked nothing; the
    loop of a call that passes them is covered by [for_loop_error_at]. *)
Ltac no_invocation Hnth Hi :=
  exfalso; cbn [lift fst snd] in Hnth; rewrite Hi in Hnth;
  rewrite (proj2 (nth_error_None _ _)) in Hnth by lia; discriminate Hnth.

Ltac error_at_any_attempt sdk w j req e Hnth Hresp Hown cls refreshing sent
    failed body_lemma :=
  let n := fresh "n" in
  let err := fresh "err" in
  let w0 := fresh "w0" in
  let E := fresh "E" in
  let Hi := fresh "Hi" in
  let Hr := fresh "Hr" in
  let H := fresh "H" in
  let Hyes := fresh "Hyes" in
  let Hno := fresh "Hno" in
  let Hc := fresh "Hc" in
  let Ha := fresh "Ha" in
  let Hb := fresh "Hb" in
  let Hl := fresh "Hl" in
  let Hf := fresh "Hf" in
  let Hbud := fresh "Hbud" in
  let Hsucc := fresh "Hsucc" in
  let Hnext := fresh "Hnext" in
  let Hspec := fresh "Hspec" in
  destruct (firestoreRetriesNumber w) as [[n err] w0] eqn:E;
  destruct (firestoreRetriesNumber_world w n err w0 E) as (_ & Hi & Hr & _);
  cbn [fst snd] in Hnth |- *;
  try (destruct (String.eqb _ ""); [no_invocation Hnth Hi|]);
  try (destruct (negb (firestoreCollectionExists _));
       [no_invocation Hnth Hi|]);
  match goal with
  | |- context [for_loop ?B ?fuel 0 ?s0 w0] =>
      pose proof (for_loop_error_at sdk B cls refreshing sent failed
                    (body_lemma n)
                    fuel j 0 s0 w0 req e) as H;
      rewrite Hi, Hr in H; cbv beta iota in H;
      destruct (for_loop B fuel 0 s0 w0) as [[?|?] ?]
  end;
  split_locals;
  repeat match goal with
         | |- context [match ?x with _ => _ end] =>
             lazymatch x with
             | context [match _ with _ => _ end] => fail
             | _ => destruct x
             end
         end;
  cbn [lift fst snd] in Hnth, H |- *;
  destruct (H Hnth Hresp) as [Hyes Hno];
  (split;
   [ intros Hc; destruct (Hyes Hc) as [Ha Hb];
     (split; [lia|]);
     intros Hbud Hsucc;
     assert (Hnext := Hb ltac:(lia) Hsucc); lia
   | intros Hspec;
     destruct (Hno (Hown Hspec)) as (Ha & Hb & ? & Hl & Hf);
     (split; [lia|]); (split; [lia|]);
     first [ discriminate Hl
           | injection Hl as <-; cbn [snd] in Hf;
             match type of Hf with
             | ?o <> None =>
                 destruct o;
                 [ eexists; eexists; reflexivity
                 | exfalso; apply Hf; reflexivity ]
             end ] ]).

(** C3, as the code has it.  Take any backend invocation a call makes, the
    first or a later one, and let the backend answer it with an error.  Every
    one of the five loops retries the error when its message is exactly the
    transport-is-closing string; the read loop also when the message contains
    "The service is temporarily unavailable", the update loop also when it
    contains the whole service-unavailable constant ([retries_on]).  To retry
    means, for a CRUD helper, to call the refresh routine once more and, if
    that refresh succeeds and budget is left, to invoke the backend again;
    the cursor goes round again without any refresh.  An error whose message
    the classifier of the specification does not call retryable is retried by
    no loop at no attempt: the invocation it answers is the last one, no
    refresh follows it, and the call returns an error. *)
Theorem C3_classification_per_operation (sdk : SDK) (c : call) (w : world)
    (j : nat) (req : request) (e : error) :
  nth_error (invocations (snd (perform sdk c w)))
    (List.length (invocations w) + j) = Some req ->
  resp_err (sdk_invoke sdk (List.length (invocations w) + j) req) = Some e ->
  (retries_on c (Error sdk e) = true ->
   (if is_crud c
    then Z.of_nat j + 1 <= refreshes_made w (snd (perform sdk c w))
    else refreshes_made w (snd (perform sdk c w)) = 0)
   /\ (Z.of_nat j + 2 <= budget w ->
       (is_crud c = true -> refresh_succeeds sdk (refreshes w + j)) ->
       Z.of_nat j + 2 <= invocations_made w (snd (perform sdk c w))))
  /\ (spec_Retryable (Error sdk e) = false ->
      invocations_made w (snd (perform sdk c w)) = Z.of_nat j + 1
      /\ refreshes_made w (snd (perform sdk c w))
         = (if is_crud c then Z.of_nat j else 0)
      /\ exists v err, fst (perform sdk c w) = Returns (v, Some err)).
Proof.
  intros Hnth Hresp.
  assert (Hown : spec_Retryable (Error sdk e) = false ->
                 retries_on c (Error sdk e) = false).
  { intros Hspec. destruct (retries_on c (Error sdk e)) eqn:Hc; [|reflexivity].
    rewrite (retries_on_spec_Retryable c _ Hc) in Hspec. discriminate Hspec. }
  unfold invocations_made, refreshes_made, budget.
  destruct c; cbn [perform is_crud] in Hnth |- *;
    unfold addEntityToFirestore, getEntityFromFirestore,
      editEntityInFirestore, deleteEntityFromFirestore,
      firebaseDocumentIteratorWithRetry in Hnth |- *.
  - error_at_any_attempt sdk w j req e Hnth Hresp Hown
      (retries_on (CallAdd fireclient collectionName entity)) true
      (fun s : Client * option DocumentRef * option error =>
         Add (fst (fst s)) collectionName entity)
      (fun r : option DocumentRef * option error => snd r <> None)
      (fun n => add_body_answers sdk fireclient n collectionName entity).
  - error_at_any_attempt sdk w j req e Hnth Hresp Hown
      (retries_on (CallGet fireclient collectionName entityID)) true
      (fun s : Client * option DocumentSnapshot * option error =>
         Get (fst (fst s)) collectionName entityID)
      (fun r : option DocumentSnapshot * option error => snd r <> None)
      (fun n => get_body_answers sdk fireclient n collectionName entityID).
  - error_at_any_attempt sdk w j req e Hnth Hresp Hown
      (retries_on (CallEdit fireclient collectionName entityID entity)) true
      (fun s : Client * option error =>
         SetMergeAll (fst s) collectionName entityID entity)
      (fun r : option error => r <> None)
      (fun n =>
         edit_body_answers sdk fireclient n collectionName entityID entity).
  - error_at_any_attempt sdk w j req e Hnth Hresp Hown
      (retries_on (CallDelete fireclient collectionName entityID)) true
      (fun s : Client * option WriteResult * option error =>
         Delete (fst (fst s)) collectionName entityID)
      (fun r : option WriteResult * option error => snd r <> None)
      (fun n => delete_body_answers sdk fireclient n collectionName entityID).
  - error_at_any_attempt sdk w j req e Hnth Hresp Hown
      (retries_on (CallNext iter)) false
      (fun _ : unit => Next iter)
      (fun r : option DocumentSnapshot * option error => snd r <> None)
      (fun _ : Z => iterator_body_answers sdk iter).
Qed.

Lemma C3_classification_per_operation_witness :
  (2 <= refreshes_made (startWorld (Some "3"))
          (snd (perform (stubAlways UnavailableServiceError)
                  (CallEdit (client 0) "users" "u1" None)
                  (startWorld (Some "3"))))
   /\ 3 <= invocations_made (startWorld (Some "3"))
             (snd (perform (stubAlways UnavailableServiceError)
                     (CallEdit (client 0) "users" "u1" None)
                     (startWorld (Some "3")))))
  /\ (invocations_made (startWorld (Some "3"))
        (snd (perform
                (stubFailingThen 1 ClosingTransportError "permission denied")
                (CallAdd (client 0) "users" None) (startWorld (Some "3"))))
      = 2
      /\ refreshes_made (startWorld (Some "3"))
           (snd (perform
                   (stubFailingThen 1 ClosingTransportError "permission denied")
                   (CallAdd (client 0) "users" None) (startWorld (Some "3"))))
         = 1
      /\ exists v err,
           fst (perform
                  (stubFailingThen 1 ClosingTransportError "permission denied")
                  (CallAdd (client 0) "users" None) (startWorld (Some "3")))
           = Returns (v, Some err)).
Proof.
  split.
  - destruct (C3_classification_per_operation
                (stubAlways UnavailableServiceError)
                (CallEdit (client 0) "users" "u1" None)
                (startWorld (Some "3")) 1
                (SetMergeAll (client 1) "users" "u1" None)
                (errorString UnavailableServiceError)) as [Hretry _].
    + reflexivity.
    + reflexivity.
    + destruct (Hretry eq_refl) as [Hrefresh Hagain]. split.
      * exact Hrefresh.
      * apply Hagain.
        -- vm_compute. discriminate.
        -- intros _. exists (app 1), (client 2). split; reflexivity.
  - destruct (C3_classification_per_operation
                (stubFailingThen 1 ClosingTransportError "permission denied")
                (CallAdd (client 0) "users" None)
                (startWorld (Some "3")) 1
                (Add (client 1) "users" None)
                (errorString "permission denied")) as [_ Hfatal].
    + reflexivity.
    + reflexivity.
    + exact (Hfatal eq_refl).
Defined.

(** The run behind the second half: the first attempt is retried, the error
    of the second is returned at once, although a third attempt was in the
    budget. *)
Example later_error_is_fatal :
  perform (stubFailingThen 1 ClosingTransportError "permission denied")
    (CallAdd (client 0) "users" None) (startWorld (Some "3"))
  = (Returns (refValue None,
              Some (errorString
                      "Unsuccessful adding data to the 'users' collection, Error: permission denied")),
     mkWorld [("FIRESTORE_RETRIES_NUMBER", "3")]
       [Add (client 0) "users" None; Add (client 1) "users" None] 1%nat []).
Proof. reflexivity. Qed.

(** C3 as stated fails.  The cursor, with a budget of two, does retry the
    closing-transport message, but it triggers no connection refresh.  And
    the rule is not the same in all five operations: the service-unavailable
    message, retryable by the rule of the specification, makes the update
    helper refresh and try again, while the create helper answers it with
    neither a refresh nor a second attempt. *)
Lemma C3_counterexample :
  spec_Retryable ClosingTransportError = true
  /\ perform (stubFailing 1 ClosingTransportError)
       (CallNext (documentIterator 0)) (startWorld (Some "2"))
     = (Returns (docValue (Some (documentSnapshot 7)), None),
        mkWorld [("FIRESTORE_RETRIES_NUMBER", "2")]
          [Next (documentIterator 0); Next (documentIterator 0)] 0%nat [])
  /\ spec_Retryable UnavailableServiceError = true
  /\ perform (stubFailing 1 UnavailableServiceError)
       (CallEdit (client 0) "users" "u1" (Some (entityValue 1)))
       (startWorld (Some "2"))
     = (Returns (noValue, None),
        mkWorld [("FIRESTORE_RETRIES_NUMBER", "2")]
          [SetMergeAll (client 0) "users" "u1" (Some (entityValue 1));
           SetMergeAll (client 1) "users" "u1" (Some (entityValue 1))]
          1%nat [])
  /\ perform (stubFailing 1 UnavailableServiceError)
       (CallAdd (client 0) "users" (Some (entityValue 1)))
       (startWorld (Some "2"))
     = (Returns (refValue None,
                 Some (errorString
                         "Unsuccessful adding data to the 'users' collection, Error: Unavailable desc = The service is temporarily unavailable")),
        mkWorld [("FIRESTORE_RETRIES_NUMBER", "2")]
          [Add (client 0) "users" (Some (entityValue 1))] 0%nat []).
Proof. repeat split; reflexivity. Qed.

(** C7, as the code has it.  The create helper does not look at the entity:
    with an allowlisted collection and a budget of at least one, a nil
    entity is handed to the backend in the first invocation, and the answer
    of the backend decides.  A backend error that the loop does not retry
    comes back wrapped in the unsuccessful-adding message after exactly one
    invocation; a backend success comes back as a success. *)
Theorem C7_nil_entity_reaches_backend (sdk : SDK) (fireclient : Client)
    (collectionName : string) (w : world) :
  firestoreCollectionExists collectionName = true ->
  1 <= budget w ->
  nth_error
    (invocations (snd (perform sdk (CallAdd fireclient collectionName None) w)))
    (List.length (invocations w))
  = Some (Add fireclient collectionName None)
  /\ (forall e,
        resp_err (sdk_invoke sdk (List.length (invocations w))
                    (Add fireclient collectionName None)) = Some e ->
        String.eqb (Error sdk e) ClosingTransportError = false ->
        fst (perform sdk (CallAdd fireclient collectionName None) w)
        = Returns (refValue None,
                   Some (errorString
                           ("Unsuccessful adding data to the '"
                            ++ collectionName ++ "' collection, Error: "
                            ++ Error sdk e)%string))
        /\ invocations_made w
             (snd (perform sdk (CallAdd fireclient collectionName None) w)) = 1)
  /\ (resp_err (sdk_invoke sdk (List.length (invocations w))
                  (Add fireclient collectionName None)) = None ->
      fst (perform sdk (CallAdd fireclient collectionName None) w)
      = Returns (refValue
                   (resp_docRef
                      (sdk_invoke sdk (List.length (invocations w))
                         (Add fireclient collectionName None))), None)).
Proof.
  intros Hexists Hbudget.
  assert (Hvalid : passes_validation (CallAdd fireclient collectionName None)
                   = true) by exact Hexists.
  unfold invocations_made.
  enter_loop w Hvalid Hbudget.
  split; [| split].
  - destruct (resp_err (sdk_invoke sdk (List.length (invocations w))
                          (Add fireclient collectionName None))) as [e|];
      [destruct (String.eqb (Error sdk e) ClosingTransportError);
       [destruct (firebase_NewApp sdk (refreshes w)) as [a|e1];
        [destruct (App_Firestore sdk (refreshes w) a) as [cl|e2]|]|]|].
    all: try (cbn [fst snd lift invocations];
              rewrite nth_error_app2 by lia; rewrite Nat.sub_diag; reflexivity).
    match goal with
    | |- context [for_loop ?b ?m ?i ?s ?w1] =>
        destruct (for_loop_extends b (add_body_extends sdk _ _ _) m i s w1)
          as [x Hx];
        destruct (for_loop b m i s w1) as [[?|?] ?]
    end;
      split_locals; repeat break_inner; cbn [fst snd lift invocations] in *;
      rewrite Hx, <- app_assoc;
      rewrite nth_error_app2 by lia; rewrite Nat.sub_diag; reflexivity.
  - intros e Hresp Hcls. rewrite Hresp, Hcls.
    cbn [fst snd lift invocations]. rewrite length_app. cbn [List.length].
    split; [reflexivity | lia].
  - intros Hresp. rewrite Hresp. reflexivity.
Qed.

Lemma C7_nil_entity_reaches_backend_witness :
  nth_error
    (invocations
       (snd (perform (stubAlways "firestore: nil document contents")
               (CallAdd (client 0) "users" None) (startWorld (Some "2")))))
    (List.length (invocations (startWorld (Some "2"))))
  = Some (Add (client 0) "users" None).
Proof.
  apply (C7_nil_entity_reaches_backend
           (stubAlways "firestore: nil document contents") (client 0) "users"
           (startWorld (Some "2"))).
  - reflexivity.
  - vm_compute. discriminate.
Defined.

(** C7 as stated fails: a create call with a nil entity on the allowlisted
    collection [users] reaches the backend; when the backend rejects the nil
    document, its error comes back wrapped after one invocation, and when the
    backend first fails with the closing-transport message and then succeeds,
    the call is retried and returns a success. *)
Lemma C7_counterexample :
  firestoreCollectionExists "users" = true
  /\ perform (stubAlways "firestore: nil document contents")
       (CallAdd (client 0) "users" None) (startWorld (Some "2"))
     = (Returns (refValue None,
                 Some (errorString
                         "Unsuccessful adding data to the 'users' collection, Error: firestore: nil document contents")),
        mkWorld [("FIRESTORE_RETRIES_NUMBER", "2")]
          [Add (client 0) "users" None] 0%nat [])
  /\ perform (stubFailing 1 ClosingTransportError)
       (CallAdd (client 0) "users" None) (startWorld (Some "2"))
     = (Returns (refValue (Some (documentRef 7)), None),
        mkWorld [("FIRESTORE_RETRIES_NUMBER", "2")]
          [Add (client 0) "users" None; Add (client 1) "users" None] 1%nat []).
Proof. repeat split; reflexivity. Qed.

(** ** Using up the budget *)

Lemma firestoreRetriesNumber_err (w : world) n err w0 :
  firestoreRetriesNumber w = ((n, err), w0) -> err = retries_parse_error w.
Proof.
  unfold firestoreRetriesNumber, retries_parse_error.
  destruct (Strconv.Atoi _) as [m [e|]]; intros H; inversion H; reflexivity.
Qed.

(** Runs a loop in which every invocation fails with a retried message and
    every refresh succeeds, by [for_loop_all_fail] at the given body lemma. *)
Ltac exhaust_loop sdk cls refreshing carried body_lemma n w0 Hfail Hrefresh :=
  match goal with
  | |- context [for_loop ?b (Z.to_nat n) ?i ?s w0] =>
      let s' := fresh "s'" in
      let w' := fresh "w'" in
      let HL := fresh "HL" in
      let Hlen := fresh "Hlen" in
      let Href := fresh "Href" in
      let Hcar := fresh "Hcar" in
      destruct (for_loop_all_fail b sdk cls refreshing carried body_lemma
                  (Z.to_nat n) i s w0 Hfail Hrefresh)
        as (s' & w' & HL & Hlen & Href & Hcar & _);
      rewrite HL; split_locals;
      try (cbn [snd] in Hcar; rewrite (Hcar eq_refl) by lia);
      cbn [fst snd lift]
  end.

(** C1, what the code does.  When every backend invocation fails with a
    message the loop retries and every refresh succeeds, a call that passes
    validation with a budget [N >= 1] makes exactly [N] backend invocations
    (and [N] refreshes, for a CRUD helper; none for the cursor) and falls out
    of its loop.  A CRUD helper then panics: the [err] it formats is the nil
    the last refresh returned, not the last backend error.  The cursor
    formats the [err] of [Atoi], hidden inside the loop by the [err] of the
    body: it panics when the variable parsed, and otherwise returns a message
    about the parse error instead of the last backend error. *)
Theorem C1_exhausted_budget (sdk : SDK) (c : call) (w : world) :
  passes_validation c = true ->
  1 <= budget w ->
  (forall k, (k < Z.to_nat (budget w))%nat ->
             fails_with sdk (retries_on c) (List.length (invocations w) + k)) ->
  (is_crud c = true ->
   forall k, (k < Z.to_nat (budget w))%nat ->
             refresh_succeeds sdk (refreshes w + k)) ->
  fst (perform sdk c w)
  = match (if is_crud c then None else retries_parse_error w) with
    | None => Panics NilPointerDereference
    | Some e0 =>
        Returns (docValue None,
                 Some (errorString
                         ("Unsuccessful document iteration, Error: "
                          ++ Error sdk e0)%string))
    end
  /\ invocations_made w (snd (perform sdk c w)) = budget w
  /\ refreshes_made w (snd (perform sdk c w))
     = (if is_crud c then budget w else 0).
Proof.
  intros Hvalid Hbudget Hfail Hrefresh.
  unfold invocations_made, refreshes_made.
  destruct (passes_validation_parts _ Hvalid) as [Hid Hcoll].
  destruct c; cbn [identifier_of collection_of is_crud] in *;
    run_opening w n err w0 E;
    pose proof (budget_opening w n err w0 E) as Hbud; rewrite Hbud in *;
    pose proof (firestoreRetriesNumber_err w n err w0 E) as Herr;
    destruct (firestoreRetriesNumber_world w n err w0 E) as (_ & Hi & Hr & _);
    try rewrite (Hid _ eq_refl); try rewrite (Hcoll _ eq_refl); cbn [negb];
    rewrite <- Hi in Hfail; rewrite <- Hr in Hrefresh.
  - exhaust_loop sdk (retries_on (CallAdd fireclient collectionName entity))
      true (@snd (Client * option DocumentRef) (option error))
      (add_body_retries sdk fireclient n collectionName entity)
      n w0 Hfail Hrefresh.
    rewrite Hlen, Href, Hi, Hr. repeat split; lia.
  - exhaust_loop sdk (retries_on (CallGet fireclient collectionName entityID))
      true (@snd (Client * option DocumentSnapshot) (option error))
      (get_body_retries sdk fireclient n collectionName entityID)
      n w0 Hfail Hrefresh.
    rewrite Hlen, Href, Hi, Hr. repeat split; lia.
  - exhaust_loop sdk
      (retries_on (CallEdit fireclient collectionName entityID entity))
      true (@snd Client (option error))
      (edit_body_retries sdk fireclient n collectionName entityID entity)
      n w0 Hfail Hrefresh.
    rewrite Hlen, Href, Hi, Hr. repeat split; lia.
  - exhaust_loop sdk (retries_on (CallDelete fireclient collectionName entityID))
      true (@snd (Client * option WriteResult) (option error))
      (delete_body_retries sdk fireclient n collectionName entityID)
      n w0 Hfail Hrefresh.
    rewrite Hlen, Href, Hi, Hr. repeat split; lia.
  - assert (Hrefresh' : false = true ->
              forall k, (k < Z.to_nat n)%nat ->
                        refresh_succeeds sdk (refreshes w0 + k))
      by discriminate.
    exhaust_loop sdk (retries_on (CallNext iter)) false
      (fun _ : unit => @None error)
      (iterator_body_retries sdk iter) n w0 Hfail Hrefresh'.
    rewrite <- Herr.
    destruct err; cbn [fst snd lift]; rewrite Hlen, Href, Hi, Hr;
      repeat split; lia.
Qed.

Lemma C1_exhausted_budget_witness :
  fst (perform (stubAlways ClosingTransportError)
         (CallGet (client 0) "users" "u1") (startWorld (Some "2")))
  = Panics NilPointerDereference
  /\ invocations_made (startWorld (Some "2"))
       (snd (perform (stubAlways ClosingTransportError)
               (CallGet (client 0) "users" "u1") (startWorld (Some "2")))) = 2
  /\ refreshes_made (startWorld (Some "2"))
       (snd (perform (stubAlways ClosingTransportError)
               (CallGet (client 0) "users" "u1") (startWorld (Some "2")))) = 2.
Proof.
  apply (C1_exhausted_budget (stubAlways ClosingTransportError)
           (CallGet (client 0) "users" "u1") (startWorld (Some "2"))).
  - reflexivity.
  - vm_compute. discriminate.
  - intros k _ req. exists (errorString ClosingTransportError).
    split; reflexivity.
  - intros _ k _. exists (app k), (client (Datatypes.S k)).
    split; reflexivity.
Defined.

(** The five helpers against a backend that always fails with the
    closing-transport message, budget two: all of them make two invocations
    and then panic. *)
Example exhausted_runs :
  perform (stubAlways ClosingTransportError)
    (CallAdd (client 0) "users" (Some (entityValue 1))) (startWorld (Some "2"))
  = (Panics NilPointerDereference,
     mkWorld [("FIRESTORE_RETRIES_NUMBER", "2")]
       [Add (client 0) "users" (Some (entityValue 1));
        Add (client 1) "users" (Some (entityValue 1))] 2%nat [])
  /\ fst (perform (stubAlways ClosingTransportError)
            (CallGet (client 0) "users" "u1") (startWorld (Some "2")))
     = Panics NilPointerDereference
  /\ fst (perform (stubAlways ClosingTransportError)
            (CallEdit (client 0) "users" "u1" (Some (entityValue 1)))
            (startWorld (Some "2")))
     = Panics NilPointerDereference
  /\ fst (perform (stubAlways ClosingTransportError)
            (CallDelete (client 0) "users" "u1") (startWorld (Some "2")))
     = Panics NilPointerDereference
  /\ perform (stubAlways ClosingTransportError)
       (CallNext (documentIterator 0)) (startWorld (Some "2"))
     = (Panics NilPointerDereference,
        mkWorld [("FIRESTORE_RETRIES_NUMBER", "2")]
          [Next (documentIterator 0); Next (documentIterator 0)] 0%nat []).
Proof. repeat split; reflexivity. Qed.

(** The cursor with the variable unset: one invocation, and the error that
    comes back reports the parse error of [Atoi], not the backend error. *)
Example exhausted_cursor_unset :
  perform (stubAlways ClosingTransportError)
    (CallNext (documentIterator 0)) (startWorld None)
  = (Returns (docValue None,
              Some (errorString
                      ("Unsuccessful document iteration, Error: strconv.Atoi: parsing "
                       ++ quotePlain "" ++ ": invalid syntax")%string)),
     mkWorld [] [Next (documentIterator 0)] 0%nat [missing_retries_line]).
Proof. reflexivity. Qed.

(** C2, a run that panics.  With FIRESTORE_RETRIES_NUMBER unset (budget one),
    a single closing-transport failure of the backend followed by a
    successful refresh makes each CRUD helper panic on a nil [err]; with the
    variable set to 1 the cursor panics in the same situation. *)
Theorem C2_transient_failure_panics :
  perform (stubFailing 1 ClosingTransportError)
    (CallAdd (client 0) "users" (Some (entityValue 1))) (startWorld None)
  = (Panics NilPointerDereference,
     mkWorld [] [Add (client 0) "users" (Some (entityValue 1))] 1%nat
       [missing_retries_line])
  /\ fst (perform (stubFailing 1 ClosingTransportError)
            (CallGet (client 0) "users" "u1") (startWorld None))
     = Panics NilPointerDereference
  /\ fst (perform (stubFailing 1 ClosingTransportError)
            (CallEdit (client 0) "users" "u1" (Some (entityValue 1)))
            (startWorld None))
     = Panics NilPointerDereference
  /\ fst (perform (stubFailing 1 ClosingTransportError)
            (CallDelete (client 0) "users" "u1") (startWorld None))
     = Panics NilPointerDereference
  /\ fst (perform (stubFailing 1 ClosingTransportError)
            (CallNext (documentIterator 0)) (startWorld (Some "1")))
     = Panics NilPointerDereference.
Proof. repeat split; reflexivity. Qed.

(** ** Failing, then succeeding *)

(** Runs a loop whose invocations fail with a retried message until the last
    one allowed by the bound, which succeeds, by
    [for_loop_fail_then_succeed] at the given body lemmas. *)
Ltac succeed_loop sdk cls refreshing carried answer sends retries_lemma
    succeeds_lemma n w0 Hfail Hrefresh Hok :=
  match goal with
  | |- context [for_loop ?b (Z.to_nat n) ?i ?s w0] =>
      let req := fresh "req" in
      let w' := fresh "w'" in
      let HL := fresh "HL" in
      let Hs := fresh "Hs" in
      let Hlen := fresh "Hlen" in
      let Hnth := fresh "Hnth" in
      let Href := fresh "Href" in
      destruct (for_loop_fail_then_succeed b sdk cls refreshing carried answer
                  sends retries_lemma succeeds_lemma
                  (Z.to_nat n - 1) (Z.to_nat n) i s w0 ltac:(lia)
                  Hfail Hrefresh Hok)
        as (req & w' & HL & Hs & Hlen & Hnth & Href);
      rewrite HL; cbn [fst snd lift];
      exists req; split; [exact Hs|]
  end.

(** C4, as the code has it.  With a budget [N >= 1], when the backend fails
    with a retried message on the first [N-1] invocations and succeeds on the
    [N]-th, and each refresh succeeds, a call that passes validation returns
    the answer of that [N]-th invocation with a nil error after exactly [N]
    backend invocations.  A CRUD helper has then called the refresh routine
    exactly [N-1] times; the cursor helper has no connection to refresh and
    has called it zero times. *)
Theorem C4_fail_then_succeed (sdk : SDK) (c : call) (w : world) :
  passes_validation c = true ->
  1 <= budget w ->
  (forall k, (k < Z.to_nat (budget w) - 1)%nat ->
             fails_with sdk (retries_on c) (List.length (invocations w) + k)) ->
  (is_crud c = true ->
   forall k, (k < Z.to_nat (budget w) - 1)%nat ->
             refresh_succeeds sdk (refreshes w + k)) ->
  succeeds_at sdk (List.length (invocations w) + (Z.to_nat (budget w) - 1)) ->
  exists req,
    request_of_call c req = true
    /\ nth_error (invocations (snd (perform sdk c w)))
         (List.length (invocations w) + (Z.to_nat (budget w) - 1))
       = Some req
    /\ fst (perform sdk c w)
       = Returns (success_value c
                    (sdk_invoke sdk
                       (List.length (invocations w) + (Z.to_nat (budget w) - 1))
                       req), None)
    /\ invocations_made w (snd (perform sdk c w)) = budget w
    /\ refreshes_made w (snd (perform sdk c w))
       = (if is_crud c then budget w - 1 else 0).
Proof.
  intros Hvalid Hbudget Hfail Hrefresh Hok.
  unfold invocations_made, refreshes_made.
  destruct (passes_validation_parts _ Hvalid) as [Hid Hcoll].
  destruct c; cbn [identifier_of collection_of is_crud success_value] in *;
    run_opening w n err w0 E;
    pose proof (budget_opening w n err w0 E) as Hbud; rewrite Hbud in *;
    destruct (firestoreRetriesNumber_world w n err w0 E) as (_ & Hi & Hr & _);
    try rewrite (Hid _ eq_refl); try rewrite (Hcoll _ eq_refl); cbn [negb];
    rewrite <- Hi in Hfail, Hok; rewrite <- Hr in Hrefresh; rewrite <- Hi.
  - succeed_loop sdk (retries_on (CallAdd fireclient collectionName entity))
      true (@snd (Client * option DocumentRef) (option error))
      (fun r : response => (resp_docRef r, @None error))
      (request_of_call (CallAdd fireclient collectionName entity))
      (add_body_retries sdk fireclient n collectionName entity)
      (add_body_succeeds sdk fireclient n collectionName entity)
      n w0 Hfail Hrefresh Hok.
    rewrite Hlen, Href, <- Hr. repeat split; try assumption; lia.
  - succeed_loop sdk (retries_on (CallGet fireclient collectionName entityID))
      true (@snd (Client * option DocumentSnapshot) (option error))
      (fun r : response => (resp_doc r, @None error))
      (request_of_call (CallGet fireclient collectionName entityID))
      (get_body_retries sdk fireclient n collectionName entityID)
      (get_body_succeeds sdk fireclient n collectionName entityID)
      n w0 Hfail Hrefresh Hok.
    rewrite Hlen, Href, <- Hr. repeat split; try assumption; lia.
  - succeed_loop sdk
      (retries_on (CallEdit fireclient collectionName entityID entity))
      true (@snd Client (option error))
      (fun _ : response => @None error)
      (request_of_call (CallEdit fireclient collectionName entityID entity))
      (edit_body_retries sdk fireclient n collectionName entityID entity)
      (edit_body_succeeds sdk fireclient n collectionName entityID entity)
      n w0 Hfail Hrefresh Hok.
    rewrite Hlen, Href, <- Hr. repeat split; try assumption; lia.
  - succeed_loop sdk
      (retries_on (CallDelete fireclient collectionName entityID))
      true (@snd (Client * option WriteResult) (option error))
      (fun r : response => (resp_result r, @None error))
      (request_of_call (CallDelete fireclient collectionName entityID))
      (delete_body_retries sdk fireclient n collectionName entityID)
      (delete_body_succeeds sdk fireclient n collectionName entityID)
      n w0 Hfail Hrefresh Hok.
    rewrite Hlen, Href, <- Hr. repeat split; try assumption; lia.
  - assert (Hrefresh' : false = true ->
              forall k, (k < Z.to_nat n - 1)%nat ->
                        refresh_succeeds sdk (refreshes w0 + k))
      by discriminate.
    succeed_loop sdk (retries_on (CallNext iter)) false
      (fun _ : unit => @None error)
      (fun r : response => (resp_doc r, @None error))
      (request_of_call (CallNext iter))
      (iterator_body_retries sdk iter)
      (iterator_body_succeeds sdk iter)
      n w0 Hfail Hrefresh' Hok.
    rewrite Hlen, Href, <- Hr. repeat split; try assumption; lia.
Qed.

Lemma C4_fail_then_succeed_witness :
  exists req,
    request_of_call (CallDelete (client 0) "users" "u1") req = true
    /\ nth_error
         (invocations
            (snd (perform (stubFailing 2 ClosingTransportError)
                    (CallDelete (client 0) "users" "u1")
                    (startWorld (Some "3")))))
         (List.length (invocations (startWorld (Some "3")))
          + (Z.to_nat (budget (startWorld (Some "3"))) - 1))
       = Some req
    /\ fst (perform (stubFailing 2 ClosingTransportError)
              (CallDelete (client 0) "users" "u1") (startWorld (Some "3")))
       = Returns (success_value (CallDelete (client 0) "users" "u1")
                    (sdk_invoke (stubFailing 2 ClosingTransportError)
                       (List.length (invocations (startWorld (Some "3")))
                        + (Z.to_nat (budget (startWorld (Some "3"))) - 1))
                       req), None)
    /\ invocations_made (startWorld (Some "3"))
         (snd (perform (stubFailing 2 ClosingTransportError)
                 (CallDelete (client 0) "users" "u1")
                 (startWorld (Some "3")))) = budget (startWorld (Some "3"))
    /\ refreshes_made (startWorld (Some "3"))
         (snd (perform (stubFailing 2 ClosingTransportError)
                 (CallDelete (client 0) "users" "u1")
                 (startWorld (Some "3"))))
       = (if is_crud (CallDelete (client 0) "users" "u1")
          then budget (startWorld (Some "3")) - 1 else 0).
Proof.
  apply (C4_fail_then_succeed (stubFailing 2 ClosingTransportError)
           (CallDelete (client 0) "users" "u1") (startWorld (Some "3"))).
  - reflexivity.
  - vm_compute. discriminate.
  - intros k Hk req. change (Z.to_nat (budget (startWorld (Some "3"))))
      with 3%nat in Hk.
    exists (errorString ClosingTransportError).
    destruct k as [|[|k]]; [split; reflexivity | split; reflexivity | lia].
  - intros _ k _. exists (app k), (client (Datatypes.S k)).
    split; reflexivity.
  - intros req. reflexivity.
Defined.

Example fail_then_succeed_run :
  perform (stubFailing 2 ClosingTransportError)
    (CallDelete (client 0) "users" "u1") (startWorld (Some "3"))
  = (Returns (resultValue (Some (writeResult 7)), None),
     mkWorld [("FIRESTORE_RETRIES_NUMBER", "3")]
       [Delete (client 0) "users" "u1"; Delete (client 1) "users" "u1";
        Delete (client 2) "users" "u1"] 2%nat []).
Proof. reflexivity. Qed.

(** C4 as stated fails for the cursor: with a budget of two, one
    closing-transport failure and then a success, the cursor helper returns
    the document after two invocations, but the refresh routine was called
    zero times, not once. *)
Lemma C4_counterexample :
  budget (startWorld (Some "2")) = 2
  /\ perform (stubFailing 1 ClosingTransportError)
       (CallNext (documentIterator 0)) (startWorld (Some "2"))
     = (Returns (docValue (Some (documentSnapshot 7)), None),
        mkWorld [("FIRESTORE_RETRIES_NUMBER", "2")]
          [Next (documentIterator 0); Next (documentIterator 0)] 0%nat [])
  /\ refreshes_made (startWorld (Some "2"))
       (snd (perform (stubFailing 1 ClosingTransportError)
               (CallNext (documentIterator 0)) (startWorld (Some "2"))))
     <> budget (startWorld (Some "2")) - 1.
Proof.
  split; [reflexivity|]. split; [reflexivity|]. vm_compute. discriminate.
Qed.

(** * Further properties of the helpers *)

(** ** More on bounded loops *)

Section LoopFacts.

Context {S R : Type}.
Variable body : Z -> S -> world -> ctl S R * world.

(** A loop that got through [n] iterations goes on from there. *)
Lemma for_loop_prefix (n m : nat) i s w s' w' :
  for_loop body n i s w = (Continue s', w') ->
  for_loop body (n + m) i s w = for_loop body m (i + Z.of_nat n) s' w'.
Proof.
  revert i s w. induction n as [|n IH]; intros i s w H.
  - simpl in H. injection H as <- <-. simpl. f_equal. lia.
  - change (Datatypes.S n + m)%nat with (Datatypes.S (n + m)).
    simpl in H. simpl. destruct (body i s w) as [[s1|r] w1]; [|discriminate H].
    rewrite (IH _ _ _ H). f_equal. lia.
Qed.

(** A loop that leaves does so in one of its iterations, reached after the
    earlier ones went round. *)
Lemma for_loop_leaves_in (fuel : nat) i s w r w' :
  for_loop body fuel i s w = (Leave r, w') ->
  exists (j : nat) s1 w1,
    (j < fuel)%nat
    /\ for_loop body j i s w = (Continue s1, w1)
    /\ body (i + Z.of_nat j) s1 w1 = (Leave r, w').
Proof.
  revert i s w. induction fuel as [|fuel IH]; intros i s w H.
  - discriminate H.
  - simpl in H. destruct (body i s w) as [[s1|r1] w1] eqn:Eb.
    + destruct (IH _ _ _ H) as (j & s2 & w2 & Hj & Hl & Hb).
      exists (Datatypes.S j), s2, w2. split; [lia|]. split.
      * simpl. rewrite Eb. exact Hl.
      * replace (i + Z.of_nat (Datatypes.S j)) with (i + 1 + Z.of_nat j) by lia.
        exact Hb.
    + injection H as <- <-. exists 0%nat, s, w. split; [lia|]. split.
      * reflexivity.
      * rewrite Z.add_0_r. exact Eb.
Qed.

(** A relation between the world before and after that is reflexive,
    transitive and kept by every iteration is kept by the loop. *)
Lemma for_loop_related (Rel : world -> world -> Prop) :
  (forall w, Rel w w) ->
  (forall w1 w2 w3, Rel w1 w2 -> Rel w2 w3 -> Rel w1 w3) ->
  (forall i s w, Rel w (snd (body i s w))) ->
  forall fuel i s w, Rel w (snd (for_loop body fuel i s w)).
Proof.
  intros Hrefl Htrans Hbody fuel.
  induction fuel as [|fuel IH]; intros i s w; simpl.
  - apply Hrefl.
  - specialize (Hbody i s w). destruct (body i s w) as [[s'|r] w']; simpl in *.
    + apply (Htrans _ _ _ Hbody). apply IH.
    + exact Hbody.
Qed.

(** When every iteration makes one invocation and at most one refresh, the
    loop makes at most as many invocations as its bound, exactly that many
    if it falls out at the bottom, and no more refreshes than invocations. *)
Lemma for_loop_counts :
  (forall i s w,
      List.length (invocations (snd (body i s w)))
      = Datatypes.S (List.length (invocations w))
      /\ (refreshes w <= refreshes (snd (body i s w))
          <= Datatypes.S (refreshes w))%nat) ->
  forall fuel i s w,
    (List.length (invocations w)
     <= List.length (invocations (snd (for_loop body fuel i s w)))
     <= List.length (invocations w) + fuel)%nat
    /\ (refreshes w <= refreshes (snd (for_loop body fuel i s w)))%nat
    /\ (refreshes (snd (for_loop body fuel i s w)) - refreshes w
        <= List.length (invocations (snd (for_loop body fuel i s w)))
           - List.length (invocations w))%nat
    /\ (forall s', fst (for_loop body fuel i s w) = Continue s' ->
        List.length (invocations (snd (for_loop body fuel i s w)))
        = (List.length (invocations w) + fuel)%nat).
Proof.
  intros Hbody fuel. induction fuel as [|fuel IH]; intros i s w; simpl.
  - repeat split; try lia.
  - destruct (Hbody i s w) as [H1 H2].
    destruct (body i s w) as [[s1|r] w1]; simpl in *.
    + destruct (IH (i + 1) s1 w1) as (Ha & Hb & Hc & Hd).
      repeat split; try lia.
      intros s' Hs. rewrite (Hd s' Hs). lia.
    + repeat split; try lia. intros s' Hs. discriminate Hs.
Qed.

(** When every iteration that goes round makes one invocation and [delta]
    refreshes, a loop that falls out at the bottom has made as many
    invocations as its bound, and [delta] refreshes for each. *)
Lemma for_loop_falls_through (delta : nat) :
  (forall i s w s' w',
      body i s w = (Continue s', w') ->
      List.length (invocations w') = Datatypes.S (List.length (invocations w))
      /\ refreshes w' = (refreshes w + delta)%nat) ->
  forall fuel i s w s' w',
    for_loop body fuel i s w = (Continue s', w') ->
    List.length (invocations w') = (List.length (invocations w) + fuel)%nat
    /\ refreshes w' = (refreshes w + delta * fuel)%nat.
Proof.
  intros Hbody fuel. induction fuel as [|fuel IH]; intros i s w s' w' H.
  - simpl in H. injection H as <- <-. split; lia.
  - simpl in H. destruct (body i s w) as [[s1|r] w1] eqn:Eb; [|discriminate H].
    destruct (Hbody _ _ _ _ _ Eb) as [H1 H2].
    destruct (IH _ _ _ _ _ H) as [H3 H4]. split; lia.
Qed.

End LoopFacts.

(** The counts of the five loops. *)
Ltac loop_counts :=
  match goal with
  | |- context [for_loop ?b ?m ?i ?s ?w1] =>
      let HC := fresh "HC" in
      assert (HC := for_loop_counts b ltac:(body_count_facts) m i s w1);
      destruct (for_loop b m i s w1) as [[?|?] ?]
  end.

(** X1. Whatever the backend and the refresh answer, a call makes at most as
    many backend invocations as its budget (none for a budget below one),
    and never more refreshes than invocations. *)
Theorem X1_invocations_within_budget (sdk : SDK) (c : call) (w : world) :
  0 <= invocations_made w (snd (perform sdk c w)) <= Z.max 0 (budget w)
  /\ 0 <= refreshes_made w (snd (perform sdk c w))
     <= invocations_made w (snd (perform sdk c w)).
Proof.
  unfold invocations_made, refreshes_made.
  destruct c; run_opening w n err w0 E;
    rewrite (budget_opening w n err w0 E);
    destruct (firestoreRetriesNumber_world w n err w0 E) as (_ & Hi & Hr & _);
    repeat match goal with
           | |- context [if ?b then _ else _] => destruct b
           end;
    cbn [fst snd lift]; rewrite <- ?Hi, <- ?Hr; try lia;
    loop_counts; destruct HC as (Ha & Hb & Hc & _);
    split_locals; repeat break_inner; cbn [fst snd lift] in *; lia.
Qed.

(** ** A call keeps to its business *)

Lemma grows_by_refl (c : call) (w : world) : grows_by c w w.
Proof.
  unfold grows_by. split; [reflexivity|]. split.
  - exists []. rewrite app_nil_r. split; [reflexivity | constructor].
  - split; [|lia]. exists []. rewrite app_nil_r. reflexivity.
Qed.

Lemma grows_by_trans (c : call) (w1 w2 w3 : world) :
  grows_by c w1 w2 -> grows_by c w2 w3 -> grows_by c w1 w3.
Proof.
  intros (He1 & (a1 & Ha1 & Hf1) & (l1 & Hl1) & Hr1)
         (He2 & (a2 & Ha2 & Hf2) & (l2 & Hl2) & Hr2).
  unfold grows_by. split; [congruence|]. split.
  - exists (a1 ++ a2)%list. split.
    + rewrite Ha2, Ha1, app_assoc. reflexivity.
    + apply Forall_app. split; assumption.
  - split; [|lia]. exists (l1 ++ l2)%list.
    rewrite Hl2, Hl1, app_assoc. reflexivity.
Qed.

Lemma request_of_call_first (c : call) : request_of_call c (first_request c) = true.
Proof.
  destruct c; cbn [request_of_call first_request];
    rewrite ?String.eqb_refl;
    repeat match goal with
           | x : option Entity |- _ => destruct x as [[?]|]
           | x : DocumentIterator |- _ => destruct x
           end;
    rewrite ?Nat.eqb_refl; reflexivity.
Qed.

(** The opening lines keep to the business of any call. *)
Lemma grows_by_opening (c : call) (w : world) n err w0 :
  firestoreRetriesNumber w = ((n, err), w0) -> grows_by c w w0.
Proof.
  unfold firestoreRetriesNumber.
  destruct (Strconv.Atoi _) as [m [e|]]; intros H; inversion H; subst.
  - unfold grows_by, LogWrite, log_Printf. cbn [environ invocations printed refreshes].
    split; [reflexivity|]. split.
    + exists []. rewrite app_nil_r. split; [reflexivity | constructor].
    + split; [|lia]. eexists. reflexivity.
  - apply grows_by_refl.
Qed.

(** Shows that one pass through a loop body keeps to the business of the
    call [c]. *)
Ltac body_grows c :=
  intros; split_locals; unfold_body;
  cbn [invocations refreshes environ printed];
  repeat break_inner; cbn [fst snd];
  unfold grows_by; cbn [invocations refreshes environ printed];
  (split; [reflexivity|]);
  (split;
   [ eexists; split;
     [ reflexivity
     | constructor; [|constructor];
       first [ apply (request_of_call_first c)
             | pose proof (request_of_call_first c) as Hq;
               cbn [request_of_call first_request] in Hq |- *; exact Hq ] ]
   | split; [|lia];
     first [ exists []; rewrite app_nil_r; reflexivity
           | rewrite <- ?app_assoc; eexists; reflexivity ] ]).

Section BodiesGrow.

Variable sdk : SDK.

Lemma add_body_grows fireclient0 n collectionName entity i s w :
  grows_by (CallAdd fireclient0 collectionName entity) w
    (snd (add_body sdk n collectionName entity i s w)).
Proof. body_grows (CallAdd fireclient0 collectionName entity). Qed.

Lemma get_body_grows fireclient0 n collectionName entityID i s w :
  grows_by (CallGet fireclient0 collectionName entityID) w
    (snd (get_body sdk n collectionName entityID i s w)).
Proof. body_grows (CallGet fireclient0 collectionName entityID). Qed.

Lemma edit_body_grows fireclient0 n collectionName entityID entity i s w :
  grows_by (CallEdit fireclient0 collectionName entityID entity) w
    (snd (edit_body sdk n collectionName entityID entity i s w)).
Proof. body_grows (CallEdit fireclient0 collectionName entityID entity). Qed.

Lemma delete_body_grows fireclient0 n collectionName entityID i s w :
  grows_by (CallDelete fireclient0 collectionName entityID) w
    (snd (delete_body sdk n collectionName entityID i s w)).
Proof. body_grows (CallDelete fireclient0 collectionName entityID). Qed.

Lemma iterator_body_grows iter i s w :
  grows_by (CallNext iter) w (snd (iterator_body sdk iter i s w)).
Proof. body_grows (CallNext iter). Qed.

End BodiesGrow.

(** The whole loop of a call keeps to its business. *)
Ltac loop_grows sdk c body_lemma :=
  match goal with
  | |- context [for_loop ?b ?m ?i ?s ?w1] =>
      let HG := fresh "HG" in
      assert (HG : grows_by c w1 (snd (for_loop b m i s w1)))
        by (apply (for_loop_related b (grows_by c));
            [ apply grows_by_refl | apply grows_by_trans
            | intros; apply body_lemma ]);
      destruct (for_loop b m i s w1) as [[?|?] ?]
  end.

(** X2. A call never touches the environment, never drops or rewrites an
    earlier invocation or log line, and every backend invocation it adds
    is of its own kind and for the collection, identifier, entity or
    iterator it was given; only the client may differ, after a refresh. *)
Theorem X2_call_keeps_to_its_business (sdk : SDK) (c : call) (w : world) :
  grows_by c w (snd (perform sdk c w)).
Proof.
  destruct c as [fireclient collectionName entity
                | fireclient collectionName entityID
                | fireclient collectionName entityID entity
                | fireclient collectionName entityID
                | iter];
    run_opening w n err w0 E;
    match goal with
    | |- grows_by ?c _ _ =>
        pose proof (grows_by_opening c w n err w0 E) as H0
    end;
    repeat match goal with
           | |- context [if ?b then _ else _] => destruct b
           end;
    cbn [fst snd lift]; try exact H0.
  - loop_grows sdk (CallAdd fireclient collectionName entity)
      (add_body_grows sdk fireclient n collectionName entity);
      split_locals; repeat break_inner; cbn [fst snd lift] in *;
      exact (grows_by_trans _ _ _ _ H0 HG).
  - loop_grows sdk (CallGet fireclient collectionName entityID)
      (get_body_grows sdk fireclient n collectionName entityID);
      split_locals; repeat break_inner; cbn [fst snd lift] in *;
      exact (grows_by_trans _ _ _ _ H0 HG).
  - loop_grows sdk (CallEdit fireclient collectionName entityID entity)
      (edit_body_grows sdk fireclient n collectionName entityID entity);
      split_locals; repeat break_inner; cbn [fst snd lift] in *;
      exact (grows_by_trans _ _ _ _ H0 HG).
  - loop_grows sdk (CallDelete fireclient collectionName entityID)
      (delete_body_grows sdk fireclient n collectionName entityID);
      split_locals; repeat break_inner; cbn [fst snd lift] in *;
      exact (grows_by_trans _ _ _ _ H0 HG).
  - loop_grows sdk (CallNext iter) (iterator_body_grows sdk iter);
      split_locals; repeat break_inner; cbn [fst snd lift] in *;
      exact (grows_by_trans _ _ _ _ H0 HG).
Qed.

(** ** When a call panics *)

(** Reads off what an iteration that goes round has added. *)
Ltac body_continue_tac :=
  intros s w; split_locals; unfold_body;
  cbn [invocations refreshes environ printed];
  intros s' w'; repeat break_inner; intros H; try discriminate H;
  injection H as <- <-;
  cbn [invocations refreshes environ printed];
  rewrite length_app; cbn [List.length]; lia.

Section BodiesContinue.

Variable sdk : SDK.

Lemma add_body_continue n collectionName entity i s w s' w' :
  add_body sdk n collectionName entity i s w = (Continue s', w') ->
  List.length (invocations w') = Datatypes.S (List.length (invocations w))
  /\ refreshes w' = (refreshes w + 1)%nat.
Proof. revert s w s' w'. body_continue_tac. Qed.

Lemma get_body_continue n collectionName entityID i s w s' w' :
  get_body sdk n collectionName entityID i s w = (Continue s', w') ->
  List.length (invocations w') = Datatypes.S (List.length (invocations w))
  /\ refreshes w' = (refreshes w + 1)%nat.
Proof. revert s w s' w'. body_continue_tac. Qed.

Lemma edit_body_continue n collectionName entityID entity i s w s' w' :
  edit_body sdk n collectionName entityID entity i s w = (Continue s', w') ->
  List.length (invocations w') = Datatypes.S (List.length (invocations w))
  /\ refreshes w' = (refreshes w + 1)%nat.
Proof. revert s w s' w'. body_continue_tac. Qed.

Lemma delete_body_continue n collectionName entityID i s w s' w' :
  delete_body sdk n collectionName entityID i s w = (Continue s', w') ->
  List.length (invocations w') = Datatypes.S (List.length (invocations w))
  /\ refreshes w' = (refreshes w + 1)%nat.
Proof. revert s w s' w'. body_continue_tac. Qed.

Lemma iterator_body_continue iter i s w s' w' :
  iterator_body sdk iter i s w = (Continue s', w') ->
  List.length (invocations w') = Datatypes.S (List.length (invocations w))
  /\ refreshes w' = (refreshes w + 0)%nat.
Proof. revert s w s' w'. body_continue_tac. Qed.

End BodiesContinue.

(** X3. A call panics only at the bottom of its loop: its arguments passed
    validation and it has made exactly as many backend invocations as its
    budget allows (none for a budget below one), each of them, in a CRUD
    helper, followed by a refresh.  The cursor panics only when
    FIRESTORE_RETRIES_NUMBER parsed. *)
Theorem X3_panic_only_at_the_bottom (sdk : SDK) (c : call) (w : world)
    (p : panic) :
  fst (perform sdk c w) = Panics p ->
  passes_validation c = true
  /\ invocations_made w (snd (perform sdk c w)) = Z.max 0 (budget w)
  /\ refreshes_made w (snd (perform sdk c w))
     = (if is_crud c then Z.max 0 (budget w) else 0)
  /\ (is_crud c = false -> retries_parse_error w = None).
Proof.
  unfold invocations_made, refreshes_made, passes_validation.
  destruct c; cbn [identifier_of collection_of is_crud];
    run_opening w n err w0 E;
    rewrite (budget_opening w n err w0 E);
    pose proof (firestoreRetriesNumber_err w n err w0 E) as Herr;
    destruct (firestoreRetriesNumber_world w n err w0 E) as (_ & Hi & Hr & _);
    try (destruct (String.eqb entityID ""));
    try (destruct (firestoreCollectionExists collectionName));
    cbn [fst snd lift negb andb]; try discriminate;
    match goal with
    | |- context [for_loop ?b ?m ?i ?s ?w1] =>
        destruct (for_loop b m i s w1) as [[s'|r] w'] eqn:EL
    end;
    split_locals; cbn [fst snd lift]; try discriminate.
  - destruct o; cbn [fst snd lift]; [discriminate|]. intros _.
    destruct (for_loop_falls_through _ 1 (add_body_continue sdk _ _ _) _ _ _ _ _ _ EL).
    rewrite Hi, Hr in *. repeat split; try discriminate; lia.
  - destruct o; cbn [fst snd lift]; [discriminate|]. intros _.
    destruct (for_loop_falls_through _ 1 (get_body_continue sdk _ _ _) _ _ _ _ _ _ EL).
    rewrite Hi, Hr in *. repeat split; try discriminate; lia.
  - destruct o; cbn [fst snd lift]; [discriminate|]. intros _.
    destruct (for_loop_falls_through _ 1 (edit_body_continue sdk _ _ _ _) _ _ _ _ _ _ EL).
    rewrite Hi, Hr in *. repeat split; try discriminate; lia.
  - destruct o; cbn [fst snd lift]; [discriminate|]. intros _.
    destruct (for_loop_falls_through _ 1 (delete_body_continue sdk _ _ _) _ _ _ _ _ _ EL).
    rewrite Hi, Hr in *. repeat split; try discriminate; lia.
  - destruct err; cbn [fst snd lift]; [discriminate|]. intros _.
    destruct (for_loop_falls_through _ 0 (iterator_body_continue sdk _) _ _ _ _ _ _ EL).
    rewrite Hi, Hr in *. repeat split; try lia. intros _. symmetry. exact Herr.
Qed.

Lemma X3_panic_only_at_the_bottom_witness :
  passes_validation (CallAdd (client 0) "users" None) = true
  /\ invocations_made (startWorld (Some "2"))
       (snd (perform (stubAlways ClosingTransportError)
               (CallAdd (client 0) "users" None) (startWorld (Some "2"))))
     = Z.max 0 (budget (startWorld (Some "2")))
  /\ refreshes_made (startWorld (Some "2"))
       (snd (perform (stubAlways ClosingTransportError)
               (CallAdd (client 0) "users" None) (startWorld (Some "2"))))
     = (if is_crud (CallAdd (client 0) "users" None)
        then Z.max 0 (budget (startWorld (Some "2"))) else 0)
  /\ (is_crud (CallAdd (client 0) "users" None) = false ->
      retries_parse_error (startWorld (Some "2")) = None).
Proof.
  apply (X3_panic_only_at_the_bottom (stubAlways ClosingTransportError)
           (CallAdd (client 0) "users" None) (startWorld (Some "2"))
           NilPointerDereference).
  reflexivity.
Defined.

(** ** When a call succeeds *)

(** Reads a nil error in what an iteration returns back to the backend
    answer it came from. *)
Ltac body_success_tac c :=
  intros s w; split_locals; unfold_body;
  cbn [invocations refreshes environ printed];
  intros v w';
  match goal with
  | |- context [resp_err (sdk_invoke ?sdk ?k ?req)] =>
      let Er := fresh "Er" in
      destruct (resp_err (sdk_invoke sdk k req)) eqn:Er;
      [ repeat break_inner; intros H; discriminate H
      | intros H; injection H; intros; subst; exists req;
        split;
        [ pose proof (request_of_call_first c) as Hq;
          cbn [request_of_call first_request] in Hq |- *; exact Hq
        | repeat split; first [reflexivity | exact Er] ] ]
  end.

Section BodiesSucceed.

Variable sdk : SDK.

Lemma add_body_success fireclient0 n collectionName entity i s w v w' :
  add_body sdk n collectionName entity i s w = (Leave (v, None), w') ->
  exists req,
    request_of_call (CallAdd fireclient0 collectionName entity) req = true
    /\ invocations w' = (invocations w ++ [req])%list
    /\ resp_err (sdk_invoke sdk (List.length (invocations w)) req) = None
    /\ v = resp_docRef (sdk_invoke sdk (List.length (invocations w)) req).
Proof.
  revert s w v w'.
  body_success_tac (CallAdd fireclient0 collectionName entity).
Qed.

Lemma get_body_success fireclient0 n collectionName entityID i s w v w' :
  get_body sdk n collectionName entityID i s w = (Leave (v, None), w') ->
  exists req,
    request_of_call (CallGet fireclient0 collectionName entityID) req = true
    /\ invocations w' = (invocations w ++ [req])%list
    /\ resp_err (sdk_invoke sdk (List.length (invocations w)) req) = None
    /\ v = resp_doc (sdk_invoke sdk (List.length (invocations w)) req).
Proof.
  revert s w v w'.
  body_success_tac (CallGet fireclient0 collectionName entityID).
Qed.

Lemma edit_body_success fireclient0 n collectionName entityID entity i s w
    (v : unit) w' :
  edit_body sdk n collectionName entityID entity i s w = (Leave None, w') ->
  exists req,
    request_of_call (CallEdit fireclient0 collectionName entityID entity) req
    = true
    /\ invocations w' = (invocations w ++ [req])%list
    /\ resp_err (sdk_invoke sdk (List.length (invocations w)) req) = None.
Proof.
  revert s w v w'.
  body_success_tac (CallEdit fireclient0 collectionName entityID entity).
Qed.

Lemma delete_body_success fireclient0 n collectionName entityID i s w v w' :
  delete_body sdk n collectionName entityID i s w = (Leave (v, None), w') ->
  exists req,
    request_of_call (CallDelete fireclient0 collectionName entityID) req = true
    /\ invocations w' = (invocations w ++ [req])%list
    /\ resp_err (sdk_invoke sdk (List.length (invocations w)) req) = None
    /\ v = resp_result (sdk_invoke sdk (List.length (invocations w)) req).
Proof.
  revert s w v w'.
  body_success_tac (CallDelete fireclient0 collectionName entityID).
Qed.

Lemma iterator_body_success iter i s w v w' :
  iterator_body sdk iter i s w = (Leave (v, None), w') ->
  exists req,
    request_of_call (CallNext iter) req = true
    /\ invocations w' = (invocations w ++ [req])%list
    /\ resp_err (sdk_invoke sdk (List.length (invocations w)) req) = None
    /\ v = resp_doc (sdk_invoke sdk (List.length (invocations w)) req).
Proof.
  revert s w v w'.
  body_success_tac (CallNext iter).
Qed.

End BodiesSucceed.

(** From a loop that left, with [EL] its result: the world [w1] in which the
    leaving iteration started grew out of the world [w0] of the loop. *)
Ltac leaving_iteration c grows_lemma EL :=
  let j := fresh "j" in
  let s1 := fresh "s1" in
  let w1 := fresh "w1" in
  let Hj := fresh "Hj" in
  let HL := fresh "HL" in
  let Hb := fresh "Hb" in
  let HG := fresh "HG" in
  destruct (for_loop_leaves_in _ _ _ _ _ _ _ EL) as (j & s1 & w1 & Hj & HL & Hb);
  match type of HL with
  | for_loop ?b j ?i ?s ?w0 = _ =>
      assert (HG : grows_by c w0 (snd (for_loop b j i s w0)))
        by (apply (for_loop_related b (grows_by c));
            [ apply grows_by_refl | apply grows_by_trans
            | intros; apply grows_lemma ]);
      rewrite HL in HG; cbn [snd] in HG
  end.

(** X4. A success is never made up: when a call returns a nil error, the
    last backend invocation it made was a request of its own kind, the
    backend answered it without error, and the value returned is the one of
    that answer. *)
Theorem X4_success_comes_from_the_backend (sdk : SDK) (c : call) (w : world)
    (v : value) :
  fst (perform sdk c w) = Returns (v, None) ->
  exists earlier req,
    invocations (snd (perform sdk c w))
    = (invocations w ++ earlier ++ [req])%list
    /\ request_of_call c req = true
    /\ resp_err (sdk_invoke sdk (List.length (invocations w ++ earlier)) req)
       = None
    /\ v = success_value c
             (sdk_invoke sdk (List.length (invocations w ++ earlier)) req).
Proof.
  destruct c as [fireclient collectionName entity
                | fireclient collectionName entityID
                | fireclient collectionName entityID entity
                | fireclient collectionName entityID
                | iter];
    cbn [success_value];
    run_opening w n err w0 E;
    destruct (firestoreRetriesNumber_world w n err w0 E) as (_ & Hi & _);
    try (destruct (String.eqb entityID ""));
    try (destruct (firestoreCollectionExists collectionName));
    cbn [fst snd lift negb]; try discriminate;
    match goal with
    | |- context [for_loop ?b ?m ?i ?s ?w1] =>
        destruct (for_loop b m i s w1) as [[s'|r] w'] eqn:EL
    end;
    split_locals; cbn [fst snd lift];
    try (repeat break_inner; cbn [fst snd lift]; discriminate);
    intros H; injection H as <- Herr; cbn [fst snd] in *; subst.
  - leaving_iteration (CallAdd fireclient collectionName entity)
      (add_body_grows sdk fireclient n collectionName entity) EL.
    destruct HG as (_ & (added & Ha & _) & _).
    destruct (add_body_success sdk fireclient _ _ _ _ _ _ _ _ Hb)
      as (req & Hq & Hinv & Hr & Hv).
    exists added, req. rewrite Hinv, Ha, Hi, <- app_assoc.
    rewrite <- Hi, <- Ha.
    repeat split; first [assumption | f_equal; assumption | reflexivity].
  - leaving_iteration (CallGet fireclient collectionName entityID)
      (get_body_grows sdk fireclient n collectionName entityID) EL.
    destruct HG as (_ & (added & Ha & _) & _).
    destruct (get_body_success sdk fireclient _ _ _ _ _ _ _ _ Hb)
      as (req & Hq & Hinv & Hr & Hv).
    exists added, req. rewrite Hinv, Ha, Hi, <- app_assoc.
    rewrite <- Hi, <- Ha.
    repeat split; first [assumption | f_equal; assumption | reflexivity].
  - leaving_iteration (CallEdit fireclient collectionName entityID entity)
      (edit_body_grows sdk fireclient n collectionName entityID entity) EL.
    destruct HG as (_ & (added & Ha & _) & _).
    destruct (edit_body_success sdk fireclient _ _ _ _ _ _ _ tt _ Hb)
      as (req & Hq & Hinv & Hr).
    exists added, req. rewrite Hinv, Ha, Hi, <- app_assoc.
    rewrite <- Hi, <- Ha.
    repeat split; first [assumption | f_equal; assumption | reflexivity].
  - leaving_iteration (CallDelete fireclient collectionName entityID)
      (delete_body_grows sdk fireclient n collectionName entityID) EL.
    destruct HG as (_ & (added & Ha & _) & _).
    destruct (delete_body_success sdk fireclient _ _ _ _ _ _ _ _ Hb)
      as (req & Hq & Hinv & Hr & Hv).
    exists added, req. rewrite Hinv, Ha, Hi, <- app_assoc.
    rewrite <- Hi, <- Ha.
    repeat split; first [assumption | f_equal; assumption | reflexivity].
  - leaving_iteration (CallNext iter) (iterator_body_grows sdk iter) EL.
    destruct HG as (_ & (added & Ha & _) & _).
    destruct (iterator_body_success sdk _ _ _ _ _ _ Hb)
      as (req & Hq & Hinv & Hr & Hv).
    exists added, req. rewrite Hinv, Ha, Hi, <- app_assoc.
    rewrite <- Hi, <- Ha.
    repeat split; first [assumption | f_equal; assumption | reflexivity].
Qed.

Lemma X4_success_comes_from_the_backend_witness :
  exists earlier req,
    invocations
      (snd (perform (stubFailing 1 ClosingTransportError)
              (CallGet (client 0) "users" "u1") (startWorld (Some "2"))))
    = (invocations (startWorld (Some "2")) ++ earlier ++ [req])%list
    /\ request_of_call (CallGet (client 0) "users" "u1") req = true
    /\ resp_err
         (sdk_invoke (stubFailing 1 ClosingTransportError)
            (List.length (invocations (startWorld (Some "2")) ++ earlier)) req)
       = None
    /\ docValue (Some (documentSnapshot 7))
       = success_value (CallGet (client 0) "users" "u1")
           (sdk_invoke (stubFailing 1 ClosingTransportError)
              (List.length (invocations (startWorld (Some "2")) ++ earlier))
              req).
Proof.
  apply (X4_success_comes_from_the_backend
           (stubFailing 1 ClosingTransportError)
           (CallGet (client 0) "users" "u1") (startWorld (Some "2"))
           (docValue (Some (documentSnapshot 7)))).
  reflexivity.
Defined.

(** ** Leaving the loop after some retries *)

(** Runs the first [j] iterations of a loop whose bound is above [j], all of
    them retried, and stops in front of the next iteration. *)
Ltac retried_prefix sdk cls refreshing carried retries_lemma j n w0 Hfail
    Hrefresh :=
  match goal with
  | |- context [for_loop ?b (Z.to_nat n) ?i ?s w0] =>
      let s' := fresh "s'" in
      let w' := fresh "w'" in
      let HL := fresh "HL" in
      let Hlen := fresh "Hlen" in
      let Href := fresh "Href" in
      destruct (for_loop_all_fail b sdk cls refreshing carried retries_lemma
                  j i s w0 Hfail Hrefresh)
        as (s' & w' & HL & Hlen & Href & _);
      replace (Z.to_nat n)
        with (j + Datatypes.S (Z.to_nat n - Datatypes.S j))%nat by lia;
      rewrite (for_loop_prefix b j _ i s w0 s' w' HL); cbn [for_loop]
  end.

Lemma iterator_body_Done (sdk : SDK) iter i s w :
  resp_err (sdk_invoke sdk (List.length (invocations w)) (Next iter))
  = Some Done ->
  iterator_body sdk iter i s w
  = (Leave (None, Some Done),
     mkWorld (environ w) (invocations w ++ [Next iter])%list (refreshes w)
       (printed w)).
Proof.
  intros H. unfold iterator_body, invoke. rewrite H. reflexivity.
Qed.

(** X5. The end of the sequence comes back as it is.  When the cursor
    answers with the sentinel [iterator.Done], possibly after some
    closing-transport failures that the budget still covers, the cursor
    helper returns a nil document and that very sentinel, not wrapped in a
    message, without any refresh. *)
Theorem X5_cursor_returns_Done_unwrapped (sdk : SDK) (iter : DocumentIterator)
    (w : world) (j : nat) :
  Z.of_nat j < budget w ->
  (forall k, (k < j)%nat ->
             fails_with sdk (retries_on (CallNext iter))
               (List.length (invocations w) + k)) ->
  resp_err (sdk_invoke sdk (List.length (invocations w) + j) (Next iter))
  = Some Done ->
  fst (perform sdk (CallNext iter) w) = Returns (docValue None, Some Done)
  /\ invocations_made w (snd (perform sdk (CallNext iter) w))
     = Z.of_nat j + 1
  /\ refreshes_made w (snd (perform sdk (CallNext iter) w)) = 0.
Proof.
  intros Hj Hfail Hdone.
  unfold invocations_made, refreshes_made.
  run_opening w n err w0 E.
  rewrite (budget_opening w n err w0 E) in Hj.
  destruct (firestoreRetriesNumber_world w n err w0 E) as (_ & Hi & Hr & _).
  rewrite <- Hi in Hfail, Hdone.
  assert (Hrefresh : false = true ->
            forall k, (k < j)%nat -> refresh_succeeds sdk (refreshes w0 + k))
    by discriminate.
  retried_prefix sdk (retries_on (CallNext iter)) false
    (fun _ : unit => @None error) (iterator_body_retries sdk iter)
    j n w0 Hfail Hrefresh.
  rewrite <- Hlen in Hdone.
  rewrite (iterator_body_Done sdk iter _ s' w' Hdone).
  cbn [fst snd lift invocations refreshes].
  rewrite length_app, Hlen, Href, <- Hi, <- Hr. cbn [List.length].
  repeat split; lia.
Qed.

Lemma X5_cursor_returns_Done_unwrapped_witness :
  fst (perform (stubDoneAfter 1 ClosingTransportError)
         (CallNext (documentIterator 0)) (startWorld (Some "3")))
  = Returns (docValue None, Some Done)
  /\ invocations_made (startWorld (Some "3"))
       (snd (perform (stubDoneAfter 1 ClosingTransportError)
               (CallNext (documentIterator 0)) (startWorld (Some "3"))))
     = Z.of_nat 1 + 1
  /\ refreshes_made (startWorld (Some "3"))
       (snd (perform (stubDoneAfter 1 ClosingTransportError)
               (CallNext (documentIterator 0)) (startWorld (Some "3")))) = 0.
Proof.
  apply (X5_cursor_returns_Done_unwrapped
           (stubDoneAfter 1 ClosingTransportError) (documentIterator 0)
           (startWorld (Some "3")) 1).
  - vm_compute. reflexivity.
  - intros k Hk req. exists (errorString ClosingTransportError).
    destruct k as [|k]; [split; reflexivity | lia].
  - reflexivity.
Defined.

(** ** When the refresh fails *)

(** Goes through one iteration whose backend answer fails with a retried
    message and whose refresh fails. *)
Ltac body_refresh_fails_tac c :=
  let e0 := fresh "e0" in
  let He := fresh "He" in
  let Hc := fresh "Hc" in
  intros s w Hfail Hrf; split_locals; unfold_body;
  match goal with
  | |- context [sdk_invoke ?sdk ?k ?req] =>
      destruct (Hfail req) as (e0 & He & Hc); exists req
  end;
  cbn [retries_on] in Hc; cbn [invocations refreshes environ printed];
  rewrite He, Hc;
  (split;
   [ pose proof (request_of_call_first c) as Hq;
     cbn [request_of_call first_request] in Hq |- *; exact Hq |]);
  destruct Hrf as [Hn | (a & Hn & Hf)]; rewrite Hn; try rewrite Hf;
  eexists; (split; [reflexivity|]);
  cbn [invocations refreshes environ printed]; split; reflexivity.

Section BodiesRefreshFails.

Variable sdk : SDK.

Lemma add_body_refresh_fails fireclient0 n collectionName entity i e :
  forall s w,
    fails_with sdk (retries_on (CallAdd fireclient0 collectionName entity))
      (List.length (invocations w)) ->
    refresh_fails sdk (refreshes w) e ->
    exists req,
      request_of_call (CallAdd fireclient0 collectionName entity) req = true
      /\ exists w',
          add_body sdk n collectionName entity i s w
          = (Leave (None,
                    Some (errorString
                            (refresh_failure_message
                               (CallAdd fireclient0 collectionName entity)
                               (n - i) (Error sdk e)))), w')
          /\ invocations w' = (invocations w ++ [req])%list
          /\ refreshes w' = Datatypes.S (refreshes w).
Proof. body_refresh_fails_tac (CallAdd fireclient0 collectionName entity). Qed.

Lemma get_body_refresh_fails fireclient0 n collectionName entityID i e :
  forall s w,
    fails_with sdk (retries_on (CallGet fireclient0 collectionName entityID))
      (List.length (invocations w)) ->
    refresh_fails sdk (refreshes w) e ->
    exists req,
      request_of_call (CallGet fireclient0 collectionName entityID) req = true
      /\ exists w',
          get_body sdk n collectionName entityID i s w
          = (Leave (None,
                    Some (errorString
                            (refresh_failure_message
                               (CallGet fireclient0 collectionName entityID)
                               (n - i) (Error sdk e)))), w')
          /\ invocations w' = (invocations w ++ [req])%list
          /\ refreshes w' = Datatypes.S (refreshes w).
Proof. body_refresh_fails_tac (CallGet fireclient0 collectionName entityID). Qed.

Lemma edit_body_refresh_fails fireclient0 n collectionName entityID entity i e :
  forall s w,
    fails_with sdk
      (retries_on (CallEdit fireclient0 collectionName entityID entity))
      (List.length (invocations w)) ->
    refresh_fails sdk (refreshes w) e ->
    exists req,
      request_of_call (CallEdit fireclient0 collectionName entityID entity) req
      = true
      /\ exists w',
          edit_body sdk n collectionName entityID entity i s w
          = (Leave (Some (errorString
                            (refresh_failure_message
                               (CallEdit fireclient0 collectionName entityID
                                  entity)
                               (n - i) (Error sdk e)))), w')
          /\ invocations w' = (invocations w ++ [req])%list
          /\ refreshes w' = Datatypes.S (refreshes w).
Proof.
  body_refresh_fails_tac (CallEdit fireclient0 collectionName entityID entity).
Qed.

Lemma delete_body_refresh_fails fireclient0 n collectionName entityID i e :
  forall s w,
    fails_with sdk
      (retries_on (CallDelete fireclient0 collectionName entityID))
      (List.length (invocations w)) ->
    refresh_fails sdk (refreshes w) e ->
    exists req,
      request_of_call (CallDelete fireclient0 collectionName entityID) req
      = true
      /\ exists w',
          delete_body sdk n collectionName entityID i s w
          = (Leave (resp_result
                      (sdk_invoke sdk (List.length (invocations w)) req),
                    Some (errorString
                            (refresh_failure_message
                               (CallDelete fireclient0 collectionName entityID)
                               (n - i) (Error sdk e)))), w')
          /\ invocations w' = (invocations w ++ [req])%list
          /\ refreshes w' = Datatypes.S (refreshes w).
Proof.
  body_refresh_fails_tac (CallDelete fireclient0 collectionName entityID).
Qed.

End BodiesRefreshFails.

(** X6. A failing refresh ends a CRUD call at once.  When the backend fails
    with a retried message, the first [j] refreshes succeed and the next
    one fails with error [e], the helper makes no further backend
    invocation and returns the updating-fireclient error, which carries the
    message of [e] and the number of retries that were left, budget minus
    [j].  The delete helper returns, next to that error, the write result
    of the backend answer it had just received; the others return nil. *)
Theorem X6_refresh_failure_aborts (sdk : SDK) (c : call) (w : world) (j : nat)
    (e : error) :
  is_crud c = true ->
  passes_validation c = true ->
  Z.of_nat j < budget w ->
  (forall k, (k <= j)%nat ->
             fails_with sdk (retries_on c) (List.length (invocations w) + k)) ->
  (forall k, (k < j)%nat -> refresh_succeeds sdk (refreshes w + k)) ->
  refresh_fails sdk (refreshes w + j) e ->
  exists req,
    request_of_call c req = true
    /\ fst (perform sdk c w)
       = Returns (refresh_failure_value c
                    (sdk_invoke sdk (List.length (invocations w) + j) req),
                  Some (errorString
                          (refresh_failure_message c (budget w - Z.of_nat j)
                             (Error sdk e))))
    /\ invocations_made w (snd (perform sdk c w)) = Z.of_nat j + 1
    /\ refreshes_made w (snd (perform sdk c w)) = Z.of_nat j + 1.
Proof.
  intros Hcrud Hvalid Hj Hfail Hrefresh Hrf.
  unfold invocations_made, refreshes_made.
  destruct (passes_validation_parts _ Hvalid) as [Hid Hcoll].
  assert (Hfail' : forall k, (k < j)%nat ->
            fails_with sdk (retries_on c) (List.length (invocations w) + k))
    by (intros k Hk; apply Hfail; lia).
  assert (Hlast := Hfail j (Nat.le_refl j)).
  assert (Hrefresh' : true = true -> forall k, (k < j)%nat ->
            refresh_succeeds sdk (refreshes w + k))
    by (intros _; exact Hrefresh).
  clear Hfail Hrefresh.
  destruct c as [fireclient collectionName entity
                | fireclient collectionName entityID
                | fireclient collectionName entityID entity
                | fireclient collectionName entityID
                | iter];
    try discriminate Hcrud;
    cbn [identifier_of collection_of refresh_failure_value nil_value] in *;
    run_opening w n err w0 E;
    rewrite (budget_opening w n err w0 E) in *;
    destruct (firestoreRetriesNumber_world w n err w0 E) as (_ & Hi & Hr & _);
    try rewrite (Hid _ eq_refl); try rewrite (Hcoll _ eq_refl); cbn [negb];
    rewrite <- Hi in Hfail', Hlast |- *; rewrite <- Hr in Hrefresh', Hrf |- *.
  - retried_prefix sdk (retries_on (CallAdd fireclient collectionName entity))
      true (@snd (Client * option DocumentRef) (option error))
      (add_body_retries sdk fireclient n collectionName entity)
      j n w0 Hfail' Hrefresh'.
    rewrite <- Hlen in Hlast. rewrite <- Href in Hrf.
    destruct (add_body_refresh_fails sdk fireclient n collectionName entity
                (0 + Z.of_nat j) e s' w' Hlast Hrf)
      as (req & Hq & w2 & Hb & Hinv & Href2).
    exists req. rewrite Hb. cbn [fst snd lift].
    rewrite Hinv, Href2, length_app, Hlen, Href. cbn [List.length].
    replace (n - (0 + Z.of_nat j)) with (n - Z.of_nat j) by lia.
    repeat split; try assumption; lia.
  - retried_prefix sdk (retries_on (CallGet fireclient collectionName entityID))
      true (@snd (Client * option DocumentSnapshot) (option error))
      (get_body_retries sdk fireclient n collectionName entityID)
      j n w0 Hfail' Hrefresh'.
    rewrite <- Hlen in Hlast. rewrite <- Href in Hrf.
    destruct (get_body_refresh_fails sdk fireclient n collectionName entityID
                (0 + Z.of_nat j) e s' w' Hlast Hrf)
      as (req & Hq & w2 & Hb & Hinv & Href2).
    exists req. rewrite Hb. cbn [fst snd lift].
    rewrite Hinv, Href2, length_app, Hlen, Href. cbn [List.length].
    replace (n - (0 + Z.of_nat j)) with (n - Z.of_nat j) by lia.
    repeat split; try assumption; lia.
  - retried_prefix sdk
      (retries_on (CallEdit fireclient collectionName entityID entity))
      true (@snd Client (option error))
      (edit_body_retries sdk fireclient n collectionName entityID entity)
      j n w0 Hfail' Hrefresh'.
    rewrite <- Hlen in Hlast. rewrite <- Href in Hrf.
    destruct (edit_body_refresh_fails sdk fireclient n collectionName entityID
                entity (0 + Z.of_nat j) e s' w' Hlast Hrf)
      as (req & Hq & w2 & Hb & Hinv & Href2).
    exists req. rewrite Hb. cbn [fst snd lift].
    rewrite Hinv, Href2, length_app, Hlen, Href. cbn [List.length].
    replace (n - (0 + Z.of_nat j)) with (n - Z.of_nat j) by lia.
    repeat split; try assumption; lia.
  - retried_prefix sdk
      (retries_on (CallDelete fireclient collectionName entityID))
      true (@snd (Client * option WriteResult) (option error))
      (delete_body_retries sdk fireclient n collectionName entityID)
      j n w0 Hfail' Hrefresh'.
    rewrite <- Hlen in Hlast |- *. rewrite <- Href in Hrf.
    destruct (delete_body_refresh_fails sdk fireclient n collectionName
                entityID (0 + Z.of_nat j) e s' w' Hlast Hrf)
      as (req & Hq & w2 & Hb & Hinv & Href2).
    exists req. rewrite Hb. cbn [fst snd lift].
    rewrite Hinv, Href2, length_app, Hlen, Href. cbn [List.length].
    replace (n - (0 + Z.of_nat j)) with (n - Z.of_nat j) by lia.
    repeat split; try assumption; lia.
Qed.

Lemma X6_refresh_failure_aborts_witness :
  exists req,
    request_of_call (CallDelete (client 0) "users" "u1") req = true
    /\ fst (perform (stubRefreshFails 1 ClosingTransportError "no credentials")
              (CallDelete (client 0) "users" "u1") (startWorld (Some "3")))
       = Returns (refresh_failure_value (CallDelete (client 0) "users" "u1")
                    (sdk_invoke
                       (stubRefreshFails 1 ClosingTransportError "no credentials")
                       (List.length (invocations (startWorld (Some "3"))) + 1)
                       req),
                  Some (errorString
                          (refresh_failure_message
                             (CallDelete (client 0) "users" "u1")
                             (budget (startWorld (Some "3")) - Z.of_nat 1)
                             (Error
                                (stubRefreshFails 1 ClosingTransportError
                                   "no credentials")
                                (errorString "no credentials")))))
    /\ invocations_made (startWorld (Some "3"))
         (snd (perform
                 (stubRefreshFails 1 ClosingTransportError "no credentials")
                 (CallDelete (client 0) "users" "u1") (startWorld (Some "3"))))
       = Z.of_nat 1 + 1
    /\ refreshes_made (startWorld (Some "3"))
         (snd (perform
                 (stubRefreshFails 1 ClosingTransportError "no credentials")
                 (CallDelete (client 0) "users" "u1") (startWorld (Some "3"))))
       = Z.of_nat 1 + 1.
Proof.
  apply (X6_refresh_failure_aborts
           (stubRefreshFails 1 ClosingTransportError "no credentials")
           (CallDelete (client 0) "users" "u1") (startWorld (Some "3")) 1
           (errorString "no credentials")).
  - reflexivity.
  - reflexivity.
  - vm_compute. reflexivity.
  - intros k _ req. exists (errorString ClosingTransportError).
    split; reflexivity.
  - intros k Hk. destruct k as [|k]; [|lia].
    exists (app 0), (client 1). split; reflexivity.
  - left. reflexivity.
Defined.

Example refresh_failure_run :
  perform (stubRefreshFails 1 ClosingTransportError "no credentials")
    (CallGet (client 0) "users" "u1") (startWorld (Some "3"))
  = (Returns (docValue None,
              Some (errorString
                      "error updating fireclient (2 - retries left): no credentials")),
     mkWorld [("FIRESTORE_RETRIES_NUMBER", "3")]
       [Get (client 0) "users" "u1"; Get (client 1) "users" "u1"] 2%nat
       ["application:server, logType:info, errorCode:0, message:failed to get data from the 'users' collection, Error: Unavailable desc = transport is closing. Will do retry!";
        "application:server, logType:info, errorCode:0, message:failed to get data from the 'users' collection, Error: Unavailable desc = transport is closing. Will do retry!"]).
Proof. reflexivity. Qed.

(** ** The allowlist *)

Lemma rangeNames_In (names : list string) (docName : string) :
  rangeNames names docName = true <-> In docName names.
Proof.
  induction names as [|name rest IH]; simpl.
  - split; [discriminate | intros []].
  - destruct (String.eqb name docName) eqn:E.
    + apply String.eqb_eq in E. split; [left; exact E | reflexivity].
    + apply String.eqb_neq in E. rewrite IH. split.
      * intros H. right. exact H.
      * intros [H|H]; [contradiction | exact H].
Qed.

(** X7. The allowlist is exactly the two collections [users] and
    [promo_items], compared byte for byte: any other name, also one that
    differs only in case or by surrounding blanks, is refused. *)
Theorem X7_allowlist_is_users_and_promo_items (docName : string) :
  firestoreCollectionExists docName = true
  <-> docName = "users" \/ docName = "promo_items".
Proof.
  unfold firestoreCollectionExists. rewrite rangeNames_In.
  unfold FirestoreCollectionNames, UsersCollection, PromoItemsCollection.
  simpl. split.
  - intros [H|[H|[]]]; [left | right]; symmetry; exact H.
  - intros [H|H]; [left | right; left]; symmetry; exact H.
Qed.

(** ** Secrets *)

(** Splits the two attempts of [GetSecret] into their cases. *)
Ltac secret_cases :=
  unfold GetSecret, getSecretLoop, getSecretRaw;
  cbn [s_environ clientsCreated accessed];
  repeat break_inner;
  cbn [fst snd s_environ clientsCreated accessed].

(** X8. [GetSecret] creates at most two Secret Manager clients and accesses
    at most one secret version per client, always the latest version of the
    secret [keyName] in the project named by GCLOUD_PROJECT; it does not
    touch the environment. *)
Theorem X8_GetSecret_two_attempts_one_name (sm : SecretManager)
    (keyName : string) (w : secretsWorld) :
  s_environ (snd (GetSecret sm keyName w)) = s_environ w
  /\ (clientsCreated w < clientsCreated (snd (GetSecret sm keyName w))
      <= clientsCreated w + 2)%nat
  /\ exists added,
       accessed (snd (GetSecret sm keyName w)) = (accessed w ++ added)%list
       /\ (List.length added
           <= clientsCreated (snd (GetSecret sm keyName w)) - clientsCreated w)%nat
       /\ Forall (fun name => name = secretVersionName w keyName) added.
Proof.
  unfold secretVersionName. secret_cases;
    (split; [reflexivity|]); (split; [lia|]);
    rewrite <- ?app_assoc; eexists;
    (split; [first [reflexivity | symmetry; apply app_nil_r]|]);
    cbn [List.length List.app];
    (split; [lia|]); repeat constructor.
Qed.

Ltac break_inner_eq :=
  match goal with
  | |- context [match ?x with _ => _ end] =>
      lazymatch x with
      | context [match _ with _ => _ end] => fail
      | _ => destruct x eqn:?
      end
  end.

(** X9. [GetSecret] gives up only after the second attempt: when it returns
    an error, the string next to it is empty, two clients were created, and
    the error is the one of the second attempt (of its [NewClient] or of its
    access); the error of the first attempt is dropped. *)
Theorem X9_GetSecret_error_is_the_second_one (sm : SecretManager)
    (keyName : string) (w : secretsWorld) (s : string) (e : error) :
  fst (GetSecret sm keyName w) = Returns (s, Some e) ->
  s = ""
  /\ clientsCreated (snd (GetSecret sm keyName w)) = (clientsCreated w + 2)%nat
  /\ (secretmanager_NewClient sm (Datatypes.S (clientsCreated w)) = inr e
      \/ exists client_,
           secretmanager_NewClient sm (Datatypes.S (clientsCreated w))
           = inl client_
           /\ AccessSecretVersion sm
                (List.length (accessed (snd (GetSecret sm keyName w))) - 1)
                client_ (secretVersionName w keyName)
              = inr e).
Proof.
  unfold secretVersionName, GetSecret, getSecretLoop, getSecretRaw.
  cbn [s_environ clientsCreated accessed].
  repeat break_inner_eq; cbn [fst snd s_environ clientsCreated accessed] in *;
    intros H; try discriminate H; injection H as <- <-;
    (split; [reflexivity|]); (split; [lia|]);
    rewrite ?length_app in *; cbn [List.length] in *;
    rewrite ?Nat.add_sub;
    first [ left; assumption
          | right; eexists; split; [eassumption|]; assumption ].
Qed.

Lemma X9_GetSecret_error_is_the_second_one_witness :
  "" = ""
  /\ clientsCreated
       (snd (GetSecret (stubSecrets 2 "s3cr3t") "api-key"
               (mkSecretsWorld [("GCLOUD_PROJECT", "demo")] 0%nat [])))
     = (clientsCreated (mkSecretsWorld [("GCLOUD_PROJECT", "demo")] 0%nat [])
        + 2)%nat
  /\ (secretmanager_NewClient (stubSecrets 2 "s3cr3t")
        (Datatypes.S
           (clientsCreated
              (mkSecretsWorld [("GCLOUD_PROJECT", "demo")] 0%nat [])))
      = inr (errorString "rpc error: code = Unavailable")
      \/ exists client_,
           secretmanager_NewClient (stubSecrets 2 "s3cr3t")
             (Datatypes.S
                (clientsCreated
                   (mkSecretsWorld [("GCLOUD_PROJECT", "demo")] 0%nat [])))
           = inl client_
           /\ AccessSecretVersion (stubSecrets 2 "s3cr3t")
                (List.length
                   (accessed
                      (snd (GetSecret (stubSecrets 2 "s3cr3t") "api-key"
                              (mkSecretsWorld [("GCLOUD_PROJECT", "demo")]
                                 0%nat []))))
                 - 1)
                client_
                (secretVersionName
                   (mkSecretsWorld [("GCLOUD_PROJECT", "demo")] 0%nat [])
                   "api-key")
              = inr (errorString "rpc error: code = Unavailable")).
Proof.
  apply (X9_GetSecret_error_is_the_second_one (stubSecrets 2 "s3cr3t")
           "api-key" (mkSecretsWorld [("GCLOUD_PROJECT", "demo")] 0%nat [])
           "" (errorString "rpc error: code = Unavailable")).
  reflexivity.
Defined.

(** X10. A secret that [GetSecret] returns with a nil error is the data of
    the payload of the last access it made, and that access was answered
    without error; it took one attempt or two. *)
Theorem X10_GetSecret_returns_the_accessed_data (sm : SecretManager)
    (keyName : string) (w : secretsWorld) (s : string) :
  fst (GetSecret sm keyName w) = Returns (s, None) ->
  (exists client_ result,
      AccessSecretVersion sm
        (List.length (accessed (snd (GetSecret sm keyName w))) - 1)
        client_ (secretVersionName w keyName)
      = inl result
      /\ Payload result = Some (mkSecretPayload s))
  /\ (clientsCreated w
      < clientsCreated (snd (GetSecret sm keyName w))
      <= clientsCreated w + 2)%nat.
Proof.
  unfold secretVersionName, GetSecret, getSecretLoop, getSecretRaw.
  cbn [s_environ clientsCreated accessed].
  repeat break_inner_eq; cbn [fst snd s_environ clientsCreated accessed] in *;
    intros H; try discriminate H; injection H as <-;
    (split; [|lia]);
    rewrite ?length_app in *; cbn [List.length] in *;
    rewrite ?Nat.add_sub;
    eexists; eexists; (split; [eassumption|]);
    match goal with
    | Hp : Payload _ = Some ?p |- _ => rewrite Hp; destruct p; reflexivity
    end.
Qed.

Lemma X10_GetSecret_returns_the_accessed_data_witness :
  (exists client_ result,
      AccessSecretVersion (stubSecrets 1 "s3cr3t")
        (List.length
           (accessed
              (snd (GetSecret (stubSecrets 1 "s3cr3t") "api-key"
                      (mkSecretsWorld [("GCLOUD_PROJECT", "demo")] 0%nat []))))
         - 1)
        client_
        (secretVersionName
           (mkSecretsWorld [("GCLOUD_PROJECT", "demo")] 0%nat []) "api-key")
      = inl result
      /\ Payload result = Some (mkSecretPayload "s3cr3t"))
  /\ (clientsCreated (mkSecretsWorld [("GCLOUD_PROJECT", "demo")] 0%nat [])
      < clientsCreated
          (snd (GetSecret (stubSecrets 1 "s3cr3t") "api-key"
                  (mkSecretsWorld [("GCLOUD_PROJECT", "demo")] 0%nat [])))
      <= clientsCreated (mkSecretsWorld [("GCLOUD_PROJECT", "demo")] 0%nat [])
         + 2)%nat.
Proof.
  apply (X10_GetSecret_returns_the_accessed_data (stubSecrets 1 "s3cr3t")
           "api-key" (mkSecretsWorld [("GCLOUD_PROJECT", "demo")] 0%nat [])
           "s3cr3t").
  reflexivity.
Defined.

Example GetSecret_run :
  GetSecret (stubSecrets 1 "s3cr3t") "api-key"
    (mkSecretsWorld [("GCLOUD_PROJECT", "demo")] 0%nat [])
  = (Returns ("s3cr3t", None),
     mkSecretsWorld [("GCLOUD_PROJECT", "demo")] 2%nat
       ["projects/demo/secrets/api-key/versions/latest";
        "projects/demo/secrets/api-key/versions/latest"]).
Proof. reflexivity. Qed.

(** ** Trace and execution identifiers *)

Lemma SplitByte_head (sep : ascii) (s : string) :
  exists parts, SplitByte sep s = beforeByte sep s :: parts.
Proof.
  induction s as [|c s IH]; simpl.
  - exists []. reflexivity.
  - destruct (Ascii.eqb c sep).
    + eexists. reflexivity.
    + destruct IH as [parts ->]. eexists. reflexivity.
Qed.

Lemma beforeByte_app (sep : ascii) (t rest : string) :
  freeOfByte sep t = true ->
  beforeByte sep (t ++ String sep rest) = t.
Proof.
  induction t as [|c t IH]; simpl; intros H.
  - rewrite Ascii.eqb_refl. reflexivity.
  - apply andb_prop in H. destruct H as [Hc Ht].
    apply negb_true_iff in Hc. rewrite Hc, (IH Ht). reflexivity.
Qed.

Lemma len_positive (s : string) : (0 <? GoString.len s) = negb (String.eqb s "").
Proof. destruct s; reflexivity. Qed.

(** [extractTrace] in closed form. *)
Lemma extractTrace_closed (projectID : string) (r : Request) :
  Logv2.extractTrace projectID (Some r)
  = if String.eqb projectID ""
       || String.eqb (beforeByte "/" (Header_Get r "X-Cloud-Trace-Context")) ""
    then ""
    else ("projects/" ++ projectID ++ "/traces/"
          ++ beforeByte "/" (Header_Get r "X-Cloud-Trace-Context"))%string.
Proof.
  unfold Logv2.extractTrace.
  destruct (String.eqb projectID ""); [reflexivity|]. cbn [orb].
  destruct (SplitByte_head "/" (Header_Get r "X-Cloud-Trace-Context"))
    as [parts ->].
  destruct (String.eqb (Header_Get r "X-Cloud-Trace-Context") "") eqn:E.
  - apply String.eqb_eq in E. rewrite E. reflexivity.
  - reflexivity.
Qed.

(** X11. [extractTrace] names the trace by the text of the
    X-Cloud-Trace-Context header in front of its first slash: for a header
    [T/rest] with a non-empty, slash-free [T] and a non-empty project it
    returns [projects/P/traces/T]; and it returns the empty string exactly
    when the request is nil, the project is empty, or the header is empty or
    starts with a slash. *)
Theorem X11_extractTrace_takes_the_text_before_the_slash (projectID : string)
    (r : option Request) :
  (forall req T rest,
      r = Some req ->
      String.eqb projectID "" = false ->
      String.eqb T "" = false ->
      freeOfByte "/" T = true ->
      Header_Get req "X-Cloud-Trace-Context" = (T ++ String "/" rest)%string ->
      Logv2.extractTrace projectID r
      = ("projects/" ++ projectID ++ "/traces/" ++ T)%string)
  /\ (Logv2.extractTrace projectID r = ""
      <-> r = None
          \/ projectID = ""
          \/ exists req,
               r = Some req
               /\ (Header_Get req "X-Cloud-Trace-Context" = ""
                   \/ exists rest,
                        Header_Get req "X-Cloud-Trace-Context"
                        = String "/" rest)).
Proof.
  split.
  - intros req T rest -> Hp HT Hfree Hh.
    rewrite extractTrace_closed, Hp, Hh, (beforeByte_app _ _ _ Hfree), HT.
    reflexivity.
  - destruct r as [req|]; [|split; [left; reflexivity | reflexivity]].
    rewrite extractTrace_closed.
    destruct (String.eqb projectID "") eqn:Hp; cbn [orb].
    + apply String.eqb_eq in Hp. split; [right; left; exact Hp | reflexivity].
    + apply String.eqb_neq in Hp.
      destruct (Header_Get req "X-Cloud-Trace-Context") as [|c h] eqn:Hh.
      * cbn. split; [|reflexivity]. intros _. right. right. exists req.
        split; [reflexivity | left; exact Hh].
      * cbn [beforeByte]. destruct (Ascii.eqb c "/") eqn:Ec.
        -- apply Ascii.eqb_eq in Ec. subst c. cbn. split; [|reflexivity].
           intros _. right. right. exists req. split; [reflexivity|].
           right. exists h. exact Hh.
        -- split.
           ++ cbn. intros H. destruct projectID; discriminate H.
           ++ intros [H|[H|(req' & Hreq & H)]];
                [discriminate H | contradiction |].
              injection Hreq as <-. rewrite Hh in H.
              destruct H as [H|(rest & H)]; [discriminate H|].
              injection H as -> _. rewrite Ascii.eqb_refl in Ec. discriminate Ec.
Qed.

Lemma X11_extractTrace_takes_the_text_before_the_slash_witness :
  Logv2.extractTrace "demo"
    (Some (requestWith
             [("X-Cloud-Trace-Context", "105445aa7843bc8bf206b120001000/1;o=1")]
             []))
  = "projects/demo/traces/105445aa7843bc8bf206b120001000".
Proof.
  destruct (X11_extractTrace_takes_the_text_before_the_slash "demo"
              (Some (requestWith
                       [("X-Cloud-Trace-Context",
                         "105445aa7843bc8bf206b120001000/1;o=1")] [])))
    as [Hpos _].
  apply (Hpos (requestWith
                 [("X-Cloud-Trace-Context",
                   "105445aa7843bc8bf206b120001000/1;o=1")] [])
           "105445aa7843bc8bf206b120001000" "1;o=1");
    reflexivity.
Defined.

(** X12. The three loggers agree on the trace.  The legacy [getTraceId]
    returns, for every project and request, what [extractTrace] of logv2
    returns; and when the context carries no valid span, the trace of
    [extractTraceSpanInfo] is the same again, its span is empty, and it
    reports the trace as sampled exactly when there is a trace and the
    header contains [;o=1]. *)
Theorem X12_loggers_agree_on_the_trace (projectID invoker logName : string)
    (loggingClient : option Logger.LoggingClient) (ctx : Logger.SpanContext)
    (r : option Request) :
  LoggerLegacy.getTraceId (LoggerLegacy.mkLogger projectID invoker logName) r
  = Logv2.extractTrace projectID r
  /\ (Logger.IsValid ctx = false ->
      Logger.extractTraceSpanInfo
        (Logger.mkLogger projectID invoker logName loggingClient) ctx r
      = (Logv2.extractTrace projectID r, "",
         match r with
         | Some req =>
             negb (String.eqb (Logv2.extractTrace projectID r) "")
             && GoString.Contains (Header_Get req "X-Cloud-Trace-Context")
                  ";o=1"
         | None => false
         end)).
Proof.
  split.
  - unfold LoggerLegacy.getTraceId. cbn [LoggerLegacy.ProjectID].
    destruct r as [req|]; [|destruct (String.eqb projectID ""); reflexivity].
    rewrite extractTrace_closed.
    destruct (String.eqb projectID ""); [reflexivity|]. cbn [negb orb].
    destruct (SplitByte_head "/" (Header_Get req "X-Cloud-Trace-Context"))
      as [parts ->].
    rewrite len_positive.
    destruct (String.eqb (beforeByte "/" _) ""); reflexivity.
  - intros Hinvalid. unfold Logger.extractTraceSpanInfo. rewrite Hinvalid.
    cbn [Logger.ProjectID].
    destruct r as [req|]; [|reflexivity].
    rewrite extractTrace_closed.
    destruct (String.eqb projectID "") eqn:Hp; [reflexivity|]. cbn [negb orb].
    destruct (Header_Get req "X-Cloud-Trace-Context") as [|c h] eqn:Hh;
      [reflexivity|].
    change (String.eqb (String c h) "") with false. cbn [negb].
    destruct (SplitByte_head "/" (String c h)) as [parts ->].
    rewrite len_positive.
    destruct (String.eqb (beforeByte "/" (String c h)) "") eqn:Eb;
      cbn [negb andb]; [reflexivity|].
    assert (Hne : String.eqb
                    ("projects/" ++ projectID ++ "/traces/"
                     ++ beforeByte "/" (String c h)) "" = false)
      by reflexivity.
    rewrite Hne. cbn [negb andb].
    destruct (GoString.Contains (String c h) ";o=1");
      [reflexivity|]. destruct (GoString.Contains (String c h) ";o=0");
      reflexivity.
Qed.

Lemma X12_loggers_agree_on_the_trace_witness :
  Logger.extractTraceSpanInfo
    (Logger.mkLogger "demo" "billing" "application" None)
    (Logger.mkSpanContext false "" "" false)
    (Some (requestWith [("X-Cloud-Trace-Context", "abc123/7;o=1")] []))
  = ("projects/demo/traces/abc123", "", true).
Proof.
  destruct (X12_loggers_agree_on_the_trace "demo" "billing" "application" None
              (Logger.mkSpanContext false "" "" false)
              (Some (requestWith [("X-Cloud-Trace-Context", "abc123/7;o=1")]
                       [])))
    as [_ H].
  exact (H eq_refl).
Defined.

(** X13. [extractExecutionID] answers with the header of the first key, in
    the order given, whose header is not empty; it answers with the empty
    string when the request is nil or every key has an empty header. *)
Theorem X13_extractExecutionID_first_non_empty (r : option Request)
    (keys : list string) :
  (Logv2.extractExecutionID r keys = ""
   /\ (r = None
       \/ exists req, r = Some req
                      /\ Forall (fun k => Header_Get req k = "") keys))
  \/ (Logv2.extractExecutionID r keys <> ""
      /\ exists req before k after,
           r = Some req
           /\ keys = (before ++ k :: after)%list
           /\ Forall (fun k' => Header_Get req k' = "") before
           /\ Header_Get req k = Logv2.extractExecutionID r keys).
Proof.
  destruct r as [req|]; [|left; split; [reflexivity | left; reflexivity]].
  cbn [Logv2.extractExecutionID].
  induction keys as [|k keys IH]; cbn [Logv2.rangeKeys].
  - left. split; [reflexivity|]. right. exists req. split; [reflexivity|constructor].
  - destruct (String.eqb (Header_Get req k) "") eqn:E; cbn [negb].
    + apply String.eqb_eq in E.
      destruct IH as [(H0 & [Hn|(req' & Hreq & Hall)])
                     | (Hne & req' & before & k' & after & Hreq & Hk & Hb & Hv)].
      * discriminate Hn.
      * injection Hreq as <-. left. split; [exact H0|]. right. exists req.
        split; [reflexivity|]. constructor; assumption.
      * injection Hreq as <-. right. split; [exact Hne|].
        exists req, (k :: before), k', after.
        split; [reflexivity|]. split; [rewrite Hk; reflexivity|].
        split; [constructor; assumption | exact Hv].
    + apply String.eqb_neq in E. right. split; [exact E|].
      exists req, [], k, keys. repeat split. constructor.
Qed.

(** ** Payload data *)

Lemma normalizeData_fold (items out : list Logv2.any) :
  fold_left
    (fun out it =>
       match it with
       | Logv2.anyError message => (out ++ [Logv2.anyString message])%list
       | _ => (out ++ [it])%list
       end)
    items out
  = (out ++ map normalizedItem items)%list.
Proof.
  revert out. induction items as [|it items IH]; intros out; simpl.
  - rewrite app_nil_r. reflexivity.
  - rewrite IH. destruct it; simpl; rewrite <- app_assoc; reflexivity.
Qed.

Lemma normalizedItem_idempotent (it : Logv2.any) :
  normalizedItem (normalizedItem it) = normalizedItem it.
Proof. destruct it; reflexivity. Qed.

(** X14. [normalizeData] gives nil exactly for an empty list of items.
    Otherwise its result has one entry per item, in the same order: the
    message in place of an error, every other item unchanged; no error is
    left in it, and normalizing it again changes nothing. *)
Theorem X14_normalizeData_replaces_errors_in_place (items : list Logv2.any) :
  match Logv2.normalizeData items with
  | None => items = []
  | Some out =>
      items <> []
      /\ out = map normalizedItem items
      /\ List.length out = List.length items
      /\ Forall (fun x => forall message, x <> Logv2.anyError message) out
      /\ Logv2.normalizeData out = Some out
  end.
Proof.
  destruct items as [|it items]; [reflexivity|].
  unfold Logv2.normalizeData at 1. rewrite normalizeData_fold.
  cbn [List.app]. split; [discriminate|]. split; [reflexivity|].
  split; [apply length_map|]. split.
  - apply Forall_forall. intros x Hin message ->.
    apply in_map_iff in Hin. destruct Hin as (y & Hy & _).
    destruct y; discriminate Hy.
  - cbn [map]. unfold Logv2.normalizeData. rewrite normalizeData_fold.
    cbn [List.app map]. rewrite normalizedItem_idempotent.
    rewrite map_map. f_equal. f_equal.
    apply map_ext. intros a. apply normalizedItem_idempotent.
Qed.

(** ** Query parameters *)

(** X15. [getURLParameter] answers with the first value of the key when
    that value is not empty, and with the default when the key is missing
    or its first value is empty; so it never answers with the empty string
    unless the default is empty.  Only a key bound to no value at all,
    which [url.Values] parsed from a query never holds, makes it fail. *)
Theorem X15_getURLParameter_got_or_default (r : Request)
    (queryKey defaultValue : string) :
  match URL_Query r queryKey with
  | None => getURLParameter r queryKey defaultValue = inl defaultValue
  | Some [] => getURLParameter r queryKey defaultValue = inr IndexOutOfRange
  | Some (param0 :: _) =>
      getURLParameter r queryKey defaultValue
      = inl (if String.eqb param0 "" then defaultValue else param0)
  end
  /\ (forall v,
        getURLParameter r queryKey defaultValue = inl v ->
        defaultValue <> "" -> v <> "").
Proof.
  unfold getURLParameter.
  destruct (URL_Query r queryKey) as [[|param0 rest]|].
  - split; [reflexivity|]. intros v H. discriminate H.
  - assert (Hlen : (GoString.len param0 <? 1) = String.eqb param0 "")
      by (destruct param0; [reflexivity|];
          unfold GoString.len; cbn [String.length];
          apply Z.ltb_ge; lia).
    rewrite Hlen, orb_diag.
    split; [destruct (String.eqb param0 ""); reflexivity|].
    intros v H Hd. destruct (String.eqb param0 "") eqn:E.
    + injection H as <-. exact Hd.
    + injection H as <-. apply String.eqb_neq. exact E.
  - split; [reflexivity|]. intros v H Hd. injection H as <-. exact Hd.
Qed.

Lemma X15_getURLParameter_got_or_default_witness :
  getURLParameter (requestWith [] [("page", [""; "3"])]) "page" "1" = inl "1"
  /\ "1" <> "".
Proof.
  destruct (X15_getURLParameter_got_or_default
              (requestWith [] [("page", [""; "3"])]) "page" "1") as [H1 H2].
  split.
  - exact H1.
  - apply (H2 "1"); [exact H1 | discriminate].
Defined.

(** ** Closing the logger *)

(** X16. [Close] of the logger with a reusable client closes the client
    exactly once, after flushing the named log (which it skips for an empty
    log name), also when the flush fails.  It returns nil exactly when
    neither the flush nor the close failed; a close error alone comes back
    as it is, and a flush error is reported whatever the close answers.
    Without a client, [Close] does nothing and returns nil. *)
Theorem X16_Close_always_closes_the_client (sdk : SDK) (pl : Logger.Logger) :
  match Logger.loggingClient pl with
  | None => Logger.Close sdk pl = (None, [])
  | Some c =>
      let flushed :=
        if String.eqb (Logger.LogName pl) "" then None
        else Logger.Flush c (Logger.LogName pl) in
      snd (Logger.Close sdk pl)
      = ((if String.eqb (Logger.LogName pl) "" then []
          else [Logger.Flushed (Logger.LogName pl)])
         ++ [Logger.Closed])%list
      /\ (fst (Logger.Close sdk pl) = None
          <-> flushed = None /\ Logger.Close_ c = None)
      /\ (flushed = None -> fst (Logger.Close sdk pl) = Logger.Close_ c)
      /\ (flushed <> None -> fst (Logger.Close sdk pl) <> None)
  end.
Proof.
  unfold Logger.Close. destruct (Logger.loggingClient pl) as [c|]; [|reflexivity].
  cbv zeta. destruct (String.eqb (Logger.LogName pl) ""); cbn [negb].
  - cbn [fst snd List.app]. repeat split; try tauto.
  - destruct (Logger.Flush c (Logger.LogName pl)) as [ef|];
      destruct (Logger.Close_ c) as [ec|]; cbn [fst snd List.app];
      repeat split; try congruence; try discriminate;
      try (intros [H1 H2]; congruence); try (intros H; discriminate H).
Qed.

(** ** Labels *)

Lemma find_add (m : Labels.t string) (x y : string) (v : string) :
  Labels.find y (Labels.add x v m)
  = if String.eqb x y then Some v else Labels.find y m.
Proof.
  rewrite LabelsFacts.F.add_o.
  destruct (Labels.E.eq_dec x y) as [E|E]; destruct (String.eqb x y) eqn:B;
    try reflexivity.
  - apply String.eqb_neq in B. contradiction.
  - apply String.eqb_eq in B. contradiction.
Qed.

(** Copying the bindings of [a] over [init]: a key of [a] gets the value it
    has in [a], any other key keeps the one of [init]. *)
Lemma find_fold_copy (a init : Labels.t string) (k : string) :
  Labels.find k (Labels.fold (fun k v out => Labels.add k v out) a init)
  = match Labels.find k a with
    | Some v => Some v
    | None => Labels.find k init
    end.
Proof.
  revert k.
  apply (LabelsFacts.fold_rec_bis
           (P := fun m out =>
                   forall k, Labels.find k out
                             = match Labels.find k m with
                               | Some v => Some v
                               | None => Labels.find k init
                               end)).
  - intros m m' out Heq H k. rewrite <- (Heq k). apply H.
  - intros k. rewrite LabelsFacts.F.empty_o. reflexivity.
  - intros x v out m' _ _ IH k. rewrite !find_add.
    destruct (String.eqb x k); [reflexivity | apply IH].
Qed.

(** Copying the bindings of [b] with a non-empty value over [init]. *)
Lemma find_fold_copy_non_empty (b init : Labels.t string) (k : string) :
  Labels.find k
    (Labels.fold
       (fun k v out => if String.eqb v "" then out else Labels.add k v out)
       b init)
  = match Labels.find k b with
    | Some v => if String.eqb v "" then Labels.find k init else Some v
    | None => Labels.find k init
    end.
Proof.
  revert k.
  apply (LabelsFacts.fold_rec_bis
           (P := fun m out =>
                   forall k, Labels.find k out
                             = match Labels.find k m with
                               | Some v =>
                                   if String.eqb v "" then Labels.find k init
                                   else Some v
                               | None => Labels.find k init
                               end)).
  - intros m m' out Heq H k. rewrite <- (Heq k). apply H.
  - intros k. rewrite LabelsFacts.F.empty_o. reflexivity.
  - intros x v out m' _ Hnotin IH k. rewrite find_add.
    destruct (String.eqb x k) eqn:E.
    + apply String.eqb_eq in E. subst k.
      apply LabelsFacts.F.not_find_in_iff in Hnotin.
      destruct (String.eqb v "") eqn:Ev.
      * rewrite IH, Hnotin. reflexivity.
      * rewrite find_add, String.eqb_refl. reflexivity.
    + destruct (String.eqb v "").
      * apply IH.
      * rewrite find_add, E. apply IH.
Qed.

(** The map [mergeLabels] builds when it does not return nil. *)
Lemma merged_find (a b : Labels.t string) (k : string) :
  Labels.find k
    (Labels.fold
       (fun k v out => if String.eqb v "" then out else Labels.add k v out)
       b (Labels.fold (fun k v out => Labels.add k v out) a
            (Labels.empty string)))
  = match Labels.find k b with
    | Some v => if String.eqb v "" then Labels.find k a else Some v
    | None => Labels.find k a
    end.
Proof.
  rewrite find_fold_copy_non_empty, find_fold_copy, LabelsFacts.F.empty_o.
  destruct (Labels.find k b) as [v|];
    try (destruct (String.eqb v ""));
    destruct (Labels.find k a); reflexivity.
Qed.

(** X17. [mergeLabels] returns nil exactly when both maps are empty.
    Otherwise a key maps to its value in [b] when that value is not empty,
    and else to what it maps to in [a]: an empty value in [b] neither
    overrides nor removes a label of [a], and nothing else is added. *)
Theorem X17_mergeLabels_second_wins_unless_empty (a b : Labels.t string) :
  match mergeLabels a b with
  | None => Labels.cardinal a = 0%nat /\ Labels.cardinal b = 0%nat
  | Some out =>
      ~ (Labels.cardinal a = 0%nat /\ Labels.cardinal b = 0%nat)
      /\ forall k,
           Labels.find k out
           = match Labels.find k b with
             | Some v => if String.eqb v "" then Labels.find k a else Some v
             | None => Labels.find k a
             end
  end.
Proof.
  unfold mergeLabels.
  destruct (Nat.eqb_spec (Labels.cardinal a) 0) as [Ea|Ea];
    destruct (Nat.eqb_spec (Labels.cardinal b) 0) as [Eb|Eb]; cbn [andb].
  - split; assumption.
  - split; [intros [_ H]; contradiction | apply merged_find].
  - split; [intros [H _]; contradiction | apply merged_find].
  - split; [intros [H _]; contradiction | apply merged_find].
Qed.

(** X18. The labels of a log entry of logv2 are never nil; they are the
    common labels, except that [execution_id] is the execution identifier
    of the request whenever that is not empty. *)
Theorem X18_entryLabels_carry_the_execution_id (labels : Labels.t string)
    (execID : string) :
  exists out,
    entryLabels labels execID = Some out
    /\ Labels.find "execution_id" out
       = (if String.eqb execID "" then Labels.find "execution_id" labels
          else Some execID)
    /\ forall k, k <> "execution_id" ->
                 Labels.find k out = Labels.find k labels.
Proof.
  unfold entryLabels, mergeLabels.
  change (Labels.cardinal
            (Labels.add "execution_id" execID (Labels.empty string)))
    with 1%nat.
  cbn [Nat.eqb]. rewrite andb_false_r.
  eexists. split; [reflexivity|]. split.
  - rewrite merged_find, find_add. reflexivity.
  - intros k Hk. rewrite merged_find, find_add.
    destruct (String.eqb "execution_id" k) eqn:E.
    + apply String.eqb_eq in E. congruence.
    + rewrite LabelsFacts.F.empty_o. reflexivity.
Qed.

(** ** Authorization *)

Lemma append_assoc (a b c : string) : ((a ++ b) ++ c = a ++ (b ++ c))%string.
Proof. induction a as [|x a IH]; simpl; [reflexivity | rewrite IH; reflexivity]. Qed.

Lemma append_nil_r (a : string) : (a ++ "")%string = a.
Proof. induction a as [|x a IH]; simpl; [reflexivity | rewrite IH; reflexivity]. Qed.

(** Reading a run of bytes that are no white space extends the field. *)
Lemma asciiFields_run (t rest field : string) :
  freeOfSpace t = true ->
  asciiFields (t ++ rest) field = asciiFields rest (field ++ t).
Proof.
  revert field. induction t as [|c t IH]; intros field H; simpl.
  - rewrite append_nil_r. reflexivity.
  - simpl in H. apply andb_prop in H. destruct H as [Hc Ht].
    apply negb_true_iff in Hc. rewrite Hc, (IH _ Ht), append_assoc. reflexivity.
Qed.

Lemma isASCII_app (a b : string) :
  isASCII (a ++ b) = isASCII a && isASCII b.
Proof.
  induction a as [|c a IH]; simpl; [reflexivity|].
  rewrite IH, andb_assoc. reflexivity.
Qed.

(** The two fields of a well-formed header. *)
Lemma Fields_Bearer (auth : AuthSDK) (userToken : string) :
  isASCII userToken = true ->
  freeOfSpace userToken = true ->
  String.eqb userToken "" = false ->
  Fields auth ("Bearer " ++ userToken) = ["Bearer"; userToken].
Proof.
  intros Ha Hs Hn. unfold Fields.
  rewrite isASCII_app, Ha.
  change (isASCII "Bearer " && true) with true. cbv iota.
  change ("Bearer " ++ userToken)%string
    with ("Bearer" ++ (String " " userToken))%string.
  rewrite (asciiFields_run "Bearer" (String " " userToken) "" eq_refl).
  cbn [append asciiFields]. change (asciiSpace " ") with true. cbv iota.
  change (String.eqb "Bearer" "") with false. cbv iota.
  rewrite <- (append_nil_r userToken) at 1.
  rewrite (asciiFields_run userToken "" "" Hs).
  cbn [append asciiFields]. rewrite Hn. reflexivity.
Qed.

(** X19. [checkFirebaseUserAuthorized] hands out a token only together with
    status 200, and a call that returns does so with status 200, 401 or
    500.  Status 200 means that the Authorization header has exactly two
    fields, the first being [Bearer], that the Auth client was obtained, and
    that the token returned is the one [VerifyIDToken] gave, without an
    error, for the second field; nothing is logged then. *)
Theorem X19_token_only_with_status_200 (sdk : SDK) (auth : AuthSDK)
    (fireapp : App) (fireclient : Client) (r : option Request) (w : world)
    (tok : option Token) (status : Z) :
  fst (checkFirebaseUserAuthorized sdk auth fireapp fireclient r w)
  = Returns (tok, status) ->
  (status = 200 \/ status = 401 \/ status = 500)
  /\ (tok <> None <-> status = 200)
  /\ (status = 200 ->
      exists req userToken authClient t,
        r = Some req
        /\ Fields auth (Header_Get req "Authorization") = ["Bearer"; userToken]
        /\ App_Auth auth fireapp = inl authClient
        /\ VerifyIDToken auth authClient userToken = (Some t, None)
        /\ tok = Some t
        /\ snd (checkFirebaseUserAuthorized sdk auth fireapp fireclient r w)
           = w).
Proof.
  unfold checkFirebaseUserAuthorized.
  destruct r as [req|]; [|discriminate].
  destruct (String.eqb (Header_Get req "Authorization") "");
    [cbn [fst]; intros H; injection H as <- <-;
     repeat split; try tauto; try discriminate; try congruence|].
  destruct (Fields auth (Header_Get req "Authorization"))
    as [|f0 [|userToken [|f2 rest]]] eqn:EF;
    try (cbn [fst]; intros H; injection H as <- <-;
         repeat split; try tauto; try discriminate; try congruence).
  destruct (String.eqb f0 "Bearer") eqn:EB; cbn [negb];
    [|cbn [fst]; intros H; injection H as <- <-;
      repeat split; try tauto; try discriminate; try congruence].
  apply String.eqb_eq in EB. subst f0.
  destruct (App_Auth auth fireapp) as [authClient|e] eqn:EA;
    [|cbn [fst]; intros H; injection H as <- <-;
      repeat split; try tauto; try discriminate; try congruence].
  destruct (VerifyIDToken auth authClient userToken) as [[t|] [e|]] eqn:EV;
    cbn [fst snd]; intros H; try discriminate H; injection H as <- <-;
    repeat split; try tauto; try discriminate; try congruence.
  intros _. exists req, userToken, authClient, t. repeat split; assumption.
Qed.

Lemma X19_token_only_with_status_200_witness :
  (200 = 200 \/ 200 = 401 \/ 200 = 500)
  /\ (Some (mkToken "uid-1") <> None <-> 200 = 200)
  /\ (200 = 200 ->
      exists req userToken authClient t,
        Some (requestWith [("Authorization", "Bearer  abc.def")] []) = Some req
        /\ Fields (stubAuth "abc.def" "uid-1")
             (Header_Get req "Authorization") = ["Bearer"; userToken]
        /\ App_Auth (stubAuth "abc.def" "uid-1") (app 0) = inl authClient
        /\ VerifyIDToken (stubAuth "abc.def" "uid-1") authClient userToken
           = (Some t, None)
        /\ Some (mkToken "uid-1") = Some t
        /\ snd (checkFirebaseUserAuthorized (stubAlways "")
                  (stubAuth "abc.def" "uid-1") (app 0) (client 0)
                  (Some (requestWith [("Authorization", "Bearer  abc.def")] []))
                  (startWorld None))
           = startWorld None).
Proof.
  apply (X19_token_only_with_status_200 (stubAlways "")
           (stubAuth "abc.def" "uid-1") (app 0) (client 0)
           (Some (requestWith [("Authorization", "Bearer  abc.def")] []))
           (startWorld None) (Some (mkToken "uid-1")) 200).
  reflexivity.
Defined.

(** X20. For a header [Bearer T], with one space and a non-empty token [T]
    of ASCII bytes without white space, and an Auth client at hand, the
    verdict is that of [VerifyIDToken] on exactly [T]: its token with status
    200 when it gives a token and no error; status 401, no token and a log
    line with the message of the error when it gives an error, even if a
    token comes with it; and a panic, on the nil error it tries to print,
    when it gives neither. *)
Theorem X20_Bearer_token_is_verified_as_given (sdk : SDK) (auth : AuthSDK)
    (fireapp : App) (fireclient : Client) (req : Request) (w : world)
    (userToken : string) (authClient : AuthClient) :
  isASCII userToken = true ->
  freeOfSpace userToken = true ->
  String.eqb userToken "" = false ->
  Header_Get req "Authorization" = ("Bearer " ++ userToken)%string ->
  App_Auth auth fireapp = inl authClient ->
  checkFirebaseUserAuthorized sdk auth fireapp fireclient (Some req) w
  = match VerifyIDToken auth authClient userToken with
    | (Some t, None) => (Returns (Some t, 200), w)
    | (_, Some e) =>
        (Returns (None, 401),
         mkWorld (environ w) (invocations w) (refreshes w)
           (printed w
            ++ [("application:server, logType:info, errorCode:0, message:authClient.VerifyIDTokenError: "
                 ++ Error sdk e)%string])%list)
    | (None, None) => (Panics NilPointerDereference, w)
    end.
Proof.
  intros Ha Hs Hn Hh HA. unfold checkFirebaseUserAuthorized.
  rewrite Hh, (Fields_Bearer auth userToken Ha Hs Hn), HA.
  change (String.eqb ("Bearer " ++ userToken) "") with false.
  change (String.eqb "Bearer" "Bearer") with true. cbn [negb].
  destruct (VerifyIDToken auth authClient userToken) as [[t|] [e|]];
    reflexivity.
Qed.

Lemma X20_Bearer_token_is_verified_as_given_witness :
  checkFirebaseUserAuthorized (stubAlways "") stubAuthSilent (app 0) (client 0)
    (Some (requestWith [("Authorization", "Bearer abc.def")] []))
    (startWorld None)
  = match VerifyIDToken stubAuthSilent (mkAuthClient 0) "abc.def" with
    | (Some t, None) => (Returns (Some t, 200), startWorld None)
    | (_, Some e) =>
        (Returns (None, 401),
         mkWorld (environ (startWorld None)) (invocations (startWorld None))
           (refreshes (startWorld None))
           (printed (startWorld None)
            ++ [("application:server, logType:info, errorCode:0, message:authClient.VerifyIDTokenError: "
                 ++ Error (stubAlways "") e)%string])%list)
    | (None, None) => (Panics NilPointerDereference, startWorld None)
    end.
Proof.
  apply (X20_Bearer_token_is_verified_as_given (stubAlways "") stubAuthSilent
           (app 0) (client 0)
           (requestWith [("Authorization", "Bearer abc.def")] [])
           (startWorld None) "abc.def" (mkAuthClient 0));
    reflexivity.
Defined.

Example authorization_runs :
  fst (checkFirebaseUserAuthorized (stubAlways "") (stubAuth "abc.def" "uid-1")
         (app 0) (client 0)
         (Some (requestWith [("Authorization", "Bearer abc.def")] []))
         (startWorld None))
  = Returns (Some (mkToken "uid-1"), 200)
  /\ fst (checkFirebaseUserAuthorized (stubAlways "")
            (stubAuth "abc.def" "uid-1") (app 0) (client 0)
            (Some (requestWith [("Authorization", "bearer abc.def")] []))
            (startWorld None))
     = Returns (None, 401)
  /\ fst (checkFirebaseUserAuthorized (stubAlways "") stubAuthSilent
            (app 0) (client 0)
            (Some (requestWith [("Authorization", "Bearer abc.def")] []))
            (startWorld None))
     = Panics NilPointerDereference.
Proof. repeat split; reflexivity. Qed.
